(** * NETR challenge/response client (libmlsvc, netr_auth.c)

    A shallow embedding of the NETLOGON session-key negotiation client:
    the DC mitigation check, the two session-key derivations, credential
    generation, the authenticate exchange and the trust-password change.

    C data is modelled as follows.  A [uint8_t]/[BYTE] is a [Z] in
    [0, 256); a [DWORD]/[uint32_t] is a [Z] with its wrap-around modulo
    [2^32] written out; byte buffers are [list Z]; C strings that are only
    passed around are [string].  The external collaborators (RPC
    transport, configuration, crypto primitives, PKCS#11 digest session)
    are the fields of a type class, so that every statement below holds
    for every behaviour of the outside world. *)

From Stdlib Require Import String ZArith List Bool Lia Arith.
Import ListNotations.
Local Open Scope Z_scope.

(** ** Bytes, buffers and the byte-order macros *)

Definition is_byte (b : Z) : Prop := 0 <= b < 256.
Definition is_dword (v : Z) : Prop := 0 <= v < 2 ^ 32.

(** [bzero(buf, sizeof (buf))] / [explicit_bzero]: every byte of the
    buffer becomes zero, the size of the buffer is kept. *)
Definition bzero (buf : list Z) : list Z := repeat 0 (length buf).

(** [memcpy(dst, src, n)] at offset 0 of a destination at least [n] bytes
    long, where [src] holds exactly the [n] bytes written. *)
Definition buf_write (dst src : list Z) : list Z :=
  src ++ skipn (length src) dst.

(** [&buf[off]] read for [n] bytes. *)
Definition slice (off n : nat) (buf : list Z) : list Z :=
  firstn n (skipn off buf).

(** [memcmp(a, b, n)] on buffers holding at least [n] bytes: zero when the
    first [n] bytes agree, else the difference of the first pair of bytes
    that differ. *)
Fixpoint memcmp (a b : list Z) (n : nat) : Z :=
  match n with
  | O => 0
  | S n' =>
      match a, b with
      | x :: a', y :: b' => if x =? y then memcmp a' b' n' else x - y
      | _, _ => 0
      end
  end.

(** Wrap-around of [DWORD] arithmetic. *)
Definition dword (v : Z) : Z := v mod 2 ^ 32.

(** Modelled from the spec: the byte-order macros [LE_IN32] / [LE_OUT32]
    come from a system header that is not part of the sources at hand; the
    spec fixes them as little-endian 32-bit decoding and encoding.  They
    are written here with the shifts and masks such macros are made of. *)
Definition LE_IN8 (p : list Z) (off : nat) : Z := nth off p 0.
Definition LE_IN16 (p : list Z) (off : nat) : Z :=
  Z.lor (Z.shiftl (LE_IN8 p (off + 1)) 8) (LE_IN8 p off).
Definition LE_IN32 (p : list Z) (off : nat) : Z :=
  Z.lor (Z.shiftl (LE_IN16 p (off + 2)) 16) (LE_IN16 p off).

Definition LE_OUT8 (v : Z) : Z := Z.land v 255.
Definition LE_OUT16 (v : Z) : list Z := [LE_OUT8 v; LE_OUT8 (Z.shiftr v 8)].
Definition LE_OUT32 (v : Z) : list Z := LE_OUT16 v ++ LE_OUT16 (Z.shiftr v 16).

(** ** passes_dc_mitigation (lines 119-137) *)

(** The inner [for (j = 0; j < 5; j++)] loop with its [break]: started at
    [j] with [n] iterations left, it yields the value of [j] on exit. *)
Fixpoint mitigation_inner (buf : list Z) (i j : nat) (n : nat) : nat :=
  match n with
  | O => j
  | S n' =>
      if negb (Nat.eqb i j) && (nth i buf 0 =? nth j buf 0)
      then j
      else mitigation_inner buf i (S j) n'
  end.

(** The outer [for (i = 0; i < 5; i++)] loop with its early return. *)
Fixpoint mitigation_outer (buf : list Z) (i : nat) (n : nat) : bool :=
  match n with
  | O => false
  | S n' =>
      if Nat.eqb (mitigation_inner buf i 0 5) 5
      then true
      else mitigation_outer buf (S i) n'
  end.

Definition passes_dc_mitigation (buf : list Z) : bool :=
  mitigation_outer buf 0 5.

(** A byte of the first five is unique when no other of the five equals it. *)
Definition unique_among_first5 (buf : list Z) (i : nat) : Prop :=
  (i < 5)%nat /\
  forall j, (j < 5)%nat -> j <> i -> nth i buf 0 <> nth j buf 0.

(** The claim's reading of the check: every one of the first five bytes has
    a duplicate among the other four. *)
Definition all_first5_duplicated (buf : list Z) : Prop :=
  forall i, (i < 5)%nat ->
    exists j, (j < 5)%nat /\ j <> i /\ nth i buf 0 = nth j buf 0.

(** ** Constants *)

(** Defined in netr_auth.c itself. *)
Definition NETR_SESSKEY_ZEROBUF_SZ : nat := 4.
Definition NETR_DESKEY_LEN : nat := 7.
Definition NETR_CFG_DISABLE_SECURE_RPC : Z := 0x00000001.
Definition NETR_CFG_DISABLE_RESP_VERIF : Z := 0x00000002.
Definition NETR_CFG_DISABLE_SAMLOGONEX : Z := 0x00000004.

(** Modelled from the spec: the buffer sizes of the netrauth/libsmb headers,
    which are not part of the sources at hand.  The spec fixes them:
    8-byte challenges and credentials, 8- and 16-byte session keys, 16-byte
    password blobs, a 16-byte password hash and digest. *)
Definition NETR_CRED_DATA_SZ : nat := 8.
Definition NETR_SESSKEY64_SZ : nat := 8.
Definition NETR_SESSKEY128_SZ : nat := 16.
Definition NETR_OWF_PASSWORD_SZ : nat := 16.
Definition SMBAUTH_HASH_SZ : nat := 16.
Definition MD_DIGEST_LEN : nat := 16.

(** Modelled from the spec: the result codes of the libsmb authentication
    helpers, [SMBAUTH_SUCCESS], [SMBAUTH_FAILURE] and [SMBAUTH_RETRY],
    whose header is not part of the sources at hand.  The spec names the
    three outcomes (a credential, RETRY, FAILURE); the code only compares
    them with one another, so they are an enumeration here. *)
Inductive smbauth : Type :=
  | SMBAUTH_SUCCESS
  | SMBAUTH_FAILURE
  | SMBAUTH_RETRY.

Definition smbauth_eqb (a b : smbauth) : bool :=
  match a, b with
  | SMBAUTH_SUCCESS, SMBAUTH_SUCCESS => true
  | SMBAUTH_FAILURE, SMBAUTH_FAILURE => true
  | SMBAUTH_RETRY, SMBAUTH_RETRY => true
  | _, _ => false
  end.

(** The remaining header constants the code names, taken as parameters:
    nothing below depends on their values unless a statement says so. *)
Class NetrHeaders : Type := {
  NETR_FLG_VALID : Z;
  NETR_NEGO_BASE_FLAGS : Z;
  NETR_NEGO_STRONGKEY_FLAG : Z;
  NETR_NEGO_SECURE_RPC_FLAG : Z;
  NETR_WKSTA_TRUST_ACCOUNT_TYPE : Z;
  NT_STATUS_SUCCESS : Z;
  NT_STATUS_UNSUCCESSFUL : Z;
  SMBD_SMF_OK : Z;
  CKR_OK : Z;
  NETBIOS_NAME_SZ : nat;
  SMB_USERNAME_MAXLEN : nat;
  (** [sizeof (netr_info->server)], [sizeof (netr_info->nb_domain)],
      [sizeof (netr_info->fqdn_domain)] *)
  sizeof_server : nat;
  sizeof_nb_domain : nat;
  sizeof_fqdn_domain : nat
}.

(** ** Data model *)

(** [netr_session_key_t] *)
Record netr_session_key : Type := {
  key : list Z;
  len : nat
}.

(** [netr_info_t], the fields the code at hand reads or writes, and the
    timestamp the authenticator helpers keep. *)
Record netr_info : Type := {
  flags : Z;
  server : string;
  hostname : string;
  nb_domain : string;
  fqdn_domain : string;
  client_challenge : list Z;
  server_challenge : list Z;
  client_credential : list Z;
  server_credential : list Z;
  session_key : netr_session_key;
  password : list Z;
  nego_flags : Z;
  timestamp : Z;
  use_secure_rpc : bool;
  use_logon_ex : bool
}.

Definition set_flags (i : netr_info) (v : Z) : netr_info :=
  {| flags := v; server := server i; hostname := hostname i;
     nb_domain := nb_domain i; fqdn_domain := fqdn_domain i;
     client_challenge := client_challenge i;
     server_challenge := server_challenge i;
     client_credential := client_credential i;
     server_credential := server_credential i;
     session_key := session_key i; password := password i;
     nego_flags := nego_flags i; timestamp := timestamp i;
     use_secure_rpc := use_secure_rpc i; use_logon_ex := use_logon_ex i |}.

Definition set_server (i : netr_info) (v : string) : netr_info :=
  {| flags := flags i; server := v; hostname := hostname i;
     nb_domain := nb_domain i; fqdn_domain := fqdn_domain i;
     client_challenge := client_challenge i;
     server_challenge := server_challenge i;
     client_credential := client_credential i;
     server_credential := server_credential i;
     session_key := session_key i; password := password i;
     nego_flags := nego_flags i; timestamp := timestamp i;
     use_secure_rpc := use_secure_rpc i; use_logon_ex := use_logon_ex i |}.

Definition set_hostname (i : netr_info) (v : string) : netr_info :=
  {| flags := flags i; server := server i; hostname := v;
     nb_domain := nb_domain i; fqdn_domain := fqdn_domain i;
     client_challenge := client_challenge i;
     server_challenge := server_challenge i;
     client_credential := client_credential i;
     server_credential := server_credential i;
     session_key := session_key i; password := password i;
     nego_flags := nego_flags i; timestamp := timestamp i;
     use_secure_rpc := use_secure_rpc i; use_logon_ex := use_logon_ex i |}.

Definition set_nb_domain (i : netr_info) (v : string) : netr_info :=
  {| flags := flags i; server := server i; hostname := hostname i;
     nb_domain := v; fqdn_domain := fqdn_domain i;
     client_challenge := client_challenge i;
     server_challenge := server_challenge i;
     client_credential := client_credential i;
     server_credential := server_credential i;
     session_key := session_key i; password := password i;
     nego_flags := nego_flags i; timestamp := timestamp i;
     use_secure_rpc := use_secure_rpc i; use_logon_ex := use_logon_ex i |}.

Definition set_fqdn_domain (i : netr_info) (v : string) : netr_info :=
  {| flags := flags i; server := server i; hostname := hostname i;
     nb_domain := nb_domain i; fqdn_domain := v;
     client_challenge := client_challenge i;
     server_challenge := server_challenge i;
     client_credential := client_credential i;
     server_credential := server_credential i;
     session_key := session_key i; password := password i;
     nego_flags := nego_flags i; timestamp := timestamp i;
     use_secure_rpc := use_secure_rpc i; use_logon_ex := use_logon_ex i |}.

Definition set_client_challenge (i : netr_info) (v : list Z) : netr_info :=
  {| flags := flags i; server := server i; hostname := hostname i;
     nb_domain := nb_domain i; fqdn_domain := fqdn_domain i;
     client_challenge := v;
     server_challenge := server_challenge i;
     client_credential := client_credential i;
     server_credential := server_credential i;
     session_key := session_key i; password := password i;
     nego_flags := nego_flags i; timestamp := timestamp i;
     use_secure_rpc := use_secure_rpc i; use_logon_ex := use_logon_ex i |}.

Definition set_server_challenge (i : netr_info) (v : list Z) : netr_info :=
  {| flags := flags i; server := server i; hostname := hostname i;
     nb_domain := nb_domain i; fqdn_domain := fqdn_domain i;
     client_challenge := client_challenge i;
     server_challenge := v;
     client_credential := client_credential i;
     server_credential := server_credential i;
     session_key := session_key i; password := password i;
     nego_flags := nego_flags i; timestamp := timestamp i;
     use_secure_rpc := use_secure_rpc i; use_logon_ex := use_logon_ex i |}.

Definition set_client_credential (i : netr_info) (v : list Z) : netr_info :=
  {| flags := flags i; server := server i; hostname := hostname i;
     nb_domain := nb_domain i; fqdn_domain := fqdn_domain i;
     client_challenge := client_challenge i;
     server_challenge := server_challenge i;
     client_credential := v;
     server_credential := server_credential i;
     session_key := session_key i; password := password i;
     nego_flags := nego_flags i; timestamp := timestamp i;
     use_secure_rpc := use_secure_rpc i; use_logon_ex := use_logon_ex i |}.

Definition set_server_credential (i : netr_info) (v : list Z) : netr_info :=
  {| flags := flags i; server := server i; hostname := hostname i;
     nb_domain := nb_domain i; fqdn_domain := fqdn_domain i;
     client_challenge := client_challenge i;
     server_challenge := server_challenge i;
     client_credential := client_credential i;
     server_credential := v;
     session_key := session_key i; password := password i;
     nego_flags := nego_flags i; timestamp := timestamp i;
     use_secure_rpc := use_secure_rpc i; use_logon_ex := use_logon_ex i |}.

Definition set_session_key (i : netr_info) (v : netr_session_key)
  : netr_info :=
  {| flags := flags i; server := server i; hostname := hostname i;
     nb_domain := nb_domain i; fqdn_domain := fqdn_domain i;
     client_challenge := client_challenge i;
     server_challenge := server_challenge i;
     client_credential := client_credential i;
     server_credential := server_credential i;
     session_key := v; password := password i;
     nego_flags := nego_flags i; timestamp := timestamp i;
     use_secure_rpc := use_secure_rpc i; use_logon_ex := use_logon_ex i |}.

Definition set_password (i : netr_info) (v : list Z) : netr_info :=
  {| flags := flags i; server := server i; hostname := hostname i;
     nb_domain := nb_domain i; fqdn_domain := fqdn_domain i;
     client_challenge := client_challenge i;
     server_challenge := server_challenge i;
     client_credential := client_credential i;
     server_credential := server_credential i;
     session_key := session_key i; password := v;
     nego_flags := nego_flags i; timestamp := timestamp i;
     use_secure_rpc := use_secure_rpc i; use_logon_ex := use_logon_ex i |}.

Definition set_nego_flags (i : netr_info) (v : Z) : netr_info :=
  {| flags := flags i; server := server i; hostname := hostname i;
     nb_domain := nb_domain i; fqdn_domain := fqdn_domain i;
     client_challenge := client_challenge i;
     server_challenge := server_challenge i;
     client_credential := client_credential i;
     server_credential := server_credential i;
     session_key := session_key i; password := password i;
     nego_flags := v; timestamp := timestamp i;
     use_secure_rpc := use_secure_rpc i; use_logon_ex := use_logon_ex i |}.

Definition set_use_secure_rpc (i : netr_info) (v : bool) : netr_info :=
  {| flags := flags i; server := server i; hostname := hostname i;
     nb_domain := nb_domain i; fqdn_domain := fqdn_domain i;
     client_challenge := client_challenge i;
     server_challenge := server_challenge i;
     client_credential := client_credential i;
     server_credential := server_credential i;
     session_key := session_key i; password := password i;
     nego_flags := nego_flags i; timestamp := timestamp i;
     use_secure_rpc := v; use_logon_ex := use_logon_ex i |}.

Definition set_use_logon_ex (i : netr_info) (v : bool) : netr_info :=
  {| flags := flags i; server := server i; hostname := hostname i;
     nb_domain := nb_domain i; fqdn_domain := fqdn_domain i;
     client_challenge := client_challenge i;
     server_challenge := server_challenge i;
     client_credential := client_credential i;
     server_credential := server_credential i;
     session_key := session_key i; password := password i;
     nego_flags := nego_flags i; timestamp := timestamp i;
     use_secure_rpc := use_secure_rpc i; use_logon_ex := v |}.

(** [struct netr_authenticator] *)
Record netr_authenticator : Type := {
  auth_credential : list Z;
  auth_timestamp : Z
}.

(** [struct netr_ServerReqChallenge]: the in/out argument of the RPC. *)
Record netr_ServerReqChallenge : Type := {
  rc_servername : string;
  rc_hostname : string;
  rc_client_challenge : list Z;
  rc_server_challenge : list Z;
  rc_status : Z
}.

(** [struct netr_ServerAuthenticate2] *)
Record netr_ServerAuthenticate2 : Type := {
  sa_servername : string;
  sa_account_name : string;
  sa_account_type : Z;
  sa_hostname : string;
  sa_client_credential : list Z;
  sa_server_credential : list Z;
  sa_negotiate_flags : Z;
  sa_status : Z
}.

(** [struct netr_PasswordSet] *)
Record netr_PasswordSet : Type := {
  ps_servername : string;
  ps_account_name : string;
  ps_sec_chan_type : Z;
  ps_hostname : string;
  ps_auth : netr_authenticator;
  ps_owf_password : list Z;
  ps_status : Z
}.

(** Calls made to collaborators that only act on the outside world; the
    model keeps them in a log, newest first. *)
Inductive ext_call : Type :=
  | Call_ndr_rpc_bind (server domain user : string)
  | Call_ndr_rpc_bind_secure (server domain user : string) (ctx_id : Z)
  | Call_ndr_rpc_unbind
  | Call_ndr_rpc_call_ServerReqChallenge
  | Call_ndr_rpc_call_ServerAuthenticate2
  | Call_ndr_rpc_call_PasswordSet
  | Call_ndr_rpc_status (status : Z)
  | Call_ndr_rpc_release
  | Call_smb_update_netlogon_seqnum
  | Call_syslog.

(** The process-wide state: [netr_global_info], the two fields of
    [netr_ssp_ctx] the code writes, the [auth_context_id] counter, the
    number of [arc4random] draws made so far and the log. *)
Record world : Type := {
  netr_global_info : netr_info;
  ssp_auth_verify_resp : bool;
  ssp_auth_context_id : Z;
  auth_context_id : Z;
  arc4_draws : nat;
  ext_log : list ext_call
}.

Definition put_info (w : world) (i : netr_info) : world :=
  {| netr_global_info := i;
     ssp_auth_verify_resp := ssp_auth_verify_resp w;
     ssp_auth_context_id := ssp_auth_context_id w;
     auth_context_id := auth_context_id w;
     arc4_draws := arc4_draws w;
     ext_log := ext_log w |}.

Definition log_call (c : ext_call) (w : world) : world :=
  {| netr_global_info := netr_global_info w;
     ssp_auth_verify_resp := ssp_auth_verify_resp w;
     ssp_auth_context_id := ssp_auth_context_id w;
     auth_context_id := auth_context_id w;
     arc4_draws := arc4_draws w;
     ext_log := c :: ext_log w |}.

(** ** External collaborators *)

(** Each field is one collaborator, with the inputs the code hands it and
    the outputs the code reads back.  A buffer-filling routine returns the
    contents of the buffer after the call next to its return code. *)
Class NetrExtern : Type := {
  smb_ipc_get_user : nat -> string;
  ndr_rpc_bind : string -> string -> string -> Z;
  ndr_rpc_bind_secure : string -> string -> string -> Z -> Z;
  ndr_rpc_call_ServerReqChallenge :
    netr_ServerReqChallenge -> Z * netr_ServerReqChallenge;
  ndr_rpc_call_ServerAuthenticate2 :
    netr_ServerAuthenticate2 -> Z * netr_ServerAuthenticate2;
  ndr_rpc_call_PasswordSet : netr_PasswordSet -> Z * netr_PasswordSet;
  smb_getnetbiosname : nat -> Z * string;
  smb_getdomainname : nat -> Z * string;
  smb_getfqdomainname : nat -> Z * string;
  (** the n-th draw of the random source *)
  arc4random : nat -> Z;
  (** [smb_config_getstr(SMB_CI_MACHINE_PASSWD, buf, size)] *)
  smb_config_getstr_MACHINE_PASSWD : list Z -> Z * list Z;
  (** [smb_auth_ntlm_hash(password, hash)] *)
  smb_auth_ntlm_hash : list Z -> smbauth * list Z;
  (** [smb_auth_hmac_md5(data, data_len, key, key_len, digest)] *)
  smb_auth_hmac_md5 : list Z -> list Z -> smbauth * list Z;
  (** [smb_auth_DES(result, 8, key, 7, data, 8)], as key and data *)
  smb_auth_DES : list Z -> list Z -> smbauth * list Z;
  (** return values of the PKCS#11 digest calls; the updates are numbered *)
  SUNW_C_GetMechSession : Z;
  C_DigestInit : Z;
  C_DigestUpdate : nat -> Z;
  C_DigestFinal : Z;
  (** the MD5 digest a session yields for the bytes it was fed *)
  md5 : list Z -> list Z;
  (** the two authenticator helpers of netr_logon.c *)
  netr_setup_authenticator :
    netr_info -> smbauth * netr_info * netr_authenticator;
  netr_validate_chain : netr_info -> netr_authenticator -> Z * netr_info
}.

(** ** A small state monad over [world] *)

Definition M (A : Type) : Type := world -> A * world.

Definition ret {A : Type} (a : A) : M A := fun w => (a, w).

Definition bind {A B : Type} (c : M A) (k : A -> M B) : M B :=
  fun w => let '(a, w') := c w in k a w'.

Definition emit (c : ext_call) : M unit := fun w => (tt, log_call c w).

Definition get_info : M netr_info := fun w => (netr_global_info w, w).

Definition set_info (i : netr_info) : M unit := fun w => (tt, put_info w i).

Notation "x <- c ;; k" := (bind c (fun x => k))
  (at level 61, c at next level, right associativity).
Notation "c ;;; k" := (bind c (fun _ => k))
  (at level 61, right associativity).

(** [snprintf(buf, size, ...)] of a string: at most [size - 1] characters
    are stored. *)
Definition snprintf (size : nat) (s : string) : string :=
  substring 0 (size - 1) s.

Section Netr.

Context {H : NetrHeaders} {E : NetrExtern}.

(** ** netlogon_init_global (lines 95-104) *)

Definition netlogon_init_global (cfg : Z) : M unit := fun w =>
  let i := netr_global_info w in
  let i := set_use_secure_rpc i
             (Z.land cfg NETR_CFG_DISABLE_SECURE_RPC =? 0) in
  let verify := Z.land cfg NETR_CFG_DISABLE_RESP_VERIF =? 0 in
  let i := set_use_logon_ex i
             (Z.land cfg NETR_CFG_DISABLE_SAMLOGONEX =? 0) in
  (tt, {| netr_global_info := i;
          ssp_auth_verify_resp := verify;
          ssp_auth_context_id := ssp_auth_context_id w;
          auth_context_id := auth_context_id w;
          arc4_draws := arc4_draws w;
          ext_log := ext_log w |}).

(** ** netr_gen_credentials (lines 630-667) *)

(** Lines 640-645: the eight bytes of [le_data]. *)
Definition credential_le_data (challenge : list Z) (timestamp : Z) : list Z :=
  let data0 := dword (LE_IN32 challenge 0 + timestamp) in
  let data1 := LE_IN32 challenge 4 in
  LE_OUT32 data0 ++ LE_OUT32 data1.

(** Returns the result code and the contents of [out_cred->data]. *)
Definition netr_gen_credentials (session_key : list Z) (challenge : list Z)
    (timestamp : Z) (out_cred : list Z) (retry : bool)
  : smbauth * list Z :=
  let le_data := credential_le_data challenge timestamp in
  let '(rc1, buffer) :=
    smb_auth_DES (slice 0 NETR_DESKEY_LEN session_key) (firstn 8 le_data) in
  if negb (smbauth_eqb rc1 SMBAUTH_SUCCESS) then (SMBAUTH_FAILURE, out_cred)
  else
    let '(rc, out) :=
      smb_auth_DES (slice NETR_DESKEY_LEN NETR_DESKEY_LEN session_key)
                   (firstn 8 buffer) in
    if retry && negb (passes_dc_mitigation out) then (SMBAUTH_RETRY, out)
    else (rc, out).

(** ** netr_gen_password (lines 763-776) *)

(** [new_password] is the caller's 16-byte array as it stands on entry. *)
Definition netr_gen_password (session_key old_password new_password : list Z)
  : smbauth * list Z :=
  let '(rv, out1) :=
    smb_auth_DES (slice 0 NETR_DESKEY_LEN session_key)
                 (slice 0 8 old_password) in
  let new_password := buf_write new_password out1 in
  if negb (smbauth_eqb rv SMBAUTH_SUCCESS) then (rv, new_password)
  else
    let '(rv, out2) :=
      smb_auth_DES (slice NETR_DESKEY_LEN NETR_DESKEY_LEN session_key)
                   (slice 8 8 old_password) in
    (rv, firstn 8 new_password ++ buf_write (skipn 8 new_password) out2).

(** ** netr_gen_skey128 (lines 433-514)

    The PKCS#11 session is fed the zero buffer and the two challenges in
    this order; when every call succeeds, [C_DigestFinal] yields the MD5
    digest of the bytes fed, that is of their concatenation. *)

(** The exit through [errout]/[cleanup]: the password is wiped. *)
Definition wipe_password (i : netr_info) : netr_info :=
  set_password i (bzero (password i)).

Definition netr_gen_skey128 (info : netr_info) : smbauth * netr_info :=
  let ntlmhash := repeat 0 SMBAUTH_HASH_SZ in
  let info := set_password info (bzero (password info)) in
  let '(rc, pw) := smb_config_getstr_MACHINE_PASSWD (password info) in
  let info := set_password info pw in
  if negb (rc =? SMBD_SMF_OK) || (nth 0 (password info) 0 =? 0)
  then (SMBAUTH_FAILURE, info)
  else
    let '(rc, hash) := smb_auth_ntlm_hash (password info) in
    let ntlmhash := buf_write ntlmhash hash in
    if negb (smbauth_eqb rc SMBAUTH_SUCCESS)
    then (SMBAUTH_FAILURE, wipe_password info)
    else
      let zerobuf := repeat 0 NETR_SESSKEY_ZEROBUF_SZ in
      if negb (SUNW_C_GetMechSession =? CKR_OK)
      then (SMBAUTH_FAILURE, wipe_password info)
      else if negb (C_DigestInit =? CKR_OK)
      then (rc, wipe_password info)
      else if negb (C_DigestUpdate 0 =? CKR_OK)
      then (rc, wipe_password info)
      else if negb (C_DigestUpdate 1 =? CKR_OK)
      then (rc, wipe_password info)
      else if negb (C_DigestUpdate 2 =? CKR_OK)
      then (rc, wipe_password info)
      else if negb (C_DigestFinal =? CKR_OK)
      then (rc, wipe_password info)
      else
        let md5digest :=
          md5 (zerobuf
               ++ firstn NETR_CRED_DATA_SZ (client_challenge info)
               ++ firstn NETR_CRED_DATA_SZ (server_challenge info)) in
        let '(rc, out) := smb_auth_hmac_md5 md5digest ntlmhash in
        let info :=
          set_session_key info
            {| key := buf_write (key (session_key info)) out;
               len := NETR_SESSKEY128_SZ |} in
        (rc, wipe_password info).

(** ** netr_gen_skey64 (lines 546-601) *)

(** Lines 581-584: the eight bytes of [le_data]. *)
Definition skey64_le_data (client_challenge server_challenge : list Z)
  : list Z :=
  let data0 :=
    dword (LE_IN32 client_challenge 0 + LE_IN32 server_challenge 0) in
  let data1 :=
    dword (LE_IN32 client_challenge 4 + LE_IN32 server_challenge 4) in
  LE_OUT32 data0 ++ LE_OUT32 data1.

Definition netr_gen_skey64 (info : netr_info) : smbauth * netr_info :=
  let md4hash := repeat 0 32 in
  let info := set_password info (bzero (password info)) in
  let '(rc, pw) := smb_config_getstr_MACHINE_PASSWD (password info) in
  let info := set_password info pw in
  if negb (rc =? SMBD_SMF_OK) || (nth 0 (password info) 0 =? 0)
  then (SMBAUTH_FAILURE, info)
  else
    let '(rc, hash) := smb_auth_ntlm_hash (password info) in
    let md4hash := buf_write md4hash hash in
    if negb (smbauth_eqb rc SMBAUTH_SUCCESS)
    then (SMBAUTH_FAILURE, wipe_password info)
    else
      let le_data :=
        skey64_le_data (client_challenge info)
                       (server_challenge info) in
      let '(rc, buffer) :=
        smb_auth_DES (slice 0 NETR_DESKEY_LEN md4hash) (firstn 8 le_data) in
      if negb (smbauth_eqb rc SMBAUTH_SUCCESS)
      then (rc, wipe_password info)
      else
        let '(rc, out) :=
          smb_auth_DES (slice 9 NETR_DESKEY_LEN md4hash) (firstn 8 buffer) in
        let info :=
          set_session_key info
            {| key := buf_write (key (session_key info)) out;
               len := NETR_SESSKEY64_SZ |} in
        (rc, wipe_password info).

(** ** netr_open, netr_open_secure, netr_close (lines 251-302) *)

Definition netr_open (server domain : string) : M Z :=
  let user := smb_ipc_get_user SMB_USERNAME_MAXLEN in
  emit (Call_ndr_rpc_bind server domain user) ;;;
  ret (ndr_rpc_bind server domain user).

Definition netr_open_secure (server domain : string) : M Z := fun w =>
  let user := smb_ipc_get_user SMB_USERNAME_MAXLEN in
  if negb (Z.land (nego_flags (netr_global_info w))
                  NETR_NEGO_SECURE_RPC_FLAG =? 0)
  then
    let ctx := auth_context_id w in
    let w :=
      {| netr_global_info := netr_global_info w;
         ssp_auth_verify_resp := ssp_auth_verify_resp w;
         ssp_auth_context_id := ctx;
         auth_context_id := dword (ctx + 1);
         arc4_draws := arc4_draws w;
         ext_log := ext_log w |} in
    (ndr_rpc_bind_secure server domain user ctx,
     log_call (Call_ndr_rpc_bind_secure server domain user ctx) w)
  else
    (ndr_rpc_bind server domain user,
     log_call (Call_ndr_rpc_bind server domain user) w).

Definition netr_close : M Z :=
  emit Call_ndr_rpc_unbind ;;; ret 0.

(** ** netr_server_req_challenge (lines 307-336) *)

Definition netr_server_req_challenge : M Z :=
  info <- get_info ;;
  let arg :=
    {| rc_servername := server info;
       rc_hostname := hostname info;
       rc_client_challenge :=
         firstn NETR_CRED_DATA_SZ (client_challenge info);
       rc_server_challenge := repeat 0 NETR_CRED_DATA_SZ;
       rc_status := 0 |} in
  emit Call_ndr_rpc_call_ServerReqChallenge ;;;
  let '(rc, arg) := ndr_rpc_call_ServerReqChallenge arg in
  if negb (rc =? 0) then ret (-1)
  else if negb (rc_status arg =? 0) then
    emit (Call_ndr_rpc_status (rc_status arg)) ;;;
    emit Call_ndr_rpc_release ;;;
    ret (-1)
  else
    set_info (set_server_challenge info
                (firstn NETR_CRED_DATA_SZ (rc_server_challenge arg))) ;;;
    emit Call_ndr_rpc_release ;;;
    ret 0.

(** ** netr_server_authenticate2 (lines 338-425) *)

Definition netr_server_auth2_flags : Z :=
  Z.lor (Z.lor NETR_NEGO_BASE_FLAGS NETR_NEGO_STRONGKEY_FLAG)
        NETR_NEGO_SECURE_RPC_FLAG.

(** Lines 368-376: [arg.negotiate_flags] as proposed to the server;
    [use_secure_rpc] is [netr_global_info.use_secure_rpc]. *)
Definition auth2_negotiate_flags (use_secure_rpc : bool) : Z :=
  let negotiate_flags := netr_server_auth2_flags in
  if negb use_secure_rpc
  then Z.land negotiate_flags (Z.lnot NETR_NEGO_SECURE_RPC_FLAG)
  else negotiate_flags.

(** Lines 378-384: the choice of the session-key derivation. *)
Definition auth2_gen_skey (negotiate_flags : Z) (info : netr_info)
  : smbauth * netr_info :=
  if negb (Z.land negotiate_flags NETR_NEGO_STRONGKEY_FLAG =? 0)
  then netr_gen_skey128 info
  else netr_gen_skey64 info.

(** Lines 355-376 and 405: the argument as it is sent.  [account_name]
    and the flags are computed on entry from [info0]; the server and host
    names are read through pointers into the session state [info] when the
    call is made, as is the client credential copied at line 405. *)
Definition auth2_arg (info0 info : netr_info) : netr_ServerAuthenticate2 :=
  {| sa_servername := server info;
     sa_account_name :=
       snprintf (NETBIOS_NAME_SZ * 2 + 1) (hostname info0 ++ "$");
     sa_account_type := NETR_WKSTA_TRUST_ACCOUNT_TYPE;
     sa_hostname := hostname info;
     sa_client_credential :=
       firstn NETR_CRED_DATA_SZ (client_credential info);
     sa_server_credential := repeat 0 NETR_CRED_DATA_SZ;
     sa_negotiate_flags := auth2_negotiate_flags (use_secure_rpc info0);
     sa_status := 0 |}.

(** [netr_info] is [&netr_global_info] at the only call (lines 176, 220),
    so the read of [netr_global_info.use_secure_rpc] is a read of the same
    object. *)
Definition netr_server_authenticate2 : M Z :=
  info0 <- get_info ;;
  let negotiate_flags := auth2_negotiate_flags (use_secure_rpc info0) in
  let '(rc, info) := auth2_gen_skey negotiate_flags info0 in
  set_info info ;;;
  if negb (smbauth_eqb rc SMBAUTH_SUCCESS) then ret (-1)
  else
    let '(rc, cred) :=
      netr_gen_credentials (key (session_key info)) (client_challenge info)
        0 (client_credential info) false in
    let info := set_client_credential info cred in
    set_info info ;;;
    if negb (smbauth_eqb rc SMBAUTH_SUCCESS) then ret (-1)
    else
      let '(rc, cred) :=
        netr_gen_credentials (key (session_key info)) (server_challenge info)
          0 (server_credential info) false in
      let info := set_server_credential info cred in
      set_info info ;;;
      if negb (smbauth_eqb rc SMBAUTH_SUCCESS) then ret (-1)
      else
        let arg := auth2_arg info0 info in
        emit Call_ndr_rpc_call_ServerAuthenticate2 ;;;
        let '(rc, arg) := ndr_rpc_call_ServerAuthenticate2 arg in
        if negb (rc =? 0) then ret (-1)
        else if negb (sa_status arg =? 0) then
          emit (Call_ndr_rpc_status (sa_status arg)) ;;;
          emit Call_ndr_rpc_release ;;;
          ret (-1)
        else
          let info := set_nego_flags info (sa_negotiate_flags arg) in
          set_info info ;;;
          let rc := memcmp (server_credential info)
                           (sa_server_credential arg) NETR_CRED_DATA_SZ in
          emit Call_ndr_rpc_release ;;;
          ret rc.

(** ** netlogon_auth (lines 153-238) *)

(** The [errout] label and the final return. *)
Definition netlogon_auth_errout (rc : Z) : M Z :=
  netr_close ;;;
  ret (if rc =? 0 then NT_STATUS_SUCCESS else NT_STATUS_UNSUCCESSFUL).

(** Lines 168-200: open the pipe, reset the session key, fetch the names.
    [inl] is a return taken here, [inr] the state the function goes on
    with. *)
Definition netlogon_auth_prepare (server_name domain : string) (flgs : Z)
    (w : world) : (Z * world) + world :=
  let '(status, w) := netr_open server_name domain w in
  if negb (status =? 0) then inl (status, log_call Call_syslog w)
  else
    let info := netr_global_info w in
    let info :=
      set_session_key info
        {| key := bzero (key (session_key info)); len := 0 |} in
    let info := set_flags info flgs in
    let '(rc, name) := smb_getnetbiosname NETBIOS_NAME_SZ in
    let info := set_hostname info name in
    if negb (rc =? 0) then inl (netlogon_auth_errout rc (put_info w info))
    else
      let info :=
        set_server info (snprintf sizeof_server ("\\" ++ server_name)) in
      let '(rc, name) := smb_getdomainname sizeof_nb_domain in
      let info := set_nb_domain info name in
      if negb (rc =? 0) then inl (netlogon_auth_errout rc (put_info w info))
      else
        let '(rc, name) := smb_getfqdomainname sizeof_fqdn_domain in
        let info := set_fqdn_domain info name in
        if negb (rc =? 0)
        then inl (netlogon_auth_errout rc (put_info w info))
        else inr (put_info w info).

(** Lines 208-217: the [do ... while (retry)] loop, with [fuel] bounding
    the number of iterations the model follows.  [LE_OUT32] is a macro of
    a header outside the sources at hand; each
    [LE_OUT32(&leout_rc[i], arc4random())] is taken here as one draw of
    the random source.  A macro that names its value argument more than
    once draws more often; the draw counter [arc4_draws] only says which
    draws the bytes come from, and the rest of the state does not depend
    on it. *)
Fixpoint client_challenge_loop (fuel : nat) (w : world) : option world :=
  match fuel with
  | O => None
  | S fuel' =>
      let r0 := arc4random (arc4_draws w) in
      let r1 := arc4random (S (arc4_draws w)) in
      let leout_rc := LE_OUT32 r0 ++ LE_OUT32 r1 in
      let info :=
        set_client_challenge (netr_global_info w)
          (firstn NETR_CRED_DATA_SZ leout_rc) in
      let w :=
        {| netr_global_info := info;
           ssp_auth_verify_resp := ssp_auth_verify_resp w;
           ssp_auth_context_id := ssp_auth_context_id w;
           auth_context_id := auth_context_id w;
           arc4_draws := S (S (arc4_draws w));
           ext_log := ext_log w |} in
      if negb (passes_dc_mitigation (client_challenge info))
      then client_challenge_loop fuel' w
      else Some w
  end.

(** Lines 219-237. *)
Definition netlogon_auth_exchange : M Z :=
  rc <- netr_server_req_challenge ;;
  rc <- (if rc =? 0 then
           rc <- netr_server_authenticate2 ;;
           (if rc =? 0 then
              emit Call_smb_update_netlogon_seqnum ;;;
              info <- get_info ;;
              set_info (set_flags info (Z.lor (flags info) NETR_FLG_VALID)) ;;;
              ret rc
            else ret rc)
         else ret rc) ;;
  netlogon_auth_errout rc.

(** [None] only when the challenge loop outlives [fuel]. *)
Definition netlogon_auth (fuel : nat) (server_name domain : string)
    (flgs : Z) (w : world) : option (Z * world) :=
  match netlogon_auth_prepare server_name domain flgs w with
  | inl r => Some r
  | inr w1 =>
      match client_challenge_loop fuel w1 with
      | None => None
      | Some w2 => Some (netlogon_auth_exchange w2)
      end
  end.

(** ** netr_server_password_set (lines 682-749) *)

(** Lines 690-718: the argument as it is sent.  [account_name] is
    formatted on entry from [info0]; the server and host names are read
    through pointers into the session state when the call is made. *)
Definition password_set_arg (info0 info : netr_info)
    (auth : netr_authenticator) (new_password : list Z) : netr_PasswordSet :=
  {| ps_servername := server info;
     ps_account_name :=
       snprintf (NETBIOS_NAME_SZ * 2) (hostname info0 ++ "$");
     ps_sec_chan_type := NETR_WKSTA_TRUST_ACCOUNT_TYPE;
     ps_hostname := hostname info;
     ps_auth := auth;
     ps_owf_password := firstn NETR_OWF_PASSWORD_SZ new_password;
     ps_status := 0 |}.

(** [new_password0] is what the local array [new_password] holds on
    entry (it is not initialised by the function). *)
Definition netr_server_password_set (new_password0 : list Z) : M Z :=
  info0 <- get_info ;;
  let '(rc, info, auth) := netr_setup_authenticator info0 in
  set_info info ;;;
  if negb (smbauth_eqb rc SMBAUTH_SUCCESS) then ret (-1)
  else
    let '(rc, new_password) :=
      netr_gen_password (key (session_key info)) (password info)
        new_password0 in
    if smbauth_eqb rc SMBAUTH_FAILURE then ret (-1)
    else
      let arg := password_set_arg info0 info auth new_password in
      emit Call_ndr_rpc_call_PasswordSet ;;;
      let '(rc, arg) := ndr_rpc_call_PasswordSet arg in
      if negb (rc =? 0) then ret (-1)
      else if negb (ps_status arg =? 0) then
        emit (Call_ndr_rpc_status (ps_status arg)) ;;;
        emit Call_ndr_rpc_release ;;;
        ret (-1)
      else
        let '(status, info) := netr_validate_chain info (ps_auth arg) in
        let info :=
          if status =? 0
          then set_password info
                 (buf_write (password info)
                    (firstn NETR_OWF_PASSWORD_SZ new_password))
          else info in
        set_info info ;;;
        emit Call_ndr_rpc_release ;;;
        ret 0.

End Netr.

(** ** The derivations in the words of the specification *)

(** Four bytes at [off] read as a little-endian 32-bit word. *)
Definition le32_word (p : list Z) (off : nat) : Z :=
  nth off p 0 + 256 * nth (off + 1) p 0 + 65536 * nth (off + 2) p 0
  + 16777216 * nth (off + 3) p 0.

(** A 32-bit word re-encoded as four little-endian bytes. *)
Definition le32_bytes (v : Z) : list Z :=
  [v mod 256; (v / 256) mod 256; (v / 65536) mod 256;
   (v / 16777216) mod 256].

(** Credential generation, step 1: the increment is added to the first
    word only, with wrap-around. *)
Definition spec_credential_input (challenge : list Z) (increment : Z)
  : list Z :=
  le32_bytes ((le32_word challenge 0 + increment) mod 2 ^ 32)
  ++ le32_bytes (le32_word challenge 4).

(** Legacy derivation, step 2: the word-wise challenge sum. *)
Definition spec_challenge_sum (client server_ch : list Z) : list Z :=
  le32_bytes ((le32_word client 0 + le32_word server_ch 0) mod 2 ^ 32)
  ++ le32_bytes ((le32_word client 4 + le32_word server_ch 4) mod 2 ^ 32).

(** Bytes [lo .. lo + 6] of a buffer, a seven-byte cipher key. *)
Definition key_bytes (lo : nat) (buf : list Z) : list Z :=
  firstn 7 (skipn lo buf).

Section Statements.

Context {H : NetrHeaders} {E : NetrExtern}.

(** The block cipher hands back eight bytes. *)
Definition des_blocks : Prop :=
  forall k d, length (snd (smb_auth_DES k d)) = 8%nat.

(** Two cipher passes, the second over the output of the first. *)
Definition des_two_pass (k1 k2 input : list Z) : smbauth * list Z :=
  smb_auth_DES k2 (snd (smb_auth_DES k1 input)).

(** The configuration yields a non-empty trust password [pw]. *)
Definition trust_password_is (info : netr_info) (pw : list Z) : Prop :=
  smb_config_getstr_MACHINE_PASSWD (bzero (password info))
    = (SMBD_SMF_OK, pw)
  /\ nth 0 pw 0 <> 0.

(** The trust password is unavailable or empty. *)
Definition trust_password_missing (info : netr_info) : Prop :=
  fst (smb_config_getstr_MACHINE_PASSWD (bzero (password info)))
    <> SMBD_SMF_OK
  \/ nth 0 (snd (smb_config_getstr_MACHINE_PASSWD (bzero (password info))))
       0 = 0.

(** Every call of the PKCS#11 digest session succeeds. *)
Definition digest_session_ok : Prop :=
  SUNW_C_GetMechSession = CKR_OK /\ C_DigestInit = CKR_OK
  /\ (forall n, C_DigestUpdate n = CKR_OK) /\ C_DigestFinal = CKR_OK.

(** The session state after an answered authenticate call. *)
Definition auth2_result_info (i3 : netr_info) (cc sc : list Z)
    (reply : netr_ServerAuthenticate2) : netr_info :=
  set_nego_flags (set_server_credential (set_client_credential i3 cc) sc)
    (sa_negotiate_flags reply).

(** The authenticate step, started in [w], gets as far as the server's
    answer: the session key derivation yields [i3], the two credentials
    [cc] and [sc] are computed, the call goes through and [reply] carries
    status zero. *)
Definition auth2_answered (w : world) (i3 : netr_info) (cc sc : list Z)
    (reply : netr_ServerAuthenticate2) : Prop :=
  let i := netr_global_info w in
  auth2_gen_skey (auth2_negotiate_flags (use_secure_rpc i)) i
    = (SMBAUTH_SUCCESS, i3)
  /\ netr_gen_credentials (key (session_key i3)) (client_challenge i3) 0
       (client_credential i3) false = (SMBAUTH_SUCCESS, cc)
  /\ netr_gen_credentials (key (session_key i3)) (server_challenge i3) 0
       (server_credential i3) false = (SMBAUTH_SUCCESS, sc)
  /\ ndr_rpc_call_ServerAuthenticate2
       (auth2_arg i (set_server_credential (set_client_credential i3 cc) sc))
     = (0, reply)
  /\ sa_status reply = 0.

(** The process state after an answered authenticate call started in
    [w]: the session state above, and the call and its release logged. *)
Definition auth2_answered_world (w : world) (i3 : netr_info)
    (cc sc : list Z) (reply : netr_ServerAuthenticate2) : world :=
  {| netr_global_info := auth2_result_info i3 cc sc reply;
     ssp_auth_verify_resp := ssp_auth_verify_resp w;
     ssp_auth_context_id := ssp_auth_context_id w;
     auth_context_id := auth_context_id w;
     arc4_draws := arc4_draws w;
     ext_log :=
       Call_ndr_rpc_release :: Call_ndr_rpc_call_ServerAuthenticate2
         :: ext_log w |}.

(** [netlogon_auth] gets as far as the server's answer to the
    authenticate call, from [w], through [w3] after the challenge
    exchange. *)
Definition auth_reaches_answer (fuel : nat) (server_name domain : string)
    (flgs : Z) (w w3 : world) (i3 : netr_info) (cc sc : list Z)
    (reply : netr_ServerAuthenticate2) : Prop :=
  exists w1 w2,
    netlogon_auth_prepare server_name domain flgs w = inr w1
    /\ client_challenge_loop fuel w1 = Some w2
    /\ netr_server_req_challenge w2 = (0, w3)
    /\ auth2_answered w3 i3 cc sc reply
    /\ length sc = 8%nat
    /\ length (sa_server_credential reply) = 8%nat.

(** The claim on wiping, word for word: after a mismatch the call is
    unsuccessful, the session is not marked and both the session key and
    the password in the session state are zero. *)
Definition wiped_after_mismatch (fuel : nat) (server_name domain : string)
    (flgs : Z) (w : world) : Prop :=
  forall w3 i3 cc sc reply st w',
    auth_reaches_answer fuel server_name domain flgs w w3 i3 cc sc reply ->
    sc <> sa_server_credential reply ->
    netlogon_auth fuel server_name domain flgs w = Some (st, w') ->
    st = NT_STATUS_UNSUCCESSFUL
    /\ flags (netr_global_info w') = flgs
    /\ key (session_key (netr_global_info w'))
       = bzero (key (session_key (netr_global_info w')))
    /\ password (netr_global_info w')
       = bzero (password (netr_global_info w')).

(** A later secure open takes the unauthenticated bind. *)
Definition opens_unauthenticated (w : world) : Prop :=
  forall server_name domain,
    netr_open_secure server_name domain w
    = (ndr_rpc_bind server_name domain (smb_ipc_get_user SMB_USERNAME_MAXLEN),
       log_call
         (Call_ndr_rpc_bind server_name domain
            (smb_ipc_get_user SMB_USERNAME_MAXLEN)) w).

(** The claim on negotiated flags, word for word: what is stored is the
    proposal intersected with the answer, and when the proposal or the
    answer lacks secure RPC the stored flags lack it and later secure opens
    bind unauthenticated. *)
Definition negotiated_is_intersection (w : world) : Prop :=
  forall i3 cc sc reply,
    auth2_answered w i3 cc sc reply ->
    let proposal :=
      auth2_negotiate_flags (use_secure_rpc (netr_global_info w)) in
    let w' := snd (netr_server_authenticate2 w) in
    nego_flags (netr_global_info w')
      = Z.land proposal (sa_negotiate_flags reply)
    /\ (Z.land proposal NETR_NEGO_SECURE_RPC_FLAG = 0
        \/ Z.land (sa_negotiate_flags reply) NETR_NEGO_SECURE_RPC_FLAG = 0 ->
        Z.land (nego_flags (netr_global_info w')) NETR_NEGO_SECURE_RPC_FLAG
          = 0
        /\ opens_unauthenticated w').



End Statements.

(** ** A concrete outside world

    An instance of the header constants and of the collaborators, used to
    run the definitions above on concrete inputs.  The primitives are
    simple stand-ins with the right block sizes; the statements proved
    below do not depend on them. *)

Definition sample_headers : NetrHeaders := {|
  NETR_FLG_VALID := 0x00000001;
  NETR_NEGO_BASE_FLAGS := 0x000001ff;
  NETR_NEGO_STRONGKEY_FLAG := 0x00004000;
  NETR_NEGO_SECURE_RPC_FLAG := 0x40000000;
  NETR_WKSTA_TRUST_ACCOUNT_TYPE := 2;
  NT_STATUS_SUCCESS := 0;
  NT_STATUS_UNSUCCESSFUL := 0xC0000001;
  SMBD_SMF_OK := 0;
  CKR_OK := 0;
  NETBIOS_NAME_SZ := 16;
  SMB_USERNAME_MAXLEN := 40;
  sizeof_server := 256;
  sizeof_nb_domain := 256;
  sizeof_fqdn_domain := 256
|}.

Definition byte_sum (l : list Z) : Z := fold_right Z.add 0 l.

(** Sixteen bytes derived from a seed. *)
Definition sample_block16 (seed : Z) : list Z :=
  map (fun n => (seed + 7 * Z.of_nat n) mod 256) (seq 1 16).

(** An eight-byte block: every data byte shifted by the key's byte sum. *)
Definition sample_DES (k d : list Z) : smbauth * list Z :=
  (SMBAUTH_SUCCESS,
   firstn 8 (map (fun x => (x + byte_sum k + 1) mod 256) d ++ repeat 0 8)).

(** The machine password "pw" in a zeroed buffer of the caller's size. *)
Definition sample_getstr (buf : list Z) : Z * list Z :=
  (0, firstn (length buf) ([112; 119] ++ repeat 0 (length buf))).

Definition list_eqb (a b : list Z) : bool :=
  if list_eq_dec Z.eq_dec a b then true else false.

(** The collaborators.  The server answers the authenticate call with the
    flags [srv_flags proposal] and the credential [srv_cred], and the
    password change with status [ps_st]; the first random challenge is all
    zero, the second is not. *)
Definition sample_extern (srv_flags : Z -> Z) (srv_cred : list Z)
    (ps_st : Z) : NetrExtern := {|
  smb_ipc_get_user := fun _ => "ipcuser"%string;
  ndr_rpc_bind := fun _ _ _ => 0;
  ndr_rpc_bind_secure := fun _ _ _ _ => 0;
  ndr_rpc_call_ServerReqChallenge := fun arg =>
    (0, {| rc_servername := rc_servername arg;
           rc_hostname := rc_hostname arg;
           rc_client_challenge := rc_client_challenge arg;
           rc_server_challenge := [9; 8; 7; 6; 5; 4; 3; 2];
           rc_status := 0 |});
  ndr_rpc_call_ServerAuthenticate2 := fun arg =>
    (0, {| sa_servername := sa_servername arg;
           sa_account_name := sa_account_name arg;
           sa_account_type := sa_account_type arg;
           sa_hostname := sa_hostname arg;
           sa_client_credential := sa_client_credential arg;
           sa_server_credential := srv_cred;
           sa_negotiate_flags := srv_flags (sa_negotiate_flags arg);
           sa_status := 0 |});
  ndr_rpc_call_PasswordSet := fun arg =>
    (0, {| ps_servername := ps_servername arg;
           ps_account_name := ps_account_name arg;
           ps_sec_chan_type := ps_sec_chan_type arg;
           ps_hostname := ps_hostname arg;
           ps_auth := ps_auth arg;
           ps_owf_password := ps_owf_password arg;
           ps_status := ps_st |});
  smb_getnetbiosname := fun _ => (0, "HOST"%string);
  smb_getdomainname := fun _ => (0, "DOM"%string);
  smb_getfqdomainname := fun _ => (0, "dom.example.com"%string);
  arc4random := fun n =>
    match n with
    | O | S O => 0
    | _ => 0x04030201 + Z.of_nat n
    end;
  smb_config_getstr_MACHINE_PASSWD := sample_getstr;
  smb_auth_ntlm_hash := fun pw => (SMBAUTH_SUCCESS, sample_block16 (byte_sum pw));
  smb_auth_hmac_md5 := fun d k =>
    (SMBAUTH_SUCCESS, sample_block16 (byte_sum d + 3 * byte_sum k));
  smb_auth_DES := sample_DES;
  SUNW_C_GetMechSession := 0;
  C_DigestInit := 0;
  C_DigestUpdate := fun _ => 0;
  C_DigestFinal := 0;
  md5 := fun l => sample_block16 (5 * byte_sum l);
  netr_setup_authenticator := fun i =>
    (SMBAUTH_SUCCESS, i,
     {| auth_credential := client_credential i;
        auth_timestamp := timestamp i |});
  netr_validate_chain := fun i a =>
    (if list_eqb (auth_credential a) (client_credential i) then 0 else 1, i)
|}.

(** A session state at rest: zeroed buffers of the sizes the structure
    gives them, secure RPC as configured by [secure]. *)
Definition sample_info (secure : bool) : netr_info :=
  {| flags := 0; server := ""%string; hostname := ""%string;
     nb_domain := ""%string; fqdn_domain := ""%string;
     client_challenge := repeat 0 8; server_challenge := repeat 0 8;
     client_credential := repeat 0 8; server_credential := repeat 0 8;
     session_key := {| key := repeat 0 16; len := 0 |};
     password := repeat 0 32;
     nego_flags := 0; timestamp := 0;
     use_secure_rpc := secure; use_logon_ex := true |}.

Definition sample_world (secure : bool) : world :=
  {| netr_global_info := sample_info secure;
     ssp_auth_verify_resp := true;
     ssp_auth_context_id := 0;
     auth_context_id := 1;
     arc4_draws := 0;
     ext_log := [] |}.

(** A server that answers with the intersection of the proposal and its
    own capabilities, which lack nothing. *)
Definition honest_flags (proposal : Z) : Z := proposal.

(** A server that sets the secure-RPC bit whatever was proposed. *)
Definition pushy_flags (proposal : Z) : Z := Z.lor proposal 0x40000000.

(** The server credential the client expects in the sample run. *)
Definition sample_expected_cred : list Z :=
  Eval vm_compute in
    match @netlogon_auth sample_headers (sample_extern honest_flags [] 0)
            3 "dc1" "DOM" 0 (sample_world true) with
    | Some (_, w) => server_credential (netr_global_info w)
    | None => []
    end.

(** The server proves possession of the key. *)
Definition good_server : NetrExtern :=
  sample_extern honest_flags sample_expected_cred 0.

(** The server returns a credential that does not match. *)
Definition bad_server : NetrExtern :=
  sample_extern honest_flags [1; 2; 3; 4; 5; 6; 7; 8] 0.

(** The server sets secure RPC though it was not proposed. *)
Definition pushy_server : NetrExtern :=
  sample_extern pushy_flags sample_expected_cred 0.

(** The sample world once the challenges have been exchanged, at the
    point where the authenticate step starts. *)
Definition sample_challenged_world (secure : bool) : world :=
  Eval vm_compute in
    match @netlogon_auth_prepare sample_headers
            (sample_extern honest_flags [] 0) "dc1" "DOM" 0
            (sample_world secure) with
    | inl (_, w) => w
    | inr w1 =>
        match @client_challenge_loop (sample_extern honest_flags [] 0) 3 w1
        with
        | None => w1
        | Some w2 =>
            snd (@netr_server_req_challenge
                   (sample_extern honest_flags [] 0) w2)
        end
    end.

(** ** Further statements *)

(** Two session states that differ at most in the password and the
    session key. *)
Definition same_but_secrets (i i' : netr_info) : Prop :=
  flags i' = flags i
  /\ server i' = server i
  /\ hostname i' = hostname i
  /\ nb_domain i' = nb_domain i
  /\ fqdn_domain i' = fqdn_domain i
  /\ client_challenge i' = client_challenge i
  /\ server_challenge i' = server_challenge i
  /\ client_credential i' = client_credential i
  /\ server_credential i' = server_credential i
  /\ nego_flags i' = nego_flags i
  /\ timestamp i' = timestamp i
  /\ use_secure_rpc i' = use_secure_rpc i
  /\ use_logon_ex i' = use_logon_ex i.

(** What the authenticate step leaves alone when it is not answered. *)
Definition auth2_untouched (i i' : netr_info) : Prop :=
  flags i' = flags i
  /\ nego_flags i' = nego_flags i
  /\ client_challenge i' = client_challenge i
  /\ server_challenge i' = server_challenge i.

(** The process state with a new client challenge and draw count. *)
Definition with_client_challenge (w : world) (c : list Z) (draws : nat)
  : world :=
  {| netr_global_info := set_client_challenge (netr_global_info w) c;
     ssp_auth_verify_resp := ssp_auth_verify_resp w;
     ssp_auth_context_id := ssp_auth_context_id w;
     auth_context_id := auth_context_id w;
     arc4_draws := draws;
     ext_log := ext_log w |}.

Section MoreStatements.

Context {H : NetrHeaders} {E : NetrExtern}.

(** The challenge made of draws [n] and [n + 1] of the random source. *)
Definition challenge_of_draws (n : nat) : list Z :=
  firstn NETR_CRED_DATA_SZ
    (LE_OUT32 (arc4random n) ++ LE_OUT32 (arc4random (S n))).

(** The argument [netr_server_req_challenge] sends (lines 313-320). *)
Definition req_challenge_arg (info : netr_info) : netr_ServerReqChallenge :=
  {| rc_servername := server info;
     rc_hostname := hostname info;
     rc_client_challenge :=
       firstn NETR_CRED_DATA_SZ (client_challenge info);
     rc_server_challenge := repeat 0 NETR_CRED_DATA_SZ;
     rc_status := 0 |}.

(** One of the digest calls made after the session was opened fails. *)
Definition digest_call_fails : Prop :=
  C_DigestInit <> CKR_OK
  \/ C_DigestUpdate 0 <> CKR_OK
  \/ C_DigestUpdate 1 <> CKR_OK
  \/ C_DigestUpdate 2 <> CKR_OK
  \/ C_DigestFinal <> CKR_OK.

(** One of the three name look-ups of [netlogon_auth] fails. *)
Definition name_lookup_fails : Prop :=
  fst (smb_getnetbiosname NETBIOS_NAME_SZ) <> 0
  \/ fst (smb_getdomainname sizeof_nb_domain) <> 0
  \/ fst (smb_getfqdomainname sizeof_fqdn_domain) <> 0.

(** The authenticate step never gets the server's answer. *)
Definition auth2_unanswered (w : world) : Prop :=
  forall i3 cc sc reply, ~ auth2_answered w i3 cc sc reply.

End MoreStatements.

(** ** Collaborators that fail

    The sample collaborators with one of them made to fail. *)

Inductive fault : Type :=
  | Fault_bind
  | Fault_netbios_name
  | Fault_password
  | Fault_hash
  | Fault_mech_session
  | Fault_digest_update
  | Fault_cipher
  | Fault_req_call
  | Fault_req_status
  | Fault_auth_call
  | Fault_setup
  | Fault_validate
  | Fault_random.

Definition fault_eqb (a b : fault) : bool :=
  match a, b with
  | Fault_bind, Fault_bind
  | Fault_netbios_name, Fault_netbios_name
  | Fault_password, Fault_password
  | Fault_hash, Fault_hash
  | Fault_mech_session, Fault_mech_session
  | Fault_digest_update, Fault_digest_update
  | Fault_cipher, Fault_cipher
  | Fault_req_call, Fault_req_call
  | Fault_req_status, Fault_req_status
  | Fault_auth_call, Fault_auth_call
  | Fault_setup, Fault_setup
  | Fault_validate, Fault_validate
  | Fault_random, Fault_random => true
  | _, _ => false
  end.

Definition faulty_extern (f : fault) : NetrExtern := {|
  smb_ipc_get_user := @smb_ipc_get_user good_server;
  ndr_rpc_bind := fun s d u =>
    if fault_eqb f Fault_bind then 0xC0000022
    else @ndr_rpc_bind good_server s d u;
  ndr_rpc_bind_secure := @ndr_rpc_bind_secure good_server;
  ndr_rpc_call_ServerReqChallenge := fun arg =>
    let r := @ndr_rpc_call_ServerReqChallenge good_server arg in
    if fault_eqb f Fault_req_call then (-1, arg)
    else if fault_eqb f Fault_req_status then
      (0, {| rc_servername := rc_servername arg;
             rc_hostname := rc_hostname arg;
             rc_client_challenge := rc_client_challenge arg;
             rc_server_challenge := rc_server_challenge arg;
             rc_status := 0xC0000022 |})
    else r;
  ndr_rpc_call_ServerAuthenticate2 := fun arg =>
    if fault_eqb f Fault_auth_call then (-1, arg)
    else @ndr_rpc_call_ServerAuthenticate2 good_server arg;
  ndr_rpc_call_PasswordSet := @ndr_rpc_call_PasswordSet good_server;
  smb_getnetbiosname := fun n =>
    if fault_eqb f Fault_netbios_name then (-1, ""%string)
    else @smb_getnetbiosname good_server n;
  smb_getdomainname := @smb_getdomainname good_server;
  smb_getfqdomainname := @smb_getfqdomainname good_server;
  arc4random := fun n =>
    if fault_eqb f Fault_random then 0 else @arc4random good_server n;
  smb_config_getstr_MACHINE_PASSWD := fun buf =>
    if fault_eqb f Fault_password then (0, buf)
    else @smb_config_getstr_MACHINE_PASSWD good_server buf;
  smb_auth_ntlm_hash := fun pw =>
    if fault_eqb f Fault_hash then (SMBAUTH_FAILURE, repeat 0 16)
    else @smb_auth_ntlm_hash good_server pw;
  smb_auth_hmac_md5 := @smb_auth_hmac_md5 good_server;
  smb_auth_DES := fun k d =>
    if fault_eqb f Fault_cipher then (SMBAUTH_FAILURE, repeat 0 8)
    else @smb_auth_DES good_server k d;
  SUNW_C_GetMechSession := if fault_eqb f Fault_mech_session then 5 else 0;
  C_DigestInit := 0;
  C_DigestUpdate := fun n =>
    if fault_eqb f Fault_digest_update then (if Nat.eqb n 1 then 5 else 0)
    else 0;
  C_DigestFinal := 0;
  md5 := @md5 good_server;
  netr_setup_authenticator := fun i =>
    if fault_eqb f Fault_setup
    then (SMBAUTH_FAILURE, i,
          {| auth_credential := repeat 0 8; auth_timestamp := 0 |})
    else @netr_setup_authenticator good_server i;
  netr_validate_chain := fun i a =>
    if fault_eqb f Fault_validate then (0xC0000001, i)
    else @netr_validate_chain good_server i a
|}.

(** ** Statements on the established channel *)

Section ChannelStatements.

Context {H : NetrHeaders} {E : NetrExtern}.

(** The session is marked established: the valid flag is set in its
    flags word. *)
Definition marked_established (info : netr_info) : Prop :=
  Z.land (flags info) NETR_FLG_VALID <> 0.

(** The claim on establishment, word for word: once the server has
    answered, a match gives success and a session marked established, a
    mismatch an unsuccessful status and a session not marked
    established. *)
Definition established_iff_match (fuel : nat) (server_name domain : string)
    (flgs : Z) (w : world) : Prop :=
  forall w3 i3 cc sc reply st w',
    auth_reaches_answer fuel server_name domain flgs w w3 i3 cc sc reply ->
    netlogon_auth fuel server_name domain flgs w = Some (st, w') ->
    (sc = sa_server_credential reply ->
     st = NT_STATUS_SUCCESS /\ marked_established (netr_global_info w'))
    /\ (sc <> sa_server_credential reply ->
        st = NT_STATUS_UNSUCCESSFUL
        /\ ~ marked_established (netr_global_info w')).

(** The authenticate step as the claim on the strong key describes it:
    [netr_server_authenticate2] with the test of lines 378-384 taken out
    and the 128-bit derivation called outright.  The 64-bit derivation
    does not occur in it. *)
Definition netr_server_authenticate2_strong : M Z :=
  info0 <- get_info ;;
  let '(rc, info) := netr_gen_skey128 info0 in
  set_info info ;;;
  if negb (smbauth_eqb rc SMBAUTH_SUCCESS) then ret (-1)
  else
    let '(rc, cred) :=
      netr_gen_credentials (key (session_key info)) (client_challenge info)
        0 (client_credential info) false in
    let info := set_client_credential info cred in
    set_info info ;;;
    if negb (smbauth_eqb rc SMBAUTH_SUCCESS) then ret (-1)
    else
      let '(rc, cred) :=
        netr_gen_credentials (key (session_key info)) (server_challenge info)
          0 (server_credential info) false in
      let info := set_server_credential info cred in
      set_info info ;;;
      if negb (smbauth_eqb rc SMBAUTH_SUCCESS) then ret (-1)
      else
        let arg := auth2_arg info0 info in
        emit Call_ndr_rpc_call_ServerAuthenticate2 ;;;
        let '(rc, arg) := ndr_rpc_call_ServerAuthenticate2 arg in
        if negb (rc =? 0) then ret (-1)
        else if negb (sa_status arg =? 0) then
          emit (Call_ndr_rpc_status (sa_status arg)) ;;;
          emit Call_ndr_rpc_release ;;;
          ret (-1)
        else
          let info := set_nego_flags info (sa_negotiate_flags arg) in
          set_info info ;;;
          let rc := memcmp (server_credential info)
                           (sa_server_credential arg) NETR_CRED_DATA_SZ in
          emit Call_ndr_rpc_release ;;;
          ret rc.







End ChannelStatements.





(** * Properties *)

(** ** Buffers *)

Lemma memcmp_zero_iff (n : nat) :
  forall a b, length a = n -> length b = n -> (memcmp a b n = 0 <-> a = b).
Proof.
  induction n as [|n IH]; intros a b Ha Hb.
  - destruct a; [|discriminate]. destruct b; [|discriminate].
    simpl. tauto.
  - destruct a as [|x a]; [discriminate|].
    destruct b as [|y b]; [discriminate|].
    simpl in Ha, Hb. injection Ha as Ha. injection Hb as Hb.
    simpl. destruct (Z.eqb_spec x y) as [->|Hxy].
    + rewrite (IH a b Ha Hb). split; [intros ->; reflexivity|].
      intros Heq. injection Heq as Heq. exact Heq.
    + split; [lia|]. intros Heq. injection Heq as Hx _. contradiction.
Qed.

Lemma bzero_length (buf : list Z) : length (bzero buf) = length buf.
Proof. unfold bzero. apply repeat_length. Qed.

Lemma buf_write_full (dst src : list Z) :
  length dst = length src -> buf_write dst src = src.
Proof.
  intros Hlen. unfold buf_write.
  rewrite skipn_all2 by lia. apply app_nil_r.
Qed.

(** ** The mitigation check *)

Lemma mitigation_inner_le (buf : list Z) (i n : nat) :
  forall j, (mitigation_inner buf i j n <= j + n)%nat.
Proof.
  induction n as [|n IH]; intros j; simpl; [lia|].
  destruct (negb (i =? j)%nat && (nth i buf 0 =? nth j buf 0)); [lia|].
  specialize (IH (S j)). lia.
Qed.

(** The inner loop runs to its bound exactly when no other byte in the
    range equals byte [i]. *)
Lemma mitigation_inner_full (buf : list Z) (i n : nat) :
  forall j,
    mitigation_inner buf i j n = (j + n)%nat <->
    (forall k, (j <= k < j + n)%nat -> k <> i -> nth i buf 0 <> nth k buf 0).
Proof.
  induction n as [|n IH]; intros j; simpl.
  - split; [intros _ k Hk; lia | intros _; lia].
  - rewrite <- (Nat.add_succ_comm j n).
    destruct (Nat.eqb_spec i j) as [Hij|Hij]; simpl.
    + rewrite IH. split.
      * intros Hall k Hk Hne. apply Hall; [lia | exact Hne].
      * intros Hall k Hk Hne. apply Hall; [lia | exact Hne].
    + destruct (Z.eqb_spec (nth i buf 0) (nth j buf 0)) as [Heq|Hneq].
      * split; [lia|]. intros Hall. exfalso.
        apply (Hall j); [lia | auto | exact Heq].
      * rewrite IH. split.
        -- intros Hall k Hk Hne.
           destruct (Nat.eq_dec k j) as [->|Hkj]; [exact Hneq|].
           apply Hall; [lia | exact Hne].
        -- intros Hall k Hk Hne. apply Hall; [lia | exact Hne].
Qed.

Lemma mitigation_outer_true (buf : list Z) (n : nat) :
  forall i,
    mitigation_outer buf i n = true <->
    (exists i', (i <= i' < i + n)%nat /\ mitigation_inner buf i' 0 5 = 5%nat).
Proof.
  induction n as [|n IH]; intros i; cbn [mitigation_outer].
  - split; [discriminate | intros [i' [Hi' _]]; lia].
  - destruct (Nat.eqb_spec (mitigation_inner buf i 0 5) 5) as [Hfull|Hnot].
    + split; [|reflexivity]. intros _. exists i. split; [lia | exact Hfull].
    + rewrite IH. split.
      * intros [i' [Hi' Hf]]. exists i'. split; [lia | exact Hf].
      * intros [i' [Hi' Hf]]. exists i'. split; [|exact Hf].
        destruct (Nat.eq_dec i' i) as [->|Hne]; [contradiction | lia].
Qed.

Lemma passes_dc_mitigation_iff (buf : list Z) :
  passes_dc_mitigation buf = true <-> exists i, unique_among_first5 buf i.
Proof.
  unfold passes_dc_mitigation. rewrite mitigation_outer_true. split.
  - intros [i [Hi Hfull]]. exists i. split; [lia|].
    intros j Hj Hne.
    apply (proj1 (mitigation_inner_full buf i 5 0) Hfull j); [lia | exact Hne].
  - intros [i [Hi Huniq]]. exists i. split; [lia|].
    apply (proj2 (mitigation_inner_full buf i 5 0)).
    intros k Hk Hne. apply Huniq; [lia | exact Hne].
Qed.

(** C2: for a buffer of at least five bytes the mitigation check answers
    true exactly when one of the first five bytes differs from each of the
    other four; it answers false when the first five bytes are all the
    same, and when every one of them has a duplicate among the others. *)
Theorem passes_dc_mitigation_unique_byte :
  forall buf : list Z,
    (5 <= length buf)%nat ->
    (passes_dc_mitigation buf = true <->
       exists i, (i < 5)%nat /\
         forall j, (j < 5)%nat -> j <> i -> nth i buf 0 <> nth j buf 0)
    /\ ((forall i, (i < 5)%nat -> nth i buf 0 = nth 0 buf 0) ->
        passes_dc_mitigation buf = false)
    /\ (all_first5_duplicated buf -> passes_dc_mitigation buf = false).
Proof.
  intros buf _.
  assert (Hdup : all_first5_duplicated buf -> passes_dc_mitigation buf = false).
  { intros Hall. apply not_true_is_false. rewrite passes_dc_mitigation_iff.
    intros [i [Hi Huniq]]. destruct (Hall i Hi) as [j [Hj [Hne Heq]]].
    exact (Huniq j Hj Hne Heq). }
  split; [exact (passes_dc_mitigation_iff buf)|]. split; [|exact Hdup].
  intros Hsame. apply Hdup. intros i Hi.
  destruct (Nat.eq_dec i 0) as [->|Hne].
  - exists 1%nat. repeat split; [lia | lia |]. symmetry. apply Hsame. lia.
  - exists 0%nat. repeat split; [lia | lia |]. apply Hsame. exact Hi.
Qed.

Lemma passes_dc_mitigation_unique_byte_witness :
  (passes_dc_mitigation [0; 0; 0; 0; 0; 7; 7; 7] = true <->
     exists i, (i < 5)%nat /\
       forall j, (j < 5)%nat -> j <> i ->
         nth i [0; 0; 0; 0; 0; 7; 7; 7] 0 <> nth j [0; 0; 0; 0; 0; 7; 7; 7] 0)
  /\ ((forall i, (i < 5)%nat ->
         nth i [0; 0; 0; 0; 0; 7; 7; 7] 0 = nth 0 [0; 0; 0; 0; 0; 7; 7; 7] 0) ->
      passes_dc_mitigation [0; 0; 0; 0; 0; 7; 7; 7] = false)
  /\ (all_first5_duplicated [0; 0; 0; 0; 0; 7; 7; 7] ->
      passes_dc_mitigation [0; 0; 0; 0; 0; 7; 7; 7] = false).
Proof.
  apply (passes_dc_mitigation_unique_byte [0; 0; 0; 0; 0; 7; 7; 7]).
  simpl. lia.
Defined.

Example passes_dc_mitigation_all_zero :
  passes_dc_mitigation [0; 0; 0; 0; 0; 1; 2; 3] = false.
Proof. reflexivity. Qed.

Example passes_dc_mitigation_paired :
  passes_dc_mitigation [1; 1; 2; 2; 2; 9; 8; 7] = false.
Proof. reflexivity. Qed.

Example passes_dc_mitigation_last_unique :
  passes_dc_mitigation [1; 1; 2; 2; 3; 3; 3; 3] = true.
Proof. reflexivity. Qed.

(** ** The byte-order macros are little-endian coding *)

Example LE_IN32_sample : LE_IN32 [0x78; 0x56; 0x34; 0x12; 0xff] 0 = 0x12345678.
Proof. reflexivity. Qed.

Example LE_OUT32_sample : LE_OUT32 0x12345678 = [0x78; 0x56; 0x34; 0x12].
Proof. reflexivity. Qed.

Lemma land_shiftl_low (a b n : Z) :
  0 <= n -> 0 <= b < 2 ^ n -> Z.land (Z.shiftl a n) b = 0.
Proof.
  intros Hn Hb. apply Z.bits_inj'. intros m Hm.
  rewrite Z.land_spec, Z.bits_0.
  destruct (Z.lt_ge_cases m n) as [Hlt|Hge].
  - rewrite Z.shiftl_spec_low by exact Hlt. reflexivity.
  - replace b with (b mod 2 ^ n) by (apply Z.mod_small; exact Hb).
    rewrite Z.mod_pow2_bits_high by lia. apply andb_false_r.
Qed.

Lemma lor_shiftl_low (a b n : Z) :
  0 <= n -> 0 <= b < 2 ^ n -> Z.lor (Z.shiftl a n) b = a * 2 ^ n + b.
Proof.
  intros Hn Hb.
  pose proof (Z.add_lor_land (Z.shiftl a n) b) as Hadd.
  rewrite (land_shiftl_low a b n Hn Hb) in Hadd.
  rewrite <- Z.shiftl_mul_pow2 by exact Hn. lia.
Qed.

Lemma nth_is_byte (p : list Z) :
  Forall is_byte p -> forall k, is_byte (nth k p 0).
Proof.
  intros Hp k. destruct (Nat.lt_ge_cases k (length p)) as [Hlt|Hge].
  - rewrite Forall_forall in Hp. apply Hp. apply nth_In. exact Hlt.
  - rewrite nth_overflow by exact Hge. unfold is_byte. lia.
Qed.

Lemma LE_IN16_value (p : list Z) (off : nat) :
  Forall is_byte p ->
  LE_IN16 p off = nth off p 0 + 256 * nth (off + 1) p 0
  /\ 0 <= LE_IN16 p off < 2 ^ 16.
Proof.
  intros Hp. unfold LE_IN16, LE_IN8.
  pose proof (nth_is_byte p Hp off) as H0.
  pose proof (nth_is_byte p Hp (off + 1)) as H1.
  unfold is_byte in H0, H1.
  rewrite lor_shiftl_low by (change (2 ^ 8) with 256; lia).
  change (2 ^ 8) with 256. change (2 ^ 16) with 65536. lia.
Qed.

Lemma LE_IN32_le32_word (p : list Z) (off : nat) :
  Forall is_byte p -> LE_IN32 p off = le32_word p off.
Proof.
  intros Hp. unfold LE_IN32, le32_word.
  destruct (LE_IN16_value p off Hp) as [Hlo Hlo_range].
  destruct (LE_IN16_value p (off + 2) Hp) as [Hhi _].
  rewrite lor_shiftl_low by (lia || exact Hlo_range).
  rewrite Hlo, Hhi.
  replace (off + 2 + 1)%nat with (off + 3)%nat by lia.
  change (2 ^ 16) with 65536. lia.
Qed.

Lemma LE_OUT32_le32_bytes (v : Z) : LE_OUT32 v = le32_bytes v.
Proof.
  unfold LE_OUT32, LE_OUT16, LE_OUT8, le32_bytes. cbn [app].
  change 255 with (Z.ones 8).
  rewrite !Z.land_ones by lia.
  rewrite Z.shiftr_shiftr by lia.
  rewrite !Z.shiftr_div_pow2 by lia.
  reflexivity.
Qed.

Lemma credential_le_data_spec (challenge : list Z) (timestamp : Z) :
  Forall is_byte challenge ->
  credential_le_data challenge timestamp
  = spec_credential_input challenge timestamp.
Proof.
  intros Hp. unfold credential_le_data, spec_credential_input, dword.
  rewrite !LE_OUT32_le32_bytes, !LE_IN32_le32_word by exact Hp.
  reflexivity.
Qed.

Lemma skey64_le_data_spec (cc sc : list Z) :
  Forall is_byte cc -> Forall is_byte sc ->
  skey64_le_data cc sc = spec_challenge_sum cc sc.
Proof.
  intros Hc Hs. unfold skey64_le_data, spec_challenge_sum, dword.
  rewrite !LE_OUT32_le32_bytes.
  rewrite !(LE_IN32_le32_word cc) by exact Hc.
  rewrite !(LE_IN32_le32_word sc) by exact Hs.
  reflexivity.
Qed.

Lemma le32_bytes_pair_length (a b : Z) :
  length (le32_bytes a ++ le32_bytes b) = 8%nat.
Proof. reflexivity. Qed.

Lemma firstn_exact (n : nat) (l : list Z) : length l = n -> firstn n l = l.
Proof. intros <-. apply firstn_all. Qed.

Section Derivations.

Context {H : NetrHeaders} {E : NetrExtern}.

(** ** Credential generation *)

(** What [netr_gen_credentials] computes once the first pass succeeds, in
    terms of the two cipher calls it makes. *)
Lemma netr_gen_credentials_unfold
    (sk challenge : list Z) (timestamp : Z) (out_cred : list Z)
    (retry : bool) :
  let pass1 :=
    smb_auth_DES (slice 0 NETR_DESKEY_LEN sk)
      (firstn 8 (credential_le_data challenge timestamp)) in
  let pass2 :=
    smb_auth_DES (slice NETR_DESKEY_LEN NETR_DESKEY_LEN sk)
      (firstn 8 (snd pass1)) in
  fst pass1 = SMBAUTH_SUCCESS ->
  netr_gen_credentials sk challenge timestamp out_cred retry
  = if retry && negb (passes_dc_mitigation (snd pass2))
    then (SMBAUTH_RETRY, snd pass2)
    else pass2.
Proof.
  intros pass1 pass2 Hok. unfold netr_gen_credentials.
  fold pass1. destruct pass1 as [rc1 buffer] eqn:Hp1.
  simpl in Hok. subst rc1. simpl smbauth_eqb. cbn [negb].
  subst pass2. cbn [snd].
  destruct (smb_auth_DES (slice NETR_DESKEY_LEN NETR_DESKEY_LEN sk)
              (firstn 8 buffer)) as [rc out].
  reflexivity.
Qed.

(** C4: for a session key of at least fourteen bytes, an eight-byte
    challenge and a 32-bit increment, the cipher input is the challenge
    read as two little-endian words, the increment added to the first word
    only modulo 2^32, re-encoded little-endian; it is encrypted under bytes
    0-6 of the session key, and the result under bytes 7-13, which gives
    the eight-byte credential. *)
Theorem netr_gen_credentials_two_pass :
  forall (sk challenge : list Z) (timestamp : Z) (out_cred : list Z),
    (14 <= length sk)%nat ->
    length challenge = 8%nat ->
    Forall is_byte challenge ->
    is_dword timestamp ->
    des_blocks ->
    let input := spec_credential_input challenge timestamp in
    let pass1 := smb_auth_DES (key_bytes 0 sk) input in
    let pass2 := smb_auth_DES (key_bytes 7 sk) (snd pass1) in
    fst pass1 = SMBAUTH_SUCCESS ->
    length input = 8%nat
    /\ netr_gen_credentials sk challenge timestamp out_cred false = pass2
    /\ (forall retry,
          snd (netr_gen_credentials sk challenge timestamp out_cred retry)
          = snd pass2)
    /\ length (snd pass2) = 8%nat.
Proof.
  intros sk challenge timestamp out_cred _ _ Hbytes _ Hdes input pass1 pass2
    Hok.
  assert (Hin : firstn 8 (credential_le_data challenge timestamp) = input).
  { rewrite credential_le_data_spec by exact Hbytes.
    apply firstn_exact. apply le32_bytes_pair_length. }
  assert (Hbuf : firstn 8 (snd pass1) = snd pass1).
  { apply firstn_exact. apply Hdes. }
  assert (Hrun : forall retry,
            netr_gen_credentials sk challenge timestamp out_cred retry
            = if retry && negb (passes_dc_mitigation (snd pass2))
              then (SMBAUTH_RETRY, snd pass2) else pass2).
  { intros retry.
    pose proof (netr_gen_credentials_unfold sk challenge timestamp out_cred
                  retry) as Hu.
    cbv zeta in Hu. rewrite Hin in Hu.
    change (slice 0 NETR_DESKEY_LEN sk) with (key_bytes 0 sk) in Hu.
    change (slice NETR_DESKEY_LEN NETR_DESKEY_LEN sk)
      with (key_bytes 7 sk) in Hu.
    fold pass1 in Hu. rewrite Hbuf in Hu. fold pass2 in Hu.
    exact (Hu Hok). }
  split; [apply le32_bytes_pair_length|].
  split; [rewrite Hrun; reflexivity|].
  split; [|apply Hdes].
  intros retry. rewrite Hrun.
  destruct (retry && negb (passes_dc_mitigation (snd pass2))); reflexivity.
Qed.

(** C6: with the retry flag set, a computed credential that fails the
    mitigation check makes the function return [SMBAUTH_RETRY], a code
    different from success and failure, in one pass; with the flag clear
    the check is not consulted and the second cipher pass's code and
    credential are returned as they are. *)
Theorem netr_gen_credentials_retry :
  forall (sk challenge : list Z) (timestamp : Z) (out_cred : list Z),
    let pass1 :=
      smb_auth_DES (slice 0 NETR_DESKEY_LEN sk)
        (firstn 8 (credential_le_data challenge timestamp)) in
    let pass2 :=
      smb_auth_DES (slice NETR_DESKEY_LEN NETR_DESKEY_LEN sk)
        (firstn 8 (snd pass1)) in
    fst pass1 = SMBAUTH_SUCCESS ->
    (passes_dc_mitigation (snd pass2) = false ->
       netr_gen_credentials sk challenge timestamp out_cred true
       = (SMBAUTH_RETRY, snd pass2))
    /\ (passes_dc_mitigation (snd pass2) = true ->
          netr_gen_credentials sk challenge timestamp out_cred true = pass2)
    /\ netr_gen_credentials sk challenge timestamp out_cred false = pass2
    /\ SMBAUTH_RETRY <> SMBAUTH_SUCCESS
    /\ SMBAUTH_RETRY <> SMBAUTH_FAILURE.
Proof.
  intros sk challenge timestamp out_cred pass1 pass2 Hok.
  pose proof (netr_gen_credentials_unfold sk challenge timestamp out_cred)
    as Hrun. cbv zeta in Hrun. fold pass1 in Hrun. fold pass2 in Hrun.
  repeat split.
  - intros Hfail. rewrite (Hrun true Hok), Hfail. reflexivity.
  - intros Hpass. rewrite (Hrun true Hok), Hpass. reflexivity.
  - rewrite (Hrun false Hok). reflexivity.
  - discriminate.
  - discriminate.
Qed.

(** ** Session-key derivation *)

Lemma slice_app_l (off n : nat) (a b : list Z) :
  (off + n <= length a)%nat -> slice off n (a ++ b) = slice off n a.
Proof.
  intros Hlen. unfold slice. rewrite skipn_app, firstn_app.
  rewrite length_skipn.
  replace (n - (length a - off))%nat with 0%nat by lia.
  rewrite firstn_O. apply app_nil_r.
Qed.

Lemma slice_buf_write (off n : nat) (dst src : list Z) :
  (off + n <= length src)%nat ->
  slice off n (buf_write dst src) = slice off n src.
Proof. intros Hlen. unfold buf_write. apply slice_app_l. exact Hlen. Qed.

Lemma firstn_buf_write (dst src : list Z) :
  firstn (length src) (buf_write dst src) = src.
Proof.
  unfold buf_write. rewrite firstn_app, Nat.sub_diag, firstn_O, app_nil_r.
  apply firstn_all.
Qed.

(** C5: the legacy derivation forms the challenge sum by adding the two
    challenges word by word (two little-endian 32-bit words each, modulo
    2^32) and re-encoding little-endian, encrypts it under bytes 0-6 of
    the password hash and encrypts the result under bytes 9-15 of the
    hash; the eight bytes so obtained are the session key. *)
Theorem netr_gen_skey64_two_pass :
  forall (info : netr_info) (pw h : list Z),
    length (client_challenge info) = 8%nat ->
    length (server_challenge info) = 8%nat ->
    Forall is_byte (client_challenge info) ->
    Forall is_byte (server_challenge info) ->
    trust_password_is info pw ->
    smb_auth_ntlm_hash pw = (SMBAUTH_SUCCESS, h) ->
    length h = 16%nat ->
    des_blocks ->
    let sum :=
      spec_challenge_sum (client_challenge info) (server_challenge info) in
    let pass1 := smb_auth_DES (key_bytes 0 h) sum in
    let pass2 := smb_auth_DES (key_bytes 9 h) (snd pass1) in
    fst pass1 = SMBAUTH_SUCCESS ->
    length sum = 8%nat
    /\ fst (netr_gen_skey64 info) = fst pass2
    /\ firstn 8 (key (session_key (snd (netr_gen_skey64 info)))) = snd pass2
    /\ len (session_key (snd (netr_gen_skey64 info))) = 8%nat
    /\ length (snd pass2) = 8%nat.
Proof.
  intros info pw h _ _ Hcc Hsc [Hcfg Hne] Hntlm Hh Hdes sum pass1 pass2 Hok.
  assert (Hsum : length sum = 8%nat) by apply le32_bytes_pair_length.
  split; [exact Hsum|].
  assert (Hlen2 : length (snd pass2) = 8%nat) by apply Hdes.
  unfold netr_gen_skey64. cbn [password set_password].
  rewrite Hcfg, Z.eqb_refl. cbn [negb orb].
  destruct (Z.eqb_spec (nth 0 pw 0) 0) as [Hz|_]; [contradiction|].
  rewrite Hntlm. cbn [smbauth_eqb negb].
  cbn [client_challenge server_challenge set_password].
  rewrite !slice_buf_write by (rewrite Hh; unfold NETR_DESKEY_LEN; lia).
  rewrite skey64_le_data_spec by assumption. fold sum.
  rewrite (firstn_exact 8 sum Hsum).
  change (slice 0 NETR_DESKEY_LEN h) with (key_bytes 0 h).
  change (slice 9 NETR_DESKEY_LEN h) with (key_bytes 9 h).
  fold pass1. destruct pass1 as [rc1 buffer] eqn:Hp1.
  cbn [fst] in Hok. subst rc1. cbn [smbauth_eqb negb].
  assert (Hbuf : firstn 8 buffer = buffer).
  { apply firstn_exact. pose proof (Hdes (key_bytes 0 h) sum) as Hl.
    fold pass1 in Hl. rewrite Hp1 in Hl. exact Hl. }
  rewrite Hbuf. cbn [snd] in pass2, Hlen2. fold pass2.
  destruct pass2 as [rc2 out] eqn:Hp2. cbn [snd fst] in *.
  cbn [session_key set_session_key wipe_password set_password key len].
  split; [reflexivity|]. split; [|split; [reflexivity | exact Hlen2]].
  rewrite <- Hlen2. apply firstn_buf_write.
Qed.

(** C3: with a non-empty trust password and every primitive succeeding,
    the strong derivation stores a 16-byte session key equal to the
    HMAC-MD5, keyed by the NTLM hash of the trust password, of the MD5
    digest of four zero bytes followed by the client challenge and the
    server challenge; when the trust password is unavailable or empty it
    returns failure and stores no key. *)
Theorem netr_gen_skey128_strong_key :
  forall info : netr_info,
    length (client_challenge info) = 8%nat ->
    length (server_challenge info) = 8%nat ->
    length (key (session_key info)) = 16%nat ->
    (forall pw h,
       trust_password_is info pw ->
       smb_auth_ntlm_hash pw = (SMBAUTH_SUCCESS, h) ->
       length h = 16%nat ->
       digest_session_ok ->
       let digest :=
         md5 ([0; 0; 0; 0] ++ client_challenge info ++ server_challenge info)
       in
       fst (smb_auth_hmac_md5 digest h) = SMBAUTH_SUCCESS ->
       length (snd (smb_auth_hmac_md5 digest h)) = 16%nat ->
       fst (netr_gen_skey128 info) = SMBAUTH_SUCCESS
       /\ key (session_key (snd (netr_gen_skey128 info)))
          = snd (smb_auth_hmac_md5 digest h)
       /\ len (session_key (snd (netr_gen_skey128 info))) = 16%nat
       /\ length (key (session_key (snd (netr_gen_skey128 info)))) = 16%nat)
    /\ (trust_password_missing info ->
        fst (netr_gen_skey128 info) = SMBAUTH_FAILURE
        /\ session_key (snd (netr_gen_skey128 info)) = session_key info).
Proof.
  intros info Hcc Hsc Hkey. split.
  - intros pw h [Hcfg Hne] Hntlm Hh [Hmech [Hinit [Hupd Hfin]]] digest Hok
      Hlen.
    unfold netr_gen_skey128. cbn [password set_password].
    rewrite Hcfg, Z.eqb_refl. cbn [negb orb].
    destruct (Z.eqb_spec (nth 0 pw 0) 0) as [Hz|_]; [contradiction|].
    rewrite Hntlm. cbn [smbauth_eqb negb].
    rewrite Hmech, Hinit, !Hupd, Hfin, Z.eqb_refl. cbn [negb].
    cbn [client_challenge server_challenge set_password].
    unfold NETR_CRED_DATA_SZ.
    rewrite (firstn_exact _ _ Hcc), (firstn_exact _ _ Hsc).
    rewrite (buf_write_full (repeat 0 SMBAUTH_HASH_SZ) h)
      by (rewrite repeat_length, Hh; reflexivity).
    change (repeat 0 NETR_SESSKEY_ZEROBUF_SZ) with [0; 0; 0; 0].
    fold digest.
    destruct (smb_auth_hmac_md5 digest h) as [rc out] eqn:Hh2.
    cbn [fst snd] in *. subst rc.
    cbn [session_key set_session_key wipe_password set_password key len
         fst snd].
    rewrite (buf_write_full _ out) by (rewrite Hkey, Hlen; reflexivity).
    repeat split; try reflexivity. exact Hlen.
  - intros Hmiss. unfold trust_password_missing in Hmiss.
    unfold netr_gen_skey128. cbn [password set_password].
    destruct (smb_config_getstr_MACHINE_PASSWD (bzero (password info)))
      as [rc pw]. cbn [fst snd] in Hmiss.
    assert (Hcond : negb (rc =? SMBD_SMF_OK) || (nth 0 pw 0 =? 0) = true).
    { destruct Hmiss as [Hrc|Hz].
      - apply Z.eqb_neq in Hrc. rewrite Hrc. reflexivity.
      - rewrite Hz, Z.eqb_refl. apply orb_true_r. }
    rewrite Hcond. split; reflexivity.
Qed.

(** A digest call that fails after the session was opened leaves through
    [cleanup] with [rc] still holding the success of the password hash: no
    key is stored, and the code returned is [SMBAUTH_SUCCESS]. *)
Lemma netr_gen_skey128_digest_init_failure :
  forall (info : netr_info) (pw h : list Z),
    trust_password_is info pw ->
    smb_auth_ntlm_hash pw = (SMBAUTH_SUCCESS, h) ->
    SUNW_C_GetMechSession = CKR_OK ->
    C_DigestInit <> CKR_OK ->
    fst (netr_gen_skey128 info) = SMBAUTH_SUCCESS
    /\ session_key (snd (netr_gen_skey128 info)) = session_key info.
Proof.
  intros info pw h [Hcfg Hne] Hntlm Hmech Hinit.
  unfold netr_gen_skey128. cbn [password set_password].
  rewrite Hcfg, Z.eqb_refl. cbn [negb orb].
  destruct (Z.eqb_spec (nth 0 pw 0) 0) as [Hz|_]; [contradiction|].
  rewrite Hntlm. cbn [smbauth_eqb negb].
  rewrite Hmech, Z.eqb_refl. cbn [negb].
  apply Z.eqb_neq in Hinit. rewrite Hinit. cbn [negb].
  split; reflexivity.
Qed.

End Derivations.

Section Protocol.

Context {H : NetrHeaders} {E : NetrExtern}.

(** Case analysis on whatever the goal branches on next. *)
Ltac break_branch :=
  match goal with
  | |- context [match ?x with _ => _ end] => destruct x eqn:?
  end.

(** ** The authenticate step *)

(** Once the server has answered, the step stores the answer's flags and
    returns the comparison of the two credentials. *)
Lemma netr_server_authenticate2_answered
    (w : world) (i3 : netr_info) (cc sc : list Z)
    (reply : netr_ServerAuthenticate2) :
  auth2_answered w i3 cc sc reply ->
  netr_server_authenticate2 w
  = (memcmp sc (sa_server_credential reply) NETR_CRED_DATA_SZ,
     auth2_answered_world w i3 cc sc reply).
Proof.
  intros [Hkey [Hcc [Hsc [Hcall Hst]]]].
  unfold netr_server_authenticate2, bind, get_info, set_info, emit, ret.
  rewrite Hkey. cbn [smbauth_eqb negb]. rewrite Hcc. cbn [smbauth_eqb negb].
  cbn [session_key server_challenge server_credential set_client_credential].
  rewrite Hsc. cbn [smbauth_eqb negb].
  cbn [netr_global_info put_info log_call].
  rewrite Hcall. cbn [Z.eqb negb]. rewrite Hst. cbn [Z.eqb negb].
  reflexivity.
Qed.

(** ** What the steps leave alone *)

Lemma bzero_idem (buf : list Z) : bzero (bzero buf) = bzero buf.
Proof. unfold bzero. rewrite repeat_length. reflexivity. Qed.

Lemma auth2_gen_skey_flags (f : Z) (i : netr_info) :
  flags (snd (auth2_gen_skey f i)) = flags i.
Proof.
  unfold auth2_gen_skey, netr_gen_skey128, netr_gen_skey64.
  repeat break_branch; reflexivity.
Qed.

(** A derivation that reports success has wiped the password. *)
Lemma auth2_gen_skey_wipes (f : Z) (i i' : netr_info) :
  auth2_gen_skey f i = (SMBAUTH_SUCCESS, i') ->
  password i' = bzero (password i').
Proof.
  unfold auth2_gen_skey, netr_gen_skey128, netr_gen_skey64.
  repeat break_branch; intros Heq; inversion Heq; subst;
    cbn [password wipe_password set_password set_session_key];
    symmetry; apply bzero_idem.
Qed.

Lemma netlogon_auth_prepare_flags (s d : string) (f : Z) (w w1 : world) :
  netlogon_auth_prepare s d f w = inr w1 ->
  flags (netr_global_info w1) = f.
Proof.
  unfold netlogon_auth_prepare.
  repeat break_branch; intros Heq; inversion Heq; reflexivity.
Qed.

Lemma client_challenge_loop_flags (fuel : nat) :
  forall w w',
    client_challenge_loop fuel w = Some w' ->
    flags (netr_global_info w') = flags (netr_global_info w).
Proof.
  induction fuel as [|fuel IH]; intros w w'; cbn [client_challenge_loop].
  - discriminate.
  - break_branch; intros Heq.
    + rewrite (IH _ _ Heq). reflexivity.
    + pose proof (f_equal
                    (fun o => match o with
                              | Some x => flags (netr_global_info x)
                              | None => flags (netr_global_info w)
                              end) Heq) as Hf.
      cbv beta iota in Hf.
      cbn [flags netr_global_info set_client_challenge] in Hf.
      symmetry. exact Hf.
Qed.

Lemma netr_server_req_challenge_flags (w w' : world) (rc : Z) :
  netr_server_req_challenge w = (rc, w') ->
  flags (netr_global_info w') = flags (netr_global_info w).
Proof.
  unfold netr_server_req_challenge, bind, get_info, set_info, emit, ret.
  repeat break_branch; intros Heq; inversion Heq; reflexivity.
Qed.

(** ** The whole attempt, once the server has answered *)

Lemma auth_reaches_answer_flags
    (fuel : nat) (s d : string) (f : Z) (w w3 : world) (i3 : netr_info)
    (cc sc : list Z) (reply : netr_ServerAuthenticate2) :
  auth_reaches_answer fuel s d f w w3 i3 cc sc reply -> flags i3 = f.
Proof.
  intros [w1 [w2 [Hprep [Hloop [Hreq [[Hkey _] _]]]]]].
  pose proof (auth2_gen_skey_flags
                (auth2_negotiate_flags (use_secure_rpc (netr_global_info w3)))
                (netr_global_info w3)) as Hf.
  rewrite Hkey in Hf. cbn [snd] in Hf. rewrite Hf.
  rewrite (netr_server_req_challenge_flags _ _ _ Hreq).
  rewrite (client_challenge_loop_flags _ _ _ Hloop).
  exact (netlogon_auth_prepare_flags _ _ _ _ _ Hprep).
Qed.

Lemma netlogon_auth_answered
    (fuel : nat) (s d : string) (f : Z) (w w3 : world) (i3 : netr_info)
    (cc sc : list Z) (reply : netr_ServerAuthenticate2) :
  auth_reaches_answer fuel s d f w w3 i3 cc sc reply ->
  let wa := auth2_answered_world w3 i3 cc sc reply in
  netlogon_auth fuel s d f w
  = Some
      (if memcmp sc (sa_server_credential reply) NETR_CRED_DATA_SZ =? 0
       then
         (NT_STATUS_SUCCESS,
          log_call Call_ndr_rpc_unbind
            (put_info (log_call Call_smb_update_netlogon_seqnum wa)
               (set_flags (netr_global_info wa)
                  (Z.lor (flags (netr_global_info wa)) NETR_FLG_VALID))))
       else (NT_STATUS_UNSUCCESSFUL, log_call Call_ndr_rpc_unbind wa)).
Proof.
  intros [w1 [w2 [Hprep [Hloop [Hreq [Hans _]]]]]] wa.
  unfold netlogon_auth. rewrite Hprep, Hloop. f_equal.
  unfold netlogon_auth_exchange, bind. rewrite Hreq. cbn [Z.eqb].
  rewrite (netr_server_authenticate2_answered _ _ _ _ _ Hans). fold wa.
  destruct (memcmp sc (sa_server_credential reply) NETR_CRED_DATA_SZ =? 0)
    eqn:Hcmp.
  - apply Z.eqb_eq in Hcmp.
    unfold emit, get_info, set_info, ret, netlogon_auth_errout, netr_close,
      bind, emit, ret.
    rewrite Hcmp. reflexivity.
  - unfold ret, netlogon_auth_errout, netr_close, bind, emit, ret.
    rewrite Hcmp. reflexivity.
Qed.

Lemma land_lor_self (a b : Z) : Z.land (Z.lor a b) b = b.
Proof.
  apply Z.bits_inj'. intros n _.
  rewrite Z.land_spec, Z.lor_spec.
  destruct (Z.testbit a n), (Z.testbit b n); reflexivity.
Qed.

(** C1, as the code has it: when the authenticate step has the server's
    answer, the locally computed server credential is compared with the
    returned one byte for byte.  On a match the valid flag is set on top
    of the caller's flags, so the session is marked established, the
    sequence number is updated and the call returns success.  On a
    mismatch the call returns the unsuccessful status, updates no sequence
    number and sets no flag: the flags word is the one the caller passed
    in, so the session is marked established exactly when the caller's
    flags already carried the valid flag.  For a caller whose flags do not
    carry it, the session is marked established exactly on a match. *)
Theorem netlogon_auth_established_iff_match :
  forall (fuel : nat) (s d : string) (f : Z) (w w3 : world)
         (i3 : netr_info) (cc sc : list Z)
         (reply : netr_ServerAuthenticate2),
    auth_reaches_answer fuel s d f w w3 i3 cc sc reply ->
    exists st w',
      netlogon_auth fuel s d f w = Some (st, w')
      /\ server_credential (netr_global_info w') = sc
      /\ (sc = sa_server_credential reply ->
          st = NT_STATUS_SUCCESS
          /\ flags (netr_global_info w') = Z.lor f NETR_FLG_VALID
          /\ (NETR_FLG_VALID <> 0 ->
              marked_established (netr_global_info w'))
          /\ ext_log w'
             = Call_ndr_rpc_unbind :: Call_smb_update_netlogon_seqnum
                 :: Call_ndr_rpc_release
                 :: Call_ndr_rpc_call_ServerAuthenticate2 :: ext_log w3)
      /\ (sc <> sa_server_credential reply ->
          st = NT_STATUS_UNSUCCESSFUL
          /\ flags (netr_global_info w') = f
          /\ (marked_established (netr_global_info w')
              <-> Z.land f NETR_FLG_VALID <> 0)
          /\ ext_log w'
             = Call_ndr_rpc_unbind :: Call_ndr_rpc_release
                 :: Call_ndr_rpc_call_ServerAuthenticate2 :: ext_log w3)
      /\ (NETR_FLG_VALID <> 0 ->
          Z.land f NETR_FLG_VALID = 0 ->
          (marked_established (netr_global_info w')
           <-> sc = sa_server_credential reply)).
Proof.
  intros fuel s d f w w3 i3 cc sc reply Hreach.
  pose proof (netlogon_auth_answered _ _ _ _ _ _ _ _ _ _ Hreach) as Hrun.
  pose proof (auth_reaches_answer_flags _ _ _ _ _ _ _ _ _ _ Hreach) as Hfl.
  destruct Hreach as [w1 [w2 [_ [_ [_ [_ [Hlsc Hlrep]]]]]]].
  pose proof (memcmp_zero_iff 8 sc (sa_server_credential reply) Hlsc Hlrep)
    as Hcmp.
  cbv zeta in Hrun.
  destruct (memcmp sc (sa_server_credential reply) NETR_CRED_DATA_SZ =? 0)
    eqn:Hz.
  - apply Z.eqb_eq in Hz. apply Hcmp in Hz.
    eexists. eexists. split; [exact Hrun|].
    assert (Hflags :
              flags
                (netr_global_info
                   (log_call Call_ndr_rpc_unbind
                      (put_info
                         (log_call Call_smb_update_netlogon_seqnum
                            (auth2_answered_world w3 i3 cc sc reply))
                         (set_flags
                            (netr_global_info
                               (auth2_answered_world w3 i3 cc sc reply))
                            (Z.lor
                               (flags
                                  (netr_global_info
                                     (auth2_answered_world w3 i3 cc sc
                                        reply)))
                               NETR_FLG_VALID)))))
              = Z.lor f NETR_FLG_VALID).
    { cbn. rewrite Hfl. reflexivity. }
    assert (Hmark :
              NETR_FLG_VALID <> 0 ->
              marked_established
                (netr_global_info
                   (log_call Call_ndr_rpc_unbind
                      (put_info
                         (log_call Call_smb_update_netlogon_seqnum
                            (auth2_answered_world w3 i3 cc sc reply))
                         (set_flags
                            (netr_global_info
                               (auth2_answered_world w3 i3 cc sc reply))
                            (Z.lor
                               (flags
                                  (netr_global_info
                                     (auth2_answered_world w3 i3 cc sc
                                        reply)))
                               NETR_FLG_VALID)))))).
    { intros Hv. unfold marked_established.
      rewrite Hflags, land_lor_self. exact Hv. }
    split; [reflexivity|]. split; [|split].
    + intros _. split; [reflexivity|]. split; [exact Hflags|].
      split; [exact Hmark | reflexivity].
    + intros Hne. contradiction.
    + intros Hv _. split; [intros _; exact Hz | intros _; exact (Hmark Hv)].
  - apply Z.eqb_neq in Hz.
    eexists. eexists. split; [exact Hrun|].
    assert (Hflags :
              flags
                (netr_global_info
                   (log_call Call_ndr_rpc_unbind
                      (auth2_answered_world w3 i3 cc sc reply))) = f).
    { cbn. exact Hfl. }
    split; [reflexivity|]. split; [|split].
    + intros Heq. exfalso. apply Hz. apply Hcmp. exact Heq.
    + intros _. split; [reflexivity|]. split; [exact Hflags|].
      split; [|reflexivity].
      unfold marked_established. rewrite Hflags. tauto.
    + intros _ Hzero. unfold marked_established. rewrite Hflags. split.
      * intros Hm. contradiction.
      * intros Heq. exfalso. apply Hz. apply Hcmp. exact Heq.
Qed.

(** C9, as the code has it: after a mismatch the call returns the
    unsuccessful status and sets no flag: the flags word is the one the
    caller passed in, so the session is not marked established unless the
    caller's flags already carried the valid flag.  The trust password in
    the session state is zero.  The session key derived in this attempt is
    not wiped: it is in the session state when the call returns. *)
Theorem netlogon_auth_mismatch_leaves_key :
  forall (fuel : nat) (s d : string) (f : Z) (w w3 : world)
         (i3 : netr_info) (cc sc : list Z)
         (reply : netr_ServerAuthenticate2),
    auth_reaches_answer fuel s d f w w3 i3 cc sc reply ->
    sc <> sa_server_credential reply ->
    exists w',
      netlogon_auth fuel s d f w = Some (NT_STATUS_UNSUCCESSFUL, w')
      /\ flags (netr_global_info w') = f
      /\ (marked_established (netr_global_info w')
          <-> Z.land f NETR_FLG_VALID <> 0)
      /\ (Z.land f NETR_FLG_VALID = 0 ->
          ~ marked_established (netr_global_info w'))
      /\ ext_log w'
         = Call_ndr_rpc_unbind :: Call_ndr_rpc_release
             :: Call_ndr_rpc_call_ServerAuthenticate2 :: ext_log w3
      /\ password (netr_global_info w')
         = bzero (password (netr_global_info w'))
      /\ session_key (netr_global_info w') = session_key i3.
Proof.
  intros fuel s d f w w3 i3 cc sc reply Hreach Hne.
  pose proof (netlogon_auth_answered _ _ _ _ _ _ _ _ _ _ Hreach) as Hrun.
  pose proof (auth_reaches_answer_flags _ _ _ _ _ _ _ _ _ _ Hreach) as Hfl.
  destruct Hreach as [w1 [w2 [_ [_ [_ [[Hkey _] [Hlsc Hlrep]]]]]]].
  pose proof (memcmp_zero_iff 8 sc (sa_server_credential reply) Hlsc Hlrep)
    as Hcmp.
  cbv zeta in Hrun.
  destruct (memcmp sc (sa_server_credential reply) NETR_CRED_DATA_SZ =? 0)
    eqn:Hz.
  - apply Z.eqb_eq in Hz. apply Hcmp in Hz. contradiction.
  - eexists. split; [exact Hrun|].
    assert (Hflags :
              flags
                (netr_global_info
                   (log_call Call_ndr_rpc_unbind
                      (auth2_answered_world w3 i3 cc sc reply))) = f).
    { cbn. exact Hfl. }
    split; [exact Hflags|].
    split; [unfold marked_established; rewrite Hflags; tauto|].
    split; [unfold marked_established; rewrite Hflags; tauto|].
    split; [reflexivity|].
    split; [|reflexivity].
    cbn. exact (auth2_gen_skey_wipes _ _ _ Hkey).
Qed.

End Protocol.

(** ** The sample run *)

(** In the sample world the attempt reaches the server's answer. *)
Lemma sample_run_reaches_answer (srv : Z -> Z) (cred : list Z) :
  length cred = 8%nat ->
  exists w3 i3 cc reply,
    @auth_reaches_answer sample_headers (sample_extern srv cred 0)
      3 "dc1" "DOM" 0 (sample_world true) w3 i3 cc sample_expected_cred reply
    /\ sa_server_credential reply = cred
    /\ key (session_key i3)
       = [199; 206; 213; 220; 227; 234; 241; 248; 255; 6; 13; 20; 27; 34;
          41; 48].
Proof.
  intros Hlen. do 4 eexists. split; [|split].
  - unfold auth_reaches_answer. do 2 eexists.
    split; [lazy; reflexivity|].
    split; [lazy; reflexivity|].
    split; [lazy; reflexivity|].
    split; [|split; [reflexivity|]].
    + unfold auth2_answered.
      split; [lazy; reflexivity|].
      split; [lazy; reflexivity|].
      split; [lazy; reflexivity|].
      split; [lazy; reflexivity|].
      reflexivity.
    + cbn. exact Hlen.
  - reflexivity.
  - reflexivity.
Qed.

(** The same with the valid flag passed in by the caller. *)
Lemma sample_flagged_run_reaches_answer (cred : list Z) :
  length cred = 8%nat ->
  exists w3 i3 cc reply,
    @auth_reaches_answer sample_headers (sample_extern honest_flags cred 0)
      3 "dc1" "DOM" 1 (sample_world true) w3 i3 cc sample_expected_cred reply
    /\ sa_server_credential reply = cred.
Proof.
  intros Hlen. do 4 eexists. split.
  - unfold auth_reaches_answer. do 2 eexists.
    split; [lazy; reflexivity|].
    split; [lazy; reflexivity|].
    split; [lazy; reflexivity|].
    split; [|split; [reflexivity|]].
    + unfold auth2_answered.
      split; [lazy; reflexivity|].
      split; [lazy; reflexivity|].
      split; [lazy; reflexivity|].
      split; [lazy; reflexivity|].
      reflexivity.
    + cbn. exact Hlen.
  - reflexivity.
Qed.

Lemma netlogon_auth_established_iff_match_witness :
  exists w3 i3 cc reply,
    @auth_reaches_answer sample_headers good_server 3 "dc1" "DOM" 0
      (sample_world true) w3 i3 cc sample_expected_cred reply
    /\ sample_expected_cred = sa_server_credential reply
    /\ exists w',
         @netlogon_auth sample_headers good_server 3 "dc1" "DOM" 0
           (sample_world true)
         = Some (@NT_STATUS_SUCCESS sample_headers, w')
         /\ server_credential (netr_global_info w') = sample_expected_cred
         /\ flags (netr_global_info w')
            = Z.lor 0 (@NETR_FLG_VALID sample_headers)
         /\ @marked_established sample_headers (netr_global_info w')
         /\ ext_log w'
            = Call_ndr_rpc_unbind :: Call_smb_update_netlogon_seqnum
                :: Call_ndr_rpc_release
                :: Call_ndr_rpc_call_ServerAuthenticate2 :: ext_log w3.
Proof.
  destruct (sample_run_reaches_answer honest_flags sample_expected_cred
              eq_refl) as (w3 & i3 & cc & reply & Hr & Hcred & _).
  exists w3, i3, cc, reply. split; [exact Hr|].
  split; [symmetry; exact Hcred|].
  destruct (@netlogon_auth_established_iff_match sample_headers good_server
              3 "dc1" "DOM" 0 (sample_world true) w3 i3 cc
              sample_expected_cred reply Hr)
    as (st & w' & Hrun & Hsc & Hmatch & _ & _).
  destruct (Hmatch (eq_sym Hcred)) as (Hst & Hfl & Hmark & Hlog).
  exists w'. rewrite Hst in Hrun.
  split; [exact Hrun|]. split; [exact Hsc|]. split; [exact Hfl|].
  split; [apply Hmark; discriminate | exact Hlog].
Defined.

(** C1, as stated, fails: a caller that passes the valid flag in its
    flags word and meets a server that returns a wrong credential gets the
    unsuccessful status with the session still marked established. *)
Lemma established_iff_match_counterexample :
  ~ @established_iff_match sample_headers bad_server 3 "dc1" "DOM"
      (@NETR_FLG_VALID sample_headers) (sample_world true).
Proof.
  intros Hc.
  destruct (sample_flagged_run_reaches_answer [1; 2; 3; 4; 5; 6; 7; 8]
              eq_refl) as (w3 & i3 & cc & reply & Hr & Hcred).
  assert (Hrun : exists w',
            @netlogon_auth sample_headers bad_server 3 "dc1" "DOM" 1
              (sample_world true)
            = Some (@NT_STATUS_UNSUCCESSFUL sample_headers, w')
            /\ flags (netr_global_info w') = 1).
  { eexists. split; lazy; reflexivity. }
  destruct Hrun as [w' [Hrun Hflags]].
  assert (Hne : sample_expected_cred <> sa_server_credential reply).
  { rewrite Hcred. discriminate. }
  destruct (Hc w3 i3 cc sample_expected_cred reply _ w' Hr Hrun)
    as [_ Hmis].
  destruct (Hmis Hne) as [_ Hunmarked].
  apply Hunmarked. unfold marked_established. rewrite Hflags.
  discriminate.
Qed.

(** C9, as stated, fails: against a server that returns a wrong
    credential the attempt ends unsuccessful with the derived session key
    still in the session state. *)
Lemma wiped_after_mismatch_counterexample :
  ~ @wiped_after_mismatch sample_headers bad_server 3 "dc1" "DOM" 0
      (sample_world true).
Proof.
  intros Hc.
  destruct (sample_run_reaches_answer honest_flags [1; 2; 3; 4; 5; 6; 7; 8]
              eq_refl) as (w3 & i3 & cc & reply & Hr & Hcred & _).
  assert (Hrun : exists w',
            @netlogon_auth sample_headers bad_server 3 "dc1" "DOM" 0
              (sample_world true)
            = Some (@NT_STATUS_UNSUCCESSFUL sample_headers, w')
            /\ key (session_key (netr_global_info w'))
               = [199; 206; 213; 220; 227; 234; 241; 248; 255; 6; 13; 20;
                  27; 34; 41; 48]).
  { eexists. split; lazy; reflexivity. }
  destruct Hrun as [w' [Hrun Hkey]].
  assert (Hne : sample_expected_cred <> sa_server_credential reply).
  { rewrite Hcred. discriminate. }
  destruct (Hc w3 i3 cc sample_expected_cred reply _ w' Hr Hne Hrun)
    as [_ [_ [Hzero _]]].
  rewrite Hkey in Hzero. discriminate Hzero.
Qed.

Lemma netlogon_auth_mismatch_leaves_key_witness :
  exists w3 i3 cc reply,
    @auth_reaches_answer sample_headers bad_server 3 "dc1" "DOM" 0
      (sample_world true) w3 i3 cc sample_expected_cred reply
    /\ sample_expected_cred <> sa_server_credential reply
    /\ exists w',
         @netlogon_auth sample_headers bad_server 3 "dc1" "DOM" 0
           (sample_world true)
         = Some (@NT_STATUS_UNSUCCESSFUL sample_headers, w')
         /\ flags (netr_global_info w') = 0
         /\ ~ @marked_established sample_headers (netr_global_info w')
         /\ ext_log w'
            = Call_ndr_rpc_unbind :: Call_ndr_rpc_release
                :: Call_ndr_rpc_call_ServerAuthenticate2 :: ext_log w3
         /\ password (netr_global_info w')
            = bzero (password (netr_global_info w'))
         /\ session_key (netr_global_info w') = session_key i3
         /\ key (session_key (netr_global_info w'))
            = [199; 206; 213; 220; 227; 234; 241; 248; 255; 6; 13; 20; 27;
               34; 41; 48].
Proof.
  destruct (sample_run_reaches_answer honest_flags [1; 2; 3; 4; 5; 6; 7; 8]
              eq_refl) as (w3 & i3 & cc & reply & Hr & Hcred & Hkey).
  assert (Hne : sample_expected_cred <> sa_server_credential reply).
  { rewrite Hcred. discriminate. }
  exists w3, i3, cc, reply. split; [exact Hr|]. split; [exact Hne|].
  destruct (@netlogon_auth_mismatch_leaves_key sample_headers bad_server
              3 "dc1" "DOM" 0 (sample_world true) w3 i3 cc
              sample_expected_cred reply Hr Hne)
    as (w' & Hrun & Hfl & _ & Hun & Hlog & Hpw & Hsk).
  exists w'. split; [exact Hrun|]. split; [exact Hfl|].
  split; [apply Hun; reflexivity|]. split; [exact Hlog|].
  split; [exact Hpw|]. split; [exact Hsk|].
  rewrite Hsk. exact Hkey.
Defined.

Section Negotiation.

Context {H : NetrHeaders} {E : NetrExtern}.

(** ** The proposed flags *)

Lemma land_lnot_self (a r : Z) : Z.land (Z.land a (Z.lnot r)) r = 0.
Proof.
  apply Z.bits_inj'. intros n Hn.
  rewrite !Z.land_spec, Z.lnot_spec, Z.bits_0 by exact Hn.
  destruct (Z.testbit a n), (Z.testbit r n); reflexivity.
Qed.

(** A strong-key bit outside the secure-RPC bits survives in both forms
    of the proposal. *)
Lemma strongkey_bit_proposed (use : bool) :
  0 < NETR_NEGO_STRONGKEY_FLAG ->
  Z.land NETR_NEGO_STRONGKEY_FLAG NETR_NEGO_SECURE_RPC_FLAG = 0 ->
  Z.land (auth2_negotiate_flags use) NETR_NEGO_STRONGKEY_FLAG <> 0.
Proof.
  intros Hpos Hdisj Hzero.
  pose proof (Z.bit_log2 _ Hpos) as Hbit.
  pose proof (Z.log2_nonneg NETR_NEGO_STRONGKEY_FLAG) as Hn.
  set (n := Z.log2 NETR_NEGO_STRONGKEY_FLAG) in *.
  assert (Hr : Z.testbit NETR_NEGO_SECURE_RPC_FLAG n = false).
  { pose proof (f_equal (fun z => Z.testbit z n) Hdisj) as Hd.
    cbv beta in Hd. rewrite Z.land_spec, Z.bits_0, Hbit in Hd. exact Hd. }
  pose proof (f_equal (fun z => Z.testbit z n) Hzero) as Hz.
  cbv beta in Hz. rewrite Z.bits_0 in Hz.
  unfold auth2_negotiate_flags, netr_server_auth2_flags in Hz.
  destruct use; cbn [negb] in Hz.
  - rewrite Z.land_spec, !Z.lor_spec, Hbit, Hr in Hz.
    rewrite orb_true_r in Hz. discriminate Hz.
  - rewrite !Z.land_spec, !Z.lor_spec, Z.lnot_spec, Hbit, Hr in Hz
      by exact Hn.
    rewrite orb_true_r in Hz. discriminate Hz.
Qed.

(** C10: the 64-bit derivation cannot be reached from the authenticate
    step.  The proposal always carries the strong-key flag: the flags
    variable is initialised with it, and the configuration can do no more
    than take the secure-RPC flag out of the proposal.  So the test of
    lines 378-384 always chooses the 128-bit derivation, and the
    authenticate step is, on every state, the step that calls the 128-bit
    derivation outright. *)
Theorem auth2_always_strong_key :
  0 < NETR_NEGO_STRONGKEY_FLAG ->
  Z.land NETR_NEGO_STRONGKEY_FLAG NETR_NEGO_SECURE_RPC_FLAG = 0 ->
  forall (cfg : Z) (w : world),
    let w' := snd (netlogon_init_global cfg w) in
    let proposal :=
      auth2_negotiate_flags (use_secure_rpc (netr_global_info w')) in
    (proposal = netr_server_auth2_flags
     \/ proposal
        = Z.land netr_server_auth2_flags (Z.lnot NETR_NEGO_SECURE_RPC_FLAG))
    /\ Z.land proposal NETR_NEGO_STRONGKEY_FLAG <> 0
    /\ (forall info, auth2_gen_skey proposal info = netr_gen_skey128 info)
    /\ (forall use info,
          auth2_gen_skey (auth2_negotiate_flags use) info
          = netr_gen_skey128 info)
    /\ netr_server_authenticate2 w' = netr_server_authenticate2_strong w'
    /\ (forall w0,
          netr_server_authenticate2 w0 = netr_server_authenticate2_strong w0).
Proof.
  intros Hpos Hdisj cfg w w' proposal.
  assert (Hsel : forall use info,
            auth2_gen_skey (auth2_negotiate_flags use) info
            = netr_gen_skey128 info).
  { intros use info. unfold auth2_gen_skey.
    pose proof (strongkey_bit_proposed use Hpos Hdisj) as Hbit.
    apply Z.eqb_neq in Hbit. rewrite Hbit. reflexivity. }
  assert (Hstep : forall w0,
            netr_server_authenticate2 w0
            = netr_server_authenticate2_strong w0).
  { intros w0.
    unfold netr_server_authenticate2, netr_server_authenticate2_strong,
      bind, get_info.
    cbv zeta. rewrite Hsel. reflexivity. }
  split; [|split; [|split; [|split; [|split]]]].
  - unfold proposal, auth2_negotiate_flags.
    destruct (use_secure_rpc (netr_global_info w')); [left | right];
      reflexivity.
  - apply strongkey_bit_proposed; assumption.
  - intros info. apply Hsel.
  - exact Hsel.
  - apply Hstep.
  - exact Hstep.
Qed.

(** ** The negotiated flags *)

Lemma opens_unauthenticated_without_flag (w : world) :
  Z.land (nego_flags (netr_global_info w)) NETR_NEGO_SECURE_RPC_FLAG = 0 ->
  opens_unauthenticated w.
Proof.
  intros Hz s d. unfold netr_open_secure. rewrite Hz. reflexivity.
Qed.

(** What the code stores as negotiated flags is the word the server
    returned, as it is (line 418); it is the intersection with the
    proposal whenever the server returned a subset of the proposal.  When
    the answer lacks secure RPC, or when the configuration took it out of
    the proposal and the server returned a subset, the stored flags lack
    it, and every later secure open made while they stand binds
    unauthenticated. *)
Lemma netr_server_authenticate2_stores_reply_flags :
  forall (w : world) (i3 : netr_info) (cc sc : list Z)
         (reply : netr_ServerAuthenticate2),
    auth2_answered w i3 cc sc reply ->
    let proposal :=
      auth2_negotiate_flags (use_secure_rpc (netr_global_info w)) in
    let w' := snd (netr_server_authenticate2 w) in
    let stored := nego_flags (netr_global_info w') in
    let falls_back :=
      Z.land stored NETR_NEGO_SECURE_RPC_FLAG = 0
      /\ forall w'',
           nego_flags (netr_global_info w'') = stored ->
           opens_unauthenticated w'' in
    stored = sa_negotiate_flags reply
    /\ (Z.land proposal (sa_negotiate_flags reply) = sa_negotiate_flags reply
        -> stored = Z.land proposal (sa_negotiate_flags reply))
    /\ (Z.land (sa_negotiate_flags reply) NETR_NEGO_SECURE_RPC_FLAG = 0 ->
        falls_back)
    /\ (use_secure_rpc (netr_global_info w) = false ->
        Z.land proposal (sa_negotiate_flags reply) = sa_negotiate_flags reply
        -> falls_back).
Proof.
  intros w i3 cc sc reply Hans proposal w' stored falls_back.
  assert (Hst : stored = sa_negotiate_flags reply).
  { unfold stored, w'.
    rewrite (netr_server_authenticate2_answered _ _ _ _ _ Hans).
    reflexivity. }
  assert (Hfb : Z.land (sa_negotiate_flags reply) NETR_NEGO_SECURE_RPC_FLAG
                = 0 -> falls_back).
  { intros Hz. split; [rewrite Hst; exact Hz|].
    intros w'' Heq. apply opens_unauthenticated_without_flag.
    rewrite Heq, Hst. exact Hz. }
  split; [exact Hst|]. split; [|split; [exact Hfb|]].
  - intros Hsub. rewrite Hsub. exact Hst.
  - intros Hoff Hsub. apply Hfb. rewrite <- Hsub.
    unfold proposal, auth2_negotiate_flags. rewrite Hoff. cbn [negb].
    rewrite (Z.land_comm (Z.land _ _) (sa_negotiate_flags reply)).
    rewrite <- Z.land_assoc. rewrite land_lnot_self. apply Z.land_0_r.
Qed.

End Negotiation.

Section PasswordChange.

Context {H : NetrHeaders} {E : NetrExtern}.

(** ** The password change, path by path *)






End PasswordChange.

(** ** The statements on the sample world *)

Lemma sample_des_blocks (srv : Z -> Z) (cred : list Z) (st : Z) :
  @des_blocks (sample_extern srv cred st).
Proof.
  intros k d. cbn [smb_auth_DES sample_extern sample_DES snd].
  rewrite length_firstn, length_app, length_map, repeat_length. lia.
Qed.

Lemma netr_gen_skey128_strong_key_witness :
  let info := netr_global_info (sample_challenged_world true) in
  let pw := [112; 119] ++ repeat 0 30 in
  let h := sample_block16 (byte_sum pw) in
  let digest :=
    @md5 good_server
      ([0; 0; 0; 0] ++ client_challenge info ++ server_challenge info) in
  @trust_password_is sample_headers good_server info pw
  /\ fst (@netr_gen_skey128 sample_headers good_server info)
     = SMBAUTH_SUCCESS
  /\ key (session_key (snd (@netr_gen_skey128 sample_headers good_server
                              info)))
     = snd (@smb_auth_hmac_md5 good_server digest h)
  /\ len (session_key (snd (@netr_gen_skey128 sample_headers good_server
                              info))) = 16%nat
  /\ length (key (session_key (snd (@netr_gen_skey128 sample_headers
                                      good_server info)))) = 16%nat.
Proof.
  cbv zeta.
  assert (Hpw : @trust_password_is sample_headers good_server
                  (netr_global_info (sample_challenged_world true))
                  ([112; 119] ++ repeat 0 30)).
  { split; [reflexivity | cbn; lia]. }
  split; [exact Hpw|].
  destruct (@netr_gen_skey128_strong_key sample_headers good_server
              (netr_global_info (sample_challenged_world true))
              eq_refl eq_refl eq_refl) as [Hstrong _].
  apply (Hstrong ([112; 119] ++ repeat 0 30)
           (sample_block16 (byte_sum ([112; 119] ++ repeat 0 30)))).
  - exact Hpw.
  - reflexivity.
  - reflexivity.
  - repeat split.
  - reflexivity.
  - reflexivity.
Defined.

Lemma netr_gen_credentials_two_pass_witness :
  let sk := sample_block16 192 in
  let challenge := [254; 255; 255; 255; 4; 2; 3; 4] in
  let timestamp := 5 in
  let input := spec_credential_input challenge timestamp in
  let pass1 := @smb_auth_DES good_server (key_bytes 0 sk) input in
  let pass2 := @smb_auth_DES good_server (key_bytes 7 sk) (snd pass1) in
  input = [3; 0; 0; 0; 4; 2; 3; 4]
  /\ length input = 8%nat
  /\ @netr_gen_credentials good_server sk challenge timestamp (repeat 0 8)
       false = pass2
  /\ (forall retry,
        snd (@netr_gen_credentials good_server sk challenge timestamp
               (repeat 0 8) retry) = snd pass2)
  /\ length (snd pass2) = 8%nat.
Proof.
  cbv zeta. split; [reflexivity|].
  apply (@netr_gen_credentials_two_pass good_server
           (sample_block16 192) [254; 255; 255; 255; 4; 2; 3; 4] 5
           (repeat 0 8)).
  - cbn. lia.
  - reflexivity.
  - repeat constructor; unfold is_byte; lia.
  - unfold is_dword. lia.
  - apply sample_des_blocks.
  - reflexivity.
Defined.

Lemma netr_gen_credentials_retry_witness :
  let sk := sample_block16 192 in
  let challenge := [5; 5; 5; 5; 5; 1; 2; 3] in
  let pass1 :=
    @smb_auth_DES good_server (slice 0 NETR_DESKEY_LEN sk)
      (firstn 8 (credential_le_data challenge 0)) in
  let pass2 :=
    @smb_auth_DES good_server (slice NETR_DESKEY_LEN NETR_DESKEY_LEN sk)
      (firstn 8 (snd pass1)) in
  passes_dc_mitigation (snd pass2) = false
  /\ @netr_gen_credentials good_server sk challenge 0 (repeat 0 8) true
     = (SMBAUTH_RETRY, snd pass2)
  /\ @netr_gen_credentials good_server sk challenge 0 (repeat 0 8) false
     = pass2.
Proof.
  cbv zeta.
  destruct (@netr_gen_credentials_retry good_server
              (sample_block16 192) [5; 5; 5; 5; 5; 1; 2; 3] 0 (repeat 0 8)
              eq_refl) as [Hretry [_ [Hplain _]]].
  split; [reflexivity|]. split; [|exact Hplain].
  apply Hretry. reflexivity.
Defined.

Lemma netr_gen_skey64_two_pass_witness :
  let info := netr_global_info (sample_challenged_world true) in
  let pw := [112; 119] ++ repeat 0 30 in
  let h := sample_block16 (byte_sum pw) in
  let sum :=
    spec_challenge_sum (client_challenge info) (server_challenge info) in
  let pass1 := @smb_auth_DES good_server (key_bytes 0 h) sum in
  let pass2 := @smb_auth_DES good_server (key_bytes 9 h) (snd pass1) in
  sum = [12; 10; 10; 10; 9; 6; 6; 6]
  /\ length sum = 8%nat
  /\ fst (@netr_gen_skey64 sample_headers good_server info) = fst pass2
  /\ firstn 8 (key (session_key (snd (@netr_gen_skey64 sample_headers
                                       good_server info)))) = snd pass2
  /\ len (session_key (snd (@netr_gen_skey64 sample_headers good_server
                              info))) = 8%nat
  /\ length (snd pass2) = 8%nat.
Proof.
  cbv zeta. split; [reflexivity|].
  apply (@netr_gen_skey64_two_pass sample_headers good_server
           (netr_global_info (sample_challenged_world true))
           ([112; 119] ++ repeat 0 30)
           (sample_block16 (byte_sum ([112; 119] ++ repeat 0 30)))).
  - reflexivity.
  - reflexivity.
  - repeat constructor; unfold is_byte; lia.
  - repeat constructor; unfold is_byte; lia.
  - split; [reflexivity | cbn; lia].
  - reflexivity.
  - reflexivity.
  - apply sample_des_blocks.
  - reflexivity.
Defined.

Lemma auth2_always_strong_key_witness :
  0 < @NETR_NEGO_STRONGKEY_FLAG sample_headers
  /\ Z.land (@NETR_NEGO_STRONGKEY_FLAG sample_headers)
       (@NETR_NEGO_SECURE_RPC_FLAG sample_headers) = 0
  /\ let w' :=
       snd (netlogon_init_global NETR_CFG_DISABLE_SECURE_RPC
              (sample_world true)) in
     let proposal :=
       @auth2_negotiate_flags sample_headers
         (use_secure_rpc (netr_global_info w')) in
     proposal = 0x000041ff
     /\ Z.land proposal (@NETR_NEGO_STRONGKEY_FLAG sample_headers) <> 0
     /\ (forall info,
           @auth2_gen_skey sample_headers good_server proposal info
           = @netr_gen_skey128 sample_headers good_server info)
     /\ @netr_server_authenticate2 sample_headers good_server
          (sample_challenged_world false)
        = @netr_server_authenticate2_strong sample_headers good_server
            (sample_challenged_world false)
     /\ len (session_key
               (netr_global_info
                  (snd (@netr_server_authenticate2 sample_headers
                          good_server (sample_challenged_world false)))))
        = NETR_SESSKEY128_SZ.
Proof.
  split; [reflexivity|]. split; [reflexivity|]. cbv zeta.
  destruct (@auth2_always_strong_key sample_headers good_server
              eq_refl eq_refl NETR_CFG_DISABLE_SECURE_RPC (sample_world true))
    as [_ [Hbit [Hsel [_ [_ Hstep]]]]].
  split; [reflexivity|]. split; [exact Hbit|]. split; [exact Hsel|].
  split; [apply Hstep|].
  rewrite Hstep. vm_compute. reflexivity.
Defined.

(** The sample world with secure RPC off is what the configuration flag
    makes of the default one. *)
Example sample_world_secure_rpc_disabled :
  snd (netlogon_init_global NETR_CFG_DISABLE_SECURE_RPC (sample_world true))
  = sample_world false.
Proof. reflexivity. Qed.

(** With secure RPC disabled by configuration and a server that sets the
    secure-RPC bit in its answer all the same, the stored flags are not
    the intersection with the proposal. *)
Lemma negotiated_is_intersection_counterexample :
  ~ @negotiated_is_intersection sample_headers pushy_server
      (sample_challenged_world false).
Proof.
  intros Hc. unfold negotiated_is_intersection in Hc.
  edestruct Hc as [Hint _].
  { unfold auth2_answered.
    split; [lazy; reflexivity|].
    split; [lazy; reflexivity|].
    split; [lazy; reflexivity|].
    split; [lazy; reflexivity|].
    reflexivity. }
  lazy in Hint. discriminate Hint.
Qed.

(** C7: the code departs from the intersection its own comments promise
    (lines 274-279, 370-374, 417).  With secure RPC disabled by
    configuration the proposal sent lacks the secure-RPC flag; a server
    that answers with that flag set all the same has its word stored
    unmasked as the negotiated flags, which then carry the flag that
    neither the configuration allows nor the proposal held, and the next
    secure open binds with the security context instead of taking the
    unauthenticated bind. *)
Theorem pushy_server_gets_secure_bind :
  let w := sample_challenged_world false in
  let proposal :=
    @auth2_negotiate_flags sample_headers
      (use_secure_rpc (netr_global_info w)) in
  let r := @netr_server_authenticate2 sample_headers pushy_server w in
  let w' := snd r in
  use_secure_rpc (netr_global_info w) = false
  /\ proposal = 0x000041ff
  /\ Z.land proposal (@NETR_NEGO_SECURE_RPC_FLAG sample_headers) = 0
  /\ fst r = 0
  /\ use_secure_rpc (netr_global_info w') = false
  /\ nego_flags (netr_global_info w') = 0x400041ff
  /\ nego_flags (netr_global_info w') <> Z.land proposal 0x400041ff
  /\ Z.land (nego_flags (netr_global_info w'))
       (@NETR_NEGO_SECURE_RPC_FLAG sample_headers) <> 0
  /\ ext_log (snd (@netr_open_secure sample_headers pushy_server
                     "dc1" "DOM" w'))
     = Call_ndr_rpc_bind_secure "dc1" "DOM" "ipcuser" 1 :: ext_log w'.
Proof.
  cbv zeta.
  split; [vm_compute; reflexivity|].
  split; [vm_compute; reflexivity|].
  split; [vm_compute; reflexivity|].
  split; [vm_compute; reflexivity|].
  split; [vm_compute; reflexivity|].
  split; [vm_compute; reflexivity|].
  split; [vm_compute; discriminate|].
  split; [vm_compute; discriminate|].
  vm_compute; reflexivity.
Qed.

Lemma netr_server_authenticate2_stores_reply_flags_witness :
  exists i3 cc sc reply,
    @auth2_answered sample_headers good_server
      (sample_challenged_world false) i3 cc sc reply
    /\ let w' :=
         snd (@netr_server_authenticate2 sample_headers good_server
                (sample_challenged_world false)) in
       let stored := nego_flags (netr_global_info w') in
       stored = sa_negotiate_flags reply
       /\ stored = 0x000041ff
       /\ Z.land stored (@NETR_NEGO_SECURE_RPC_FLAG sample_headers) = 0
       /\ forall w'',
            nego_flags (netr_global_info w'') = stored ->
            @opens_unauthenticated sample_headers good_server w''.
Proof.
  assert (Hex : exists i3 cc sc reply,
            @auth2_answered sample_headers good_server
              (sample_challenged_world false) i3 cc sc reply).
  { do 4 eexists. unfold auth2_answered.
    split; [lazy; reflexivity|].
    split; [lazy; reflexivity|].
    split; [lazy; reflexivity|].
    split; [lazy; reflexivity|].
    reflexivity. }
  destruct Hex as (i3 & cc & sc & reply & Hans).
  exists i3, cc, sc, reply.
  split; [exact Hans|]. cbv zeta.
  destruct (@netr_server_authenticate2_stores_reply_flags sample_headers
              good_server _ _ _ _ _ Hans) as [Hst [_ [Hfb _]]].
  split; [exact Hst|]. split; [reflexivity|].
  apply Hfb. rewrite <- Hst. reflexivity.
Defined.






(** * Further properties *)

(** Case analysis on whatever the goal branches on next. *)
Ltac split_branch :=
  match goal with
  | |- context [match ?x with _ => _ end] => destruct x eqn:?
  end.

(** ** The mitigation check reads five bytes *)

Lemma nth_firstn_below (n i : nat) (l : list Z) :
  (i < n)%nat -> nth i (firstn n l) 0 = nth i l 0.
Proof.
  intros Hi. rewrite nth_firstn.
  apply Nat.ltb_lt in Hi. rewrite Hi. reflexivity.
Qed.

Lemma nth_of_equal_prefix (n i : nat) (a b : list Z) :
  firstn n a = firstn n b -> (i < n)%nat -> nth i a 0 = nth i b 0.
Proof.
  intros Heq Hi.
  rewrite <- (nth_firstn_below n i a Hi), <- (nth_firstn_below n i b Hi).
  rewrite Heq. reflexivity.
Qed.

(** X1: the mitigation check looks at the first five bytes only: two
    buffers that agree on them get the same answer, whatever follows. *)
Theorem passes_dc_mitigation_first5 :
  forall a b : list Z,
    firstn 5 a = firstn 5 b ->
    passes_dc_mitigation a = passes_dc_mitigation b.
Proof.
  assert (Hone : forall a b, firstn 5 a = firstn 5 b ->
            passes_dc_mitigation a = true -> passes_dc_mitigation b = true).
  { intros a b Heq Ha. apply passes_dc_mitigation_iff.
    apply passes_dc_mitigation_iff in Ha. destruct Ha as [i [Hi Huniq]].
    exists i. split; [exact Hi|]. intros j Hj Hne.
    rewrite <- (nth_of_equal_prefix 5 i a b Heq Hi).
    rewrite <- (nth_of_equal_prefix 5 j a b Heq Hj).
    apply Huniq; assumption. }
  intros a b Heq.
  destruct (passes_dc_mitigation a) eqn:Ha.
  - symmetry. exact (Hone a b Heq Ha).
  - destruct (passes_dc_mitigation b) eqn:Hb; [|reflexivity].
    rewrite (Hone b a (eq_sym Heq) Hb) in Ha. discriminate Ha.
Qed.

Lemma passes_dc_mitigation_first5_witness :
  firstn 5 [1; 2; 2; 1; 1; 0; 0; 0] = firstn 5 [1; 2; 2; 1; 1; 9; 8; 7]
  /\ passes_dc_mitigation [1; 2; 2; 1; 1; 0; 0; 0]
     = passes_dc_mitigation [1; 2; 2; 1; 1; 9; 8; 7].
Proof.
  split; [reflexivity|].
  apply (passes_dc_mitigation_first5 [1; 2; 2; 1; 1; 0; 0; 0]
           [1; 2; 2; 1; 1; 9; 8; 7]).
  reflexivity.
Defined.

(** ** Little-endian round trip *)

Lemma le32_bytes_of_word (p : list Z) (off : nat) :
  Forall is_byte p ->
  le32_bytes (le32_word p off)
  = [nth off p 0; nth (off + 1) p 0; nth (off + 2) p 0; nth (off + 3) p 0]
  /\ le32_word p off mod 2 ^ 32 = le32_word p off.
Proof.
  intros Hp. unfold le32_bytes, le32_word.
  pose proof (nth_is_byte p Hp off) as H0.
  pose proof (nth_is_byte p Hp (off + 1)) as H1.
  pose proof (nth_is_byte p Hp (off + 2)) as H2.
  pose proof (nth_is_byte p Hp (off + 3)) as H3.
  unfold is_byte in *.
  set (b0 := nth off p 0) in *. set (b1 := nth (off + 1) p 0) in *.
  set (b2 := nth (off + 2) p 0) in *. set (b3 := nth (off + 3) p 0) in *.
  change (2 ^ 32) with 4294967296.
  split.
  - repeat f_equal; Z.div_mod_to_equations; lia.
  - apply Z.mod_small. lia.
Qed.

Lemma eight_bytes_by_index (l : list Z) :
  length l = 8%nat ->
  l = [nth 0 l 0; nth 1 l 0; nth 2 l 0; nth 3 l 0;
       nth 4 l 0; nth 5 l 0; nth 6 l 0; nth 7 l 0].
Proof.
  intros Hl.
  do 8 (destruct l as [|? l]; [discriminate Hl|]).
  destruct l; [reflexivity | discriminate Hl].
Qed.

Lemma credential_le_data_zero (challenge : list Z) :
  length challenge = 8%nat -> Forall is_byte challenge ->
  credential_le_data challenge 0 = challenge.
Proof.
  intros Hl Hb. rewrite credential_le_data_spec by exact Hb.
  unfold spec_credential_input. rewrite Z.add_0_r.
  destruct (le32_bytes_of_word challenge 0 Hb) as [Hlo Hsmall].
  destruct (le32_bytes_of_word challenge 4 Hb) as [Hhi _].
  rewrite Hsmall, Hlo, Hhi. cbn [Nat.add app].
  symmetry. apply eight_bytes_by_index. exact Hl.
Qed.

Lemma firstn_app_exact (n : nat) (a b : list Z) :
  length a = n -> firstn n (a ++ b) = a.
Proof.
  intros <-. rewrite firstn_app, Nat.sub_diag, firstn_O, app_nil_r.
  apply firstn_all.
Qed.

Lemma skipn_app_exact (n : nat) (a b : list Z) :
  length a = n -> skipn n (a ++ b) = b.
Proof.
  intros <-. rewrite skipn_app, Nat.sub_diag, skipn_all. reflexivity.
Qed.

Section MoreDerivations.

Context {H : NetrHeaders} {E : NetrExtern}.

(** ** Credential generation, further *)

(** X2: with a zero timestamp, as in the authenticate step, the bytes
    handed to the cipher are the challenge itself: decoding the two
    little-endian words and encoding them again gives the same eight
    bytes, so the credential is the two-pass cipher of the challenge. *)
Theorem netr_gen_credentials_zero_timestamp :
  forall (sk challenge out_cred : list Z),
    length challenge = 8%nat ->
    Forall is_byte challenge ->
    let pass1 := smb_auth_DES (slice 0 NETR_DESKEY_LEN sk) challenge in
    let pass2 :=
      smb_auth_DES (slice NETR_DESKEY_LEN NETR_DESKEY_LEN sk)
        (firstn 8 (snd pass1)) in
    credential_le_data challenge 0 = challenge
    /\ (fst pass1 = SMBAUTH_SUCCESS ->
        netr_gen_credentials sk challenge 0 out_cred false = pass2).
Proof.
  intros sk challenge out_cred Hl Hb pass1 pass2.
  pose proof (credential_le_data_zero challenge Hl Hb) as Hz.
  split; [exact Hz|]. intros Hok.
  pose proof (netr_gen_credentials_unfold sk challenge 0 out_cred false)
    as Hu.
  cbv zeta in Hu. rewrite Hz in Hu.
  rewrite (firstn_exact 8 challenge Hl) in Hu.
  exact (Hu Hok).
Qed.

(** X3: when the first cipher pass fails the function returns
    [SMBAUTH_FAILURE] and leaves the caller's credential buffer as it
    was, whether or not retries are allowed; the second pass is not
    made. *)
Theorem netr_gen_credentials_first_pass_failure :
  forall (sk challenge : list Z) (timestamp : Z) (out_cred : list Z)
         (retry : bool),
    fst (smb_auth_DES (slice 0 NETR_DESKEY_LEN sk)
           (firstn 8 (credential_le_data challenge timestamp)))
      <> SMBAUTH_SUCCESS ->
    netr_gen_credentials sk challenge timestamp out_cred retry
    = (SMBAUTH_FAILURE, out_cred).
Proof.
  intros sk challenge timestamp out_cred retry Hfail.
  unfold netr_gen_credentials.
  destruct (smb_auth_DES (slice 0 NETR_DESKEY_LEN sk)
              (firstn 8 (credential_le_data challenge timestamp)))
    as [rc1 buffer].
  cbn [fst] in Hfail. destruct rc1; [contradiction | reflexivity..].
Qed.

Lemma credential_le_data_prefix (a b : list Z) (timestamp : Z) :
  firstn 8 a = firstn 8 b ->
  credential_le_data a timestamp = credential_le_data b timestamp.
Proof.
  intros Heq. unfold credential_le_data, LE_IN32, LE_IN16, LE_IN8.
  cbn [Nat.add].
  rewrite !(nth_of_equal_prefix 8 _ a b Heq) by lia. reflexivity.
Qed.

Lemma slice_of_prefix (off n m : nat) (a b : list Z) :
  firstn m a = firstn m b -> (off + n <= m)%nat ->
  slice off n a = slice off n b.
Proof.
  intros Heq Hle. unfold slice.
  assert (Hcut : forall l : list Z, firstn n (skipn off l)
                           = firstn n (skipn off (firstn m l))).
  { intros l. rewrite skipn_firstn_comm. rewrite firstn_firstn.
    f_equal. lia. }
  rewrite (Hcut a), (Hcut b), Heq. reflexivity.
Qed.

(** X4: credential generation reads bytes 0-13 of the session key and
    bytes 0-7 of the challenge and nothing beyond: session keys that
    agree on their first fourteen bytes (bytes 14 and 15 of a 128-bit key
    are never used) and challenges that agree on their first eight give
    the same result. *)
Theorem netr_gen_credentials_reads_prefixes :
  forall (sk sk' challenge challenge' : list Z) (timestamp : Z)
         (out_cred : list Z) (retry : bool),
    firstn 14 sk = firstn 14 sk' ->
    firstn 8 challenge = firstn 8 challenge' ->
    netr_gen_credentials sk challenge timestamp out_cred retry
    = netr_gen_credentials sk' challenge' timestamp out_cred retry.
Proof.
  intros sk sk' challenge challenge' timestamp out_cred retry Hk Hc.
  unfold netr_gen_credentials.
  rewrite (credential_le_data_prefix challenge challenge' timestamp Hc).
  rewrite (slice_of_prefix 0 NETR_DESKEY_LEN 14 sk sk' Hk)
    by (unfold NETR_DESKEY_LEN; lia).
  rewrite (slice_of_prefix NETR_DESKEY_LEN NETR_DESKEY_LEN 14 sk sk' Hk)
    by (unfold NETR_DESKEY_LEN; lia).
  reflexivity.
Qed.

(** ** Password derivation *)

(** X5: the new password is made of two independent halves: bytes 0-7
    are the cipher of bytes 0-7 of the old password under session key
    bytes 0-6, bytes 8-15 the cipher of bytes 8-15 under session key
    bytes 7-13, and the code returned is that of the second cipher call.
    When the first cipher call fails its code is returned, the second
    call is not made and bytes 8-15 of the caller's buffer stay as they
    were. *)
Theorem netr_gen_password_halves :
  forall (sk old_password new_password0 : list Z),
    length new_password0 = 16%nat ->
    des_blocks ->
    let half1 :=
      smb_auth_DES (key_bytes 0 sk) (firstn 8 old_password) in
    let half2 :=
      smb_auth_DES (key_bytes 7 sk) (firstn 8 (skipn 8 old_password)) in
    (fst half1 = SMBAUTH_SUCCESS ->
     netr_gen_password sk old_password new_password0
     = (fst half2, snd half1 ++ snd half2))
    /\ (fst half1 <> SMBAUTH_SUCCESS ->
        netr_gen_password sk old_password new_password0
        = (fst half1, snd half1 ++ skipn 8 new_password0)).
Proof.
  intros sk old new0 Hl Hdes half1 half2.
  unfold netr_gen_password.
  change (slice 0 NETR_DESKEY_LEN sk) with (key_bytes 0 sk).
  change (slice NETR_DESKEY_LEN NETR_DESKEY_LEN sk) with (key_bytes 7 sk).
  change (slice 0 8 old) with (firstn 8 old).
  change (slice 8 8 old) with (firstn 8 (skipn 8 old)).
  fold half1. fold half2.
  pose proof (Hdes (key_bytes 0 sk) (firstn 8 old)) as Hl1. fold half1 in Hl1.
  pose proof (Hdes (key_bytes 7 sk) (firstn 8 (skipn 8 old))) as Hl2.
  fold half2 in Hl2.
  destruct half1 as [rv1 out1]. destruct half2 as [rv2 out2].
  cbn [fst snd] in *.
  assert (Hw : buf_write new0 out1 = out1 ++ skipn 8 new0).
  { unfold buf_write. rewrite Hl1. reflexivity. }
  rewrite Hw. split.
  - intros ->. cbn [smbauth_eqb negb]. f_equal.
    rewrite (firstn_app_exact 8 out1 _ Hl1).
    rewrite (skipn_app_exact 8 out1 _ Hl1). f_equal.
    unfold buf_write. rewrite Hl2, skipn_skipn. cbn [Nat.add].
    rewrite skipn_all2 by lia. apply app_nil_r.
  - intros Hne. destruct rv1; [contradiction | reflexivity..].
Qed.

End MoreDerivations.

Section MoreSessionKeys.

Context {H : NetrHeaders} {E : NetrExtern}.

(** ** Session-key derivation, further *)

(** X6: once the configuration has given a non-empty trust password,
    both derivations leave the password buffer of the session state all
    zero, whatever the hash, digest and cipher calls do afterwards. *)
Theorem netr_gen_skey_wipes_password :
  forall (info : netr_info) (pw : list Z),
    trust_password_is info pw ->
    password (snd (netr_gen_skey128 info)) = bzero pw
    /\ password (snd (netr_gen_skey64 info)) = bzero pw.
Proof.
  intros info pw [Hcfg Hne]. split.
  - unfold netr_gen_skey128. cbn [password set_password].
    rewrite Hcfg, Z.eqb_refl. cbn [negb orb].
    destruct (Z.eqb_spec (nth 0 pw 0) 0) as [Hz|_]; [contradiction|].
    repeat split_branch; reflexivity.
  - unfold netr_gen_skey64. cbn [password set_password].
    rewrite Hcfg, Z.eqb_refl. cbn [negb orb].
    destruct (Z.eqb_spec (nth 0 pw 0) 0) as [Hz|_]; [contradiction|].
    repeat split_branch; reflexivity.
Qed.

(** X7: the two derivations write the password buffer and the session
    key and nothing else: flags, names, challenges, credentials,
    negotiated flags, timestamp and the configuration switches of the
    session state come out as they went in, on every path. *)
Theorem netr_gen_skey_keeps_rest :
  forall info : netr_info,
    same_but_secrets info (snd (netr_gen_skey128 info))
    /\ same_but_secrets info (snd (netr_gen_skey64 info)).
Proof.
  intros info. split.
  - unfold netr_gen_skey128.
    repeat split_branch; repeat split; reflexivity.
  - unfold netr_gen_skey64.
    repeat split_branch; repeat split; reflexivity.
Qed.

(** X8: the password held in the session state on entry plays no part:
    both derivations zero the buffer and read the password from the
    configuration, so two states that differ only in the contents of
    that buffer give the same result. *)
Theorem netr_gen_skey_ignores_stored_password :
  forall (info : netr_info) (p : list Z),
    length p = length (password info) ->
    netr_gen_skey128 (set_password info p) = netr_gen_skey128 info
    /\ netr_gen_skey64 (set_password info p) = netr_gen_skey64 info.
Proof.
  intros info p Hlen.
  assert (Hz : bzero p = bzero (password info)).
  { unfold bzero. rewrite Hlen. reflexivity. }
  split.
  - unfold netr_gen_skey128. cbn [password set_password]. rewrite Hz.
    reflexivity.
  - unfold netr_gen_skey64. cbn [password set_password]. rewrite Hz.
    reflexivity.
Qed.

(** X9: when the NTLM hash of the trust password cannot be computed,
    both derivations return [SMBAUTH_FAILURE] and leave the session key
    as it was. *)
Theorem netr_gen_skey_hash_failure :
  forall (info : netr_info) (pw : list Z),
    trust_password_is info pw ->
    fst (smb_auth_ntlm_hash pw) <> SMBAUTH_SUCCESS ->
    (fst (netr_gen_skey128 info) = SMBAUTH_FAILURE
     /\ session_key (snd (netr_gen_skey128 info)) = session_key info)
    /\ (fst (netr_gen_skey64 info) = SMBAUTH_FAILURE
        /\ session_key (snd (netr_gen_skey64 info)) = session_key info).
Proof.
  intros info pw [Hcfg Hne] Hfail.
  destruct (smb_auth_ntlm_hash pw) as [rc h] eqn:Hh. cbn [fst] in Hfail.
  assert (Hrc : negb (smbauth_eqb rc SMBAUTH_SUCCESS) = true).
  { destruct rc; [contradiction | reflexivity..]. }
  split.
  - unfold netr_gen_skey128. cbn [password set_password].
    rewrite Hcfg, Z.eqb_refl. cbn [negb orb].
    destruct (Z.eqb_spec (nth 0 pw 0) 0) as [Hz|_]; [contradiction|].
    rewrite Hh, Hrc. split; reflexivity.
  - unfold netr_gen_skey64. cbn [password set_password].
    rewrite Hcfg, Z.eqb_refl. cbn [negb orb].
    destruct (Z.eqb_spec (nth 0 pw 0) 0) as [Hz|_]; [contradiction|].
    rewrite Hh, Hrc. split; reflexivity.
Qed.

(** X10: in the strong derivation, a digest session that cannot be
    opened gives [SMBAUTH_FAILURE]; but when the session is open and one
    of the digest calls (init, an update, final) fails, the function
    returns [SMBAUTH_SUCCESS], the code left by the password hash, though
    no key was computed: the session key is as it was on entry. *)
Theorem netr_gen_skey128_digest_failure :
  forall (info : netr_info) (pw h : list Z),
    trust_password_is info pw ->
    smb_auth_ntlm_hash pw = (SMBAUTH_SUCCESS, h) ->
    (SUNW_C_GetMechSession <> CKR_OK ->
     fst (netr_gen_skey128 info) = SMBAUTH_FAILURE
     /\ session_key (snd (netr_gen_skey128 info)) = session_key info)
    /\ (SUNW_C_GetMechSession = CKR_OK ->
        digest_call_fails ->
        fst (netr_gen_skey128 info) = SMBAUTH_SUCCESS
        /\ session_key (snd (netr_gen_skey128 info)) = session_key info).
Proof.
  intros info pw h [Hcfg Hne] Hntlm.
  unfold netr_gen_skey128. cbn [password set_password].
  rewrite Hcfg, Z.eqb_refl. cbn [negb orb].
  destruct (Z.eqb_spec (nth 0 pw 0) 0) as [Hz|_]; [contradiction|].
  rewrite Hntlm. cbn [smbauth_eqb negb]. split.
  - intros Hmech. apply Z.eqb_neq in Hmech. rewrite Hmech.
    split; reflexivity.
  - intros Hmech Hfails. rewrite Hmech, Z.eqb_refl. cbn [negb].
    destruct (Z.eqb_spec C_DigestInit CKR_OK) as [Hi|_];
      [|split; reflexivity].
    destruct (Z.eqb_spec (C_DigestUpdate 0) CKR_OK) as [Hu0|_];
      [|split; reflexivity].
    destruct (Z.eqb_spec (C_DigestUpdate 1) CKR_OK) as [Hu1|_];
      [|split; reflexivity].
    destruct (Z.eqb_spec (C_DigestUpdate 2) CKR_OK) as [Hu2|_];
      [|split; reflexivity].
    destruct (Z.eqb_spec C_DigestFinal CKR_OK) as [Hf|_];
      [|split; reflexivity].
    exfalso.
    destruct Hfails as [Hd|[Hd|[Hd|[Hd|Hd]]]]; apply Hd; assumption.
Qed.

(** X11: in the legacy derivation, a missing or empty trust password
    gives [SMBAUTH_FAILURE] with the session key untouched, and the
    password buffer is then left as the configuration call filled it;
    a first cipher pass that fails makes the function return that call's
    code with the session key, its length included, untouched. *)
Theorem netr_gen_skey64_failures :
  forall info : netr_info,
    (trust_password_missing info ->
     fst (netr_gen_skey64 info) = SMBAUTH_FAILURE
     /\ session_key (snd (netr_gen_skey64 info)) = session_key info
     /\ password (snd (netr_gen_skey64 info))
        = snd (smb_config_getstr_MACHINE_PASSWD (bzero (password info))))
    /\ (forall pw h,
          trust_password_is info pw ->
          smb_auth_ntlm_hash pw = (SMBAUTH_SUCCESS, h) ->
          let pass1 :=
            smb_auth_DES
              (slice 0 NETR_DESKEY_LEN (buf_write (repeat 0 32) h))
              (firstn 8 (skey64_le_data (client_challenge info)
                           (server_challenge info))) in
          fst pass1 <> SMBAUTH_SUCCESS ->
          fst (netr_gen_skey64 info) = fst pass1
          /\ session_key (snd (netr_gen_skey64 info)) = session_key info).
Proof.
  intros info. split.
  - intros Hmiss. unfold trust_password_missing in Hmiss.
    unfold netr_gen_skey64. cbn [password set_password].
    destruct (smb_config_getstr_MACHINE_PASSWD (bzero (password info)))
      as [rc pw]. cbn [fst snd] in *.
    assert (Hcond : negb (rc =? SMBD_SMF_OK) || (nth 0 pw 0 =? 0) = true).
    { destruct Hmiss as [Hrc|Hz].
      - apply Z.eqb_neq in Hrc. rewrite Hrc. reflexivity.
      - rewrite Hz, Z.eqb_refl. apply orb_true_r. }
    rewrite Hcond. repeat split.
  - intros pw h [Hcfg Hne] Hntlm pass1 Hfail.
    unfold netr_gen_skey64. cbn [password set_password].
    rewrite Hcfg, Z.eqb_refl. cbn [negb orb].
    destruct (Z.eqb_spec (nth 0 pw 0) 0) as [Hz|_]; [contradiction|].
    rewrite Hntlm. cbn [smbauth_eqb negb].
    cbn [client_challenge server_challenge set_password].
    fold pass1. destruct pass1 as [rc1 buffer]. cbn [fst] in *.
    destruct rc1; [contradiction | split; reflexivity..].
Qed.

End MoreSessionKeys.

Section MoreProtocol.

Context {H : NetrHeaders} {E : NetrExtern}.

(** ** The challenge request *)

(** X12: the challenge request returns 0 or -1, and 0 exactly when the
    call went through with status zero.  On -1 the session state is
    untouched; on 0 the only change is the server challenge, set to the
    first eight bytes the server returned.  The call is released if and
    only if it went through: a call that fails is not released, a status
    other than zero is reported and then released. *)
Theorem netr_server_req_challenge_outcomes :
  forall w : world,
    let r := netr_server_req_challenge w in
    let info := netr_global_info w in
    let reply := ndr_rpc_call_ServerReqChallenge (req_challenge_arg info) in
    (fst r = 0 \/ fst r = -1)
    /\ (fst r = 0 <-> fst reply = 0 /\ rc_status (snd reply) = 0)
    /\ (fst r = -1 -> netr_global_info (snd r) = info)
    /\ (fst r = 0 ->
        netr_global_info (snd r)
        = set_server_challenge info
            (firstn NETR_CRED_DATA_SZ (rc_server_challenge (snd reply))))
    /\ ext_log (snd r)
       = (if fst reply =? 0
          then if rc_status (snd reply) =? 0
               then [Call_ndr_rpc_release]
               else [Call_ndr_rpc_release;
                     Call_ndr_rpc_status (rc_status (snd reply))]
          else [])
         ++ Call_ndr_rpc_call_ServerReqChallenge :: ext_log w.
Proof.
  intros w r info reply. subst r.
  unfold netr_server_req_challenge, bind, get_info, set_info, emit, ret.
  change {| rc_servername := server (netr_global_info w);
            rc_hostname := hostname (netr_global_info w);
            rc_client_challenge :=
              firstn NETR_CRED_DATA_SZ
                (client_challenge (netr_global_info w));
            rc_server_challenge := repeat 0 NETR_CRED_DATA_SZ;
            rc_status := 0 |}
    with (req_challenge_arg info).
  fold reply. destruct reply as [rc arg]. cbn [fst snd].
  destruct (Z.eqb_spec rc 0) as [Hrc|Hrc]; cbn [negb fst snd].
  - destruct (Z.eqb_spec (rc_status arg) 0) as [Hst|Hst]; cbn [negb fst snd].
    + split; [left; reflexivity|].
      split; [split; [intros _; split; assumption | reflexivity]|].
      split; [intros Hneg; discriminate Hneg|].
      split; [intros _; reflexivity | reflexivity].
    + split; [right; reflexivity|].
      split; [split; [intros Hz; discriminate Hz
                     | intros [_ Hz]; contradiction]|].
      split; [intros _; reflexivity|].
      split; [intros Hz; discriminate Hz | reflexivity].
  - split; [right; reflexivity|].
    split; [split; [intros Hz; discriminate Hz
                   | intros [Hz _]; contradiction]|].
    split; [intros _; reflexivity|].
    split; [intros Hz; discriminate Hz | reflexivity].
Qed.

(** ** The authenticate step, every path *)

Lemma auth2_gen_skey_same (f : Z) (info : netr_info) :
  same_but_secrets info (snd (auth2_gen_skey f info)).
Proof.
  unfold auth2_gen_skey, netr_gen_skey128, netr_gen_skey64.
  repeat split_branch; repeat split; reflexivity.
Qed.

Lemma netr_server_authenticate2_paths (w : world) :
  let r := netr_server_authenticate2 w in
  (exists i3 cc sc reply,
      auth2_answered w i3 cc sc reply
      /\ r = (memcmp sc (sa_server_credential reply) NETR_CRED_DATA_SZ,
              auth2_answered_world w i3 cc sc reply))
  \/ (auth2_unanswered w
      /\ fst r = -1
      /\ auth2_untouched (netr_global_info w) (netr_global_info (snd r))).
Proof.
  cbv zeta.
  pose proof (auth2_gen_skey_same
                (auth2_negotiate_flags (use_secure_rpc (netr_global_info w)))
                (netr_global_info w)) as Hsame.
  destruct (auth2_gen_skey
              (auth2_negotiate_flags (use_secure_rpc (netr_global_info w)))
              (netr_global_info w)) as [rc1 i3] eqn:Hk.
  cbn [snd] in Hsame.
  destruct Hsame as (Hfl & _ & _ & _ & _ & Hcch & Hsch & _ & _ & Hnf & _).
  destruct (netr_gen_credentials (key (session_key i3))
              (client_challenge i3) 0 (client_credential i3) false)
    as [rc2 cc] eqn:Hcc.
  destruct (netr_gen_credentials (key (session_key i3))
              (server_challenge i3) 0 (server_credential i3) false)
    as [rc3 sc] eqn:Hsc.
  destruct (ndr_rpc_call_ServerAuthenticate2
              (auth2_arg (netr_global_info w)
                 (set_server_credential (set_client_credential i3 cc) sc)))
    as [rc4 reply] eqn:Hcall.
  assert (Hdet : forall i3' cc' sc' reply',
            auth2_answered w i3' cc' sc' reply' ->
            rc1 = SMBAUTH_SUCCESS /\ rc2 = SMBAUTH_SUCCESS
            /\ rc3 = SMBAUTH_SUCCESS /\ rc4 = 0 /\ sa_status reply = 0).
  { intros i3' cc' sc' reply' (Hk' & Hcc' & Hsc' & Hcall' & Hst').
    rewrite Hk in Hk'. inversion Hk'. subst rc1 i3'.
    rewrite Hcc in Hcc'. inversion Hcc'. subst rc2 cc'.
    rewrite Hsc in Hsc'. inversion Hsc'. subst rc3 sc'.
    rewrite Hcall in Hcall'. inversion Hcall'. subst rc4 reply'.
    repeat split; try reflexivity. exact Hst'. }
  destruct (smbauth_eqb rc1 SMBAUTH_SUCCESS) eqn:H1.
  2: { right. split.
       - intros i3' cc' sc' reply' Hans.
         destruct (Hdet _ _ _ _ Hans) as [-> _]. discriminate H1.
       - unfold netr_server_authenticate2, bind, get_info, set_info, emit,
           ret. rewrite Hk, H1. cbn. repeat split; assumption. }
  destruct (smbauth_eqb rc2 SMBAUTH_SUCCESS) eqn:H2.
  2: { right. split.
       - intros i3' cc' sc' reply' Hans.
         destruct (Hdet _ _ _ _ Hans) as [_ [-> _]]. discriminate H2.
       - unfold netr_server_authenticate2, bind, get_info, set_info, emit,
           ret. rewrite Hk, H1. cbn [negb]. rewrite Hcc, H2. cbn.
         repeat split; assumption. }
  destruct (smbauth_eqb rc3 SMBAUTH_SUCCESS) eqn:H3.
  2: { right. split.
       - intros i3' cc' sc' reply' Hans.
         destruct (Hdet _ _ _ _ Hans) as [_ [_ [-> _]]]. discriminate H3.
       - unfold netr_server_authenticate2, bind, get_info, set_info, emit,
           ret. rewrite Hk, H1. cbn [negb]. rewrite Hcc, H2. cbn [negb].
         cbn [session_key server_challenge server_credential
              set_client_credential].
         rewrite Hsc, H3. cbn. repeat split; assumption. }
  destruct (Z.eqb_spec rc4 0) as [H4|H4].
  2: { right. split.
       - intros i3' cc' sc' reply' Hans.
         destruct (Hdet _ _ _ _ Hans) as [_ [_ [_ [Hz _]]]]. contradiction.
       - unfold netr_server_authenticate2, bind, get_info, set_info, emit,
           ret. rewrite Hk, H1. cbn [negb]. rewrite Hcc, H2. cbn [negb].
         cbn [session_key server_challenge server_credential
              set_client_credential].
         rewrite Hsc, H3. cbn [negb netr_global_info put_info log_call].
         rewrite Hcall. apply Z.eqb_neq in H4. rewrite H4.
         cbn. repeat split; assumption. }
  destruct (Z.eqb_spec (sa_status reply) 0) as [H5|H5].
  2: { right. split.
       - intros i3' cc' sc' reply' Hans.
         destruct (Hdet _ _ _ _ Hans) as [_ [_ [_ [_ Hz]]]]. contradiction.
       - unfold netr_server_authenticate2, bind, get_info, set_info, emit,
           ret. rewrite Hk, H1. cbn [negb]. rewrite Hcc, H2. cbn [negb].
         cbn [session_key server_challenge server_credential
              set_client_credential].
         rewrite Hsc, H3. cbn [negb netr_global_info put_info log_call].
         rewrite Hcall. subst rc4. cbn [Z.eqb negb].
         apply Z.eqb_neq in H5. rewrite H5.
         cbn. repeat split; assumption. }
  left. exists i3, cc, sc, reply.
  assert (Hans : auth2_answered w i3 cc sc reply).
  { destruct rc1; try discriminate H1. destruct rc2; try discriminate H2.
    destruct rc3; try discriminate H3. subst rc4.
    repeat split; assumption. }
  split; [exact Hans|].
  apply netr_server_authenticate2_answered. exact Hans.
Qed.

(** X13: when the authenticate step does not get the server's answer
    (key derivation or a credential fails, the call fails, or the server
    returns a status other than zero) it returns -1 and the negotiated
    flags keep the value they had, as do the flags and both
    challenges. *)
Theorem netr_server_authenticate2_unanswered :
  forall w : world,
    auth2_unanswered w ->
    fst (netr_server_authenticate2 w) = -1
    /\ auth2_untouched (netr_global_info w)
         (netr_global_info (snd (netr_server_authenticate2 w))).
Proof.
  intros w Hun.
  destruct (netr_server_authenticate2_paths w)
    as [(i3 & cc & sc & reply & Hans & _) | (_ & Hrc & Hkeep)].
  - exfalso. exact (Hun _ _ _ _ Hans).
  - split; assumption.
Qed.

(** X14: the authenticate step returns 0 only if the server answered
    with status zero and the credential it returned compares equal to the
    one computed locally. *)
Theorem netr_server_authenticate2_zero_means_match :
  forall w : world,
    fst (netr_server_authenticate2 w) = 0 ->
    exists i3 cc sc reply,
      auth2_answered w i3 cc sc reply
      /\ memcmp sc (sa_server_credential reply) NETR_CRED_DATA_SZ = 0
      /\ (length sc = 8%nat -> length (sa_server_credential reply) = 8%nat ->
          sc = sa_server_credential reply).
Proof.
  intros w Hz.
  destruct (netr_server_authenticate2_paths w)
    as [(i3 & cc & sc & reply & Hans & Hr) | (_ & Hrc & _)].
  - exists i3, cc, sc, reply. rewrite Hr in Hz. cbn [fst] in Hz.
    split; [exact Hans|]. split; [exact Hz|].
    intros Hl1 Hl2. apply (memcmp_zero_iff 8 _ _ Hl1 Hl2). exact Hz.
  - rewrite Hrc in Hz. discriminate Hz.
Qed.

(** ** netlogon_auth, the paths that end early *)

(** X15: when the pipe cannot be opened, [netlogon_auth] returns the bind
    status itself, whatever the fuel: the session state is not touched
    (the session key is not zeroed, the flags are not stored), nothing is
    drawn from the random source and no unbind is made. *)
Theorem netlogon_auth_open_failure :
  forall (fuel : nat) (s d : string) (f : Z) (w : world),
    let user := smb_ipc_get_user SMB_USERNAME_MAXLEN in
    ndr_rpc_bind s d user <> 0 ->
    netlogon_auth fuel s d f w
    = Some (ndr_rpc_bind s d user,
            log_call Call_syslog (log_call (Call_ndr_rpc_bind s d user) w)).
Proof.
  intros fuel s d f w user Hbind.
  unfold netlogon_auth, netlogon_auth_prepare, netr_open, bind, emit, ret.
  fold user. apply Z.eqb_neq in Hbind. rewrite Hbind. reflexivity.
Qed.

(** X16: when the pipe is open but one of the three name look-ups fails,
    [netlogon_auth] returns the unsuccessful status, whatever the fuel,
    after one unbind and without any call to the server or draw from the
    random source; the session key has been zeroed, the caller's flags
    stored, and the challenges are as they were. *)
Theorem netlogon_auth_name_failure :
  forall (fuel : nat) (s d : string) (f : Z) (w : world),
    let user := smb_ipc_get_user SMB_USERNAME_MAXLEN in
    ndr_rpc_bind s d user = 0 ->
    name_lookup_fails ->
    exists w',
      netlogon_auth fuel s d f w = Some (NT_STATUS_UNSUCCESSFUL, w')
      /\ ext_log w'
         = Call_ndr_rpc_unbind :: Call_ndr_rpc_bind s d user :: ext_log w
      /\ arc4_draws w' = arc4_draws w
      /\ session_key (netr_global_info w')
         = {| key := bzero (key (session_key (netr_global_info w)));
              len := 0 |}
      /\ flags (netr_global_info w') = f
      /\ client_challenge (netr_global_info w')
         = client_challenge (netr_global_info w)
      /\ server_challenge (netr_global_info w')
         = server_challenge (netr_global_info w).
Proof.
  intros fuel s d f w user Hbind Hfail.
  unfold netlogon_auth, netlogon_auth_prepare, netr_open, bind, emit, ret.
  fold user. rewrite Hbind. cbn [Z.eqb negb].
  unfold name_lookup_fails in Hfail.
  destruct (smb_getnetbiosname NETBIOS_NAME_SZ) as [rc1 n1].
  destruct (smb_getdomainname sizeof_nb_domain) as [rc2 n2].
  destruct (smb_getfqdomainname sizeof_fqdn_domain) as [rc3 n3].
  cbn [fst] in Hfail.
  unfold netlogon_auth_errout, netr_close, bind, emit, ret.
  destruct (Z.eqb_spec rc1 0) as [H1|H1]; cbn [negb].
  2: { eexists. split; [reflexivity|]. repeat split. }
  destruct (Z.eqb_spec rc2 0) as [H2|H2]; cbn [negb].
  2: { eexists. split; [reflexivity|]. repeat split. }
  destruct (Z.eqb_spec rc3 0) as [H3|H3]; cbn [negb].
  2: { eexists. split; [reflexivity|]. repeat split. }
  exfalso. destruct Hfail as [Hf|[Hf|Hf]]; contradiction.
Qed.

End MoreProtocol.

Section MoreChallenge.

Context {H : NetrHeaders} {E : NetrExtern}.

(** ** The challenge loop *)

Lemma client_challenge_loop_step (fuel : nat) (w : world) :
  client_challenge_loop (S fuel) w
  = let c := challenge_of_draws (arc4_draws w) in
    let w1 := with_client_challenge w c (S (S (arc4_draws w))) in
    if negb (passes_dc_mitigation c) then client_challenge_loop fuel w1
    else Some w1.
Proof. reflexivity. Qed.

Lemma client_challenge_loop_found (fuel : nat) :
  forall (w w' : world),
    client_challenge_loop fuel w = Some w' ->
    exists k,
      (k < fuel)%nat
      /\ (forall j, (j < k)%nat ->
            passes_dc_mitigation (challenge_of_draws (arc4_draws w + 2 * j))
            = false)
      /\ passes_dc_mitigation (challenge_of_draws (arc4_draws w + 2 * k))
         = true
      /\ w' = with_client_challenge w
                (challenge_of_draws (arc4_draws w + 2 * k))
                (arc4_draws w + 2 * k + 2).
Proof.
  induction fuel as [|fuel IH]; intros w w' Hrun.
  - discriminate Hrun.
  - rewrite client_challenge_loop_step in Hrun. cbv zeta in Hrun.
    destruct (passes_dc_mitigation (challenge_of_draws (arc4_draws w)))
      eqn:Hp; cbn [negb] in Hrun.
    + exists 0%nat.
      replace (arc4_draws w + 2 * 0)%nat with (arc4_draws w) by lia.
      split; [lia|]. split; [intros j Hj; lia|]. split; [exact Hp|].
      inversion Hrun.
      replace (arc4_draws w + 2)%nat with (S (S (arc4_draws w))) by lia.
      reflexivity.
    + destruct (IH _ _ Hrun) as (k & Hk & Hfail & Hpass & Hw').
      cbn [arc4_draws with_client_challenge] in Hfail, Hpass, Hw'.
      exists (S k). split; [lia|]. split; [|split].
      * intros j Hj. destruct j as [|j].
        -- replace (arc4_draws w + 2 * 0)%nat with (arc4_draws w) by lia.
           exact Hp.
        -- replace (arc4_draws w + 2 * S j)%nat
             with (S (S (arc4_draws w)) + 2 * j)%nat by lia.
           apply Hfail. lia.
      * replace (arc4_draws w + 2 * S k)%nat
          with (S (S (arc4_draws w)) + 2 * k)%nat by lia.
        exact Hpass.
      * rewrite Hw'.
        replace (arc4_draws w + 2 * S k)%nat
          with (S (S (arc4_draws w)) + 2 * k)%nat by lia.
        reflexivity.
Qed.


End MoreChallenge.

Section MoreAttempt.

Context {H : NetrHeaders} {E : NetrExtern}.

(** ** netlogon_auth, every path *)

Lemma netlogon_auth_errout_shape (rc : Z) (w : world) :
  netlogon_auth_errout rc w
  = (if rc =? 0 then NT_STATUS_SUCCESS else NT_STATUS_UNSUCCESSFUL,
     log_call Call_ndr_rpc_unbind w).
Proof. reflexivity. Qed.

(** The exchange always leaves through [errout], with the code of the
    last step made. *)
Lemma netlogon_auth_exchange_cases (w : world) :
  netlogon_auth_exchange w
  = let r1 := netr_server_req_challenge w in
    if fst r1 =? 0 then
      let r2 := netr_server_authenticate2 (snd r1) in
      if fst r2 =? 0 then
        netlogon_auth_errout 0
          (put_info (log_call Call_smb_update_netlogon_seqnum (snd r2))
             (set_flags (netr_global_info (snd r2))
                (Z.lor (flags (netr_global_info (snd r2))) NETR_FLG_VALID)))
      else netlogon_auth_errout (fst r2) (snd r2)
    else netlogon_auth_errout (fst r1) (snd r1).
Proof.
  unfold netlogon_auth_exchange, bind. cbv zeta.
  destruct (netr_server_req_challenge w) as [rc1 w3]. cbn [fst snd].
  destruct (Z.eqb_spec rc1 0) as [H1|H1]; [|reflexivity].
  destruct (netr_server_authenticate2 w3) as [rc2 w4]. cbn [fst snd].
  destruct (Z.eqb_spec rc2 0) as [H2|H2]; [|reflexivity].
  subst rc2. reflexivity.
Qed.

Lemma netlogon_auth_prepare_inl
    (s d : string) (f : Z) (w : world) (st : Z) (w' : world) :
  netlogon_auth_prepare s d f w = inl (st, w') ->
  (ndr_rpc_bind s d (smb_ipc_get_user SMB_USERNAME_MAXLEN) <> 0
   /\ st = ndr_rpc_bind s d (smb_ipc_get_user SMB_USERNAME_MAXLEN))
  \/ (ndr_rpc_bind s d (smb_ipc_get_user SMB_USERNAME_MAXLEN) = 0
      /\ st = NT_STATUS_UNSUCCESSFUL
      /\ exists rest, ext_log w' = Call_ndr_rpc_unbind :: rest).
Proof.
  unfold netlogon_auth_prepare, netr_open, bind, emit, ret.
  destruct (Z.eqb_spec
              (ndr_rpc_bind s d (smb_ipc_get_user SMB_USERNAME_MAXLEN)) 0)
    as [Hb|Hb]; cbn [negb].
  - destruct (smb_getnetbiosname NETBIOS_NAME_SZ) as [rc1 n1].
    destruct (smb_getdomainname sizeof_nb_domain) as [rc2 n2].
    destruct (smb_getfqdomainname sizeof_fqdn_domain) as [rc3 n3].
    rewrite !netlogon_auth_errout_shape.
    destruct (Z.eqb_spec rc1 0) as [H1|H1]; cbn [negb].
    2: { intros Heq. inversion Heq. right.
         split; [exact Hb|]. split; [reflexivity|]. eexists. reflexivity. }
    destruct (Z.eqb_spec rc2 0) as [H2|H2]; cbn [negb].
    2: { intros Heq. inversion Heq. right.
         split; [exact Hb|]. split; [reflexivity|]. eexists. reflexivity. }
    destruct (Z.eqb_spec rc3 0) as [H3|H3]; cbn [negb].
    2: { intros Heq. inversion Heq. right.
         split; [exact Hb|]. split; [reflexivity|]. eexists. reflexivity. }
    intros Heq. discriminate Heq.
  - intros Heq. inversion Heq. left. split; [exact Hb | reflexivity].
Qed.

(** X20: once the pipe is open, every return of [netlogon_auth] is
    preceded by an unbind, and the status returned is one of the two
    coarse codes, success or unsuccessful. *)
Theorem netlogon_auth_closes :
  forall (fuel : nat) (s d : string) (f : Z) (w : world) (st : Z)
         (w' : world),
    ndr_rpc_bind s d (smb_ipc_get_user SMB_USERNAME_MAXLEN) = 0 ->
    netlogon_auth fuel s d f w = Some (st, w') ->
    (st = NT_STATUS_SUCCESS \/ st = NT_STATUS_UNSUCCESSFUL)
    /\ exists rest, ext_log w' = Call_ndr_rpc_unbind :: rest.
Proof.
  intros fuel s d f w st w' Hbind Hrun. unfold netlogon_auth in Hrun.
  destruct (netlogon_auth_prepare s d f w) as [[st0 w0]|w1] eqn:Hprep.
  - inversion Hrun. subst st0 w0.
    destruct (netlogon_auth_prepare_inl _ _ _ _ _ _ Hprep)
      as [[Hb _] | (_ & Hst & Hlog)]; [contradiction|].
    split; [right; exact Hst | exact Hlog].
  - destruct (client_challenge_loop fuel w1) as [w2|]; [|discriminate Hrun].
    inversion Hrun as [Hex].
    rewrite netlogon_auth_exchange_cases in Hex. cbv zeta in Hex.
    rewrite !netlogon_auth_errout_shape in Hex.
    repeat match type of Hex with
           | context [if ?c then _ else _] => destruct c
           end;
      inversion Hex;
      (split; [first [left; reflexivity | right; reflexivity]
              | eexists; reflexivity]).
Qed.

(** X21: [netlogon_auth] returns the success status only when the whole
    exchange went through and the credential returned by the server
    compared equal to the one computed locally: the pipe was opened, the
    names were found, a challenge passing the check was sent and
    answered, the authenticate call was answered with status zero, and
    the comparison of the eight credential bytes gave zero. *)
Theorem netlogon_auth_success_only_on_match :
  NT_STATUS_SUCCESS = 0 ->
  NT_STATUS_UNSUCCESSFUL <> 0 ->
  forall (fuel : nat) (s d : string) (f : Z) (w w' : world),
    netlogon_auth fuel s d f w = Some (NT_STATUS_SUCCESS, w') ->
    exists w1 w2 w3 i3 cc sc reply,
      netlogon_auth_prepare s d f w = inr w1
      /\ client_challenge_loop fuel w1 = Some w2
      /\ netr_server_req_challenge w2 = (0, w3)
      /\ auth2_answered w3 i3 cc sc reply
      /\ memcmp sc (sa_server_credential reply) NETR_CRED_DATA_SZ = 0
      /\ (length sc = 8%nat ->
          length (sa_server_credential reply) = 8%nat ->
          sc = sa_server_credential reply).
Proof.
  intros Hs0 Hu0 fuel s d f w w' Hrun. unfold netlogon_auth in Hrun.
  destruct (netlogon_auth_prepare s d f w) as [[st0 w0]|w1] eqn:Hprep.
  - exfalso. inversion Hrun. subst st0 w0.
    destruct (netlogon_auth_prepare_inl _ _ _ _ _ _ Hprep)
      as [[Hb Hst] | (_ & Hst & _)].
    + rewrite <- Hst, Hs0 in Hb. contradiction.
    + rewrite Hs0 in Hst. symmetry in Hst. contradiction.
  - destruct (client_challenge_loop fuel w1) as [w2|] eqn:Hloop;
      [|discriminate Hrun].
    inversion Hrun as [Hex].
    rewrite netlogon_auth_exchange_cases in Hex. cbv zeta in Hex.
    rewrite !netlogon_auth_errout_shape in Hex.
    destruct (netr_server_req_challenge w2) as [rc1 w3] eqn:Hreq.
    cbn [fst snd] in Hex.
    destruct (Z.eqb_spec rc1 0) as [H1|H1].
    2: { exfalso. inversion Hex as [[Hst Hw]].
         rewrite Hs0 in Hst. contradiction. }
    subst rc1.
    destruct (netr_server_authenticate2_paths w3)
      as [(i3 & cc & sc & reply & Hans & Hr) | (_ & Hrc & _)].
    + cbv zeta in Hr. rewrite Hr in Hex. cbn [fst snd] in Hex.
      destruct (Z.eqb_spec
                  (memcmp sc (sa_server_credential reply) NETR_CRED_DATA_SZ)
                  0) as [Hz|Hz].
      * exists w1, w2, w3, i3, cc, sc, reply.
        repeat (split; [first [reflexivity | assumption]|]).
        intros Hl1 Hl2. apply (memcmp_zero_iff 8 _ _ Hl1 Hl2). exact Hz.
      * exfalso. inversion Hex as [[Hst Hw]].
        rewrite Hs0 in Hst. contradiction.
    + exfalso. cbv zeta in Hrc. rewrite Hrc in Hex. cbn [Z.eqb] in Hex.
      inversion Hex as [[Hst Hw]]. rewrite Hs0 in Hst. contradiction.
Qed.

End MoreAttempt.

Section MoreSession.

Context {H : NetrHeaders} {E : NetrExtern}.

(** ** The client challenge of an attempt *)

Lemma netr_server_req_challenge_client_challenge (w : world) :
  client_challenge (netr_global_info (snd (netr_server_req_challenge w)))
  = client_challenge (netr_global_info w).
Proof.
  unfold netr_server_req_challenge, bind, get_info, set_info, emit, ret.
  repeat split_branch; reflexivity.
Qed.

Lemma netr_server_authenticate2_client_challenge (w : world) :
  client_challenge (netr_global_info (snd (netr_server_authenticate2 w)))
  = client_challenge (netr_global_info w).
Proof.
  destruct (netr_server_authenticate2_paths w)
    as [(i3 & cc & sc & reply & Hans & Hr) | (_ & _ & Hkeep)].
  - cbv zeta in Hr. rewrite Hr. cbn.
    destruct Hans as [Hk _].
    pose proof (auth2_gen_skey_same
                  (auth2_negotiate_flags
                     (use_secure_rpc (netr_global_info w)))
                  (netr_global_info w)) as Hsame.
    rewrite Hk in Hsame. cbn [snd] in Hsame.
    destruct Hsame as (_ & _ & _ & _ & _ & Hcch & _). exact Hcch.
  - destruct Hkeep as (_ & _ & Hcch & _). exact Hcch.
Qed.

Lemma netlogon_auth_exchange_client_challenge (w : world) :
  client_challenge (netr_global_info (snd (netlogon_auth_exchange w)))
  = client_challenge (netr_global_info w).
Proof.
  rewrite netlogon_auth_exchange_cases. cbv zeta.
  pose proof (netr_server_req_challenge_client_challenge w) as H1.
  pose proof (netr_server_authenticate2_client_challenge
                (snd (netr_server_req_challenge w))) as H2.
  rewrite !netlogon_auth_errout_shape.
  destruct (fst (netr_server_req_challenge w) =? 0).
  - destruct (fst (netr_server_authenticate2
                     (snd (netr_server_req_challenge w))) =? 0);
      cbn [snd netr_global_info log_call put_info client_challenge
           set_flags];
      congruence.
  - cbn [snd netr_global_info log_call]. exact H1.
Qed.

(** X22: in every attempt that got as far as the challenge exchange,
    the client challenge left in the session state, which is the one
    that was sent, passes the mitigation check; it is the coding of a
    pair of consecutive draws, and neither the challenge request nor the
    authenticate step changes it. *)
Theorem netlogon_auth_challenge_passes :
  forall (fuel : nat) (s d : string) (f : Z) (w w1 : world) (st : Z)
         (w' : world),
    netlogon_auth_prepare s d f w = inr w1 ->
    netlogon_auth fuel s d f w = Some (st, w') ->
    passes_dc_mitigation (client_challenge (netr_global_info w')) = true
    /\ exists k,
         client_challenge (netr_global_info w')
         = challenge_of_draws (arc4_draws w1 + 2 * k).
Proof.
  intros fuel s d f w w1 st w' Hprep Hrun.
  unfold netlogon_auth in Hrun. rewrite Hprep in Hrun.
  destruct (client_challenge_loop fuel w1) as [w2|] eqn:Hloop;
    [|discriminate Hrun].
  inversion Hrun as [Hex].
  pose proof (netlogon_auth_exchange_client_challenge w2) as Hkeep.
  rewrite Hex in Hkeep. cbn [snd] in Hkeep. rewrite Hkeep.
  destruct (client_challenge_loop_found fuel w1 w2 Hloop)
    as (k & _ & _ & Hpass & Hw2).
  subst w2. cbn [netr_global_info with_client_challenge client_challenge
                 set_client_challenge].
  split; [exact Hpass|]. exists k. reflexivity.
Qed.

(** ** The password change, answered *)

(** X23: once the server has answered the password change with status
    zero, the function returns 0 whether or not the returned
    authenticator passes chain validation: a failed validation is not
    reported to the caller, the state is then the one the validation
    left, without the new password, and the call is released. *)
Theorem netr_server_password_set_answered :
  forall (new_password0 : list Z) (w : world) (i1 : netr_info)
         (auth : netr_authenticator) (rc : smbauth) (np : list Z)
         (reply : netr_PasswordSet),
    netr_setup_authenticator (netr_global_info w)
      = (SMBAUTH_SUCCESS, i1, auth) ->
    netr_gen_password (key (session_key i1)) (password i1) new_password0
      = (rc, np) ->
    rc <> SMBAUTH_FAILURE ->
    ndr_rpc_call_PasswordSet
      (password_set_arg (netr_global_info w) i1 auth np) = (0, reply) ->
    ps_status reply = 0 ->
    let v := netr_validate_chain i1 (ps_auth reply) in
    let r := netr_server_password_set new_password0 w in
    fst r = 0
    /\ (fst v <> 0 -> netr_global_info (snd r) = snd v)
    /\ (fst v = 0 ->
        netr_global_info (snd r)
        = set_password (snd v)
            (buf_write (password (snd v))
               (firstn NETR_OWF_PASSWORD_SZ np)))
    /\ ext_log (snd r)
       = Call_ndr_rpc_release :: Call_ndr_rpc_call_PasswordSet :: ext_log w.
Proof.
  intros new0 w i1 auth rc np reply Hs Hg Hne Hc Hst v r. subst r.
  unfold netr_server_password_set, bind, get_info, set_info, emit, ret.
  rewrite Hs. cbn [smbauth_eqb negb]. rewrite Hg.
  assert (Hrc : smbauth_eqb rc SMBAUTH_FAILURE = false).
  { destruct rc; try reflexivity. contradiction. }
  rewrite Hrc. cbn [netr_global_info put_info log_call].
  rewrite Hc. cbn [Z.eqb negb]. rewrite Hst. cbn [Z.eqb negb].
  fold v. destruct v as [status i2]. cbn [fst snd].
  destruct (Z.eqb_spec status 0) as [Hz|Hz].
  - split; [reflexivity|]. split; [intros Hn; contradiction|].
    split; [intros _; reflexivity | reflexivity].
  - split; [reflexivity|]. split; [intros _; reflexivity|].
    split; [intros Hn; contradiction | reflexivity].
Qed.

(** ** Secure opens *)

(** X24: while the negotiated flags carry secure RPC, each secure open
    hands the security context the current value of the counter and
    advances it, so two opens in a row bind with consecutive context
    ids; the session state is not touched. *)
Theorem netr_open_secure_context_ids :
  forall (s d s' d' : string) (w : world),
    Z.land (nego_flags (netr_global_info w)) NETR_NEGO_SECURE_RPC_FLAG
      <> 0 ->
    0 <= auth_context_id w ->
    auth_context_id w + 1 < 2 ^ 32 ->
    let user := smb_ipc_get_user SMB_USERNAME_MAXLEN in
    let c := auth_context_id w in
    let w1 := snd (netr_open_secure s d w) in
    let w2 := snd (netr_open_secure s' d' w1) in
    ssp_auth_context_id w1 = c
    /\ ssp_auth_context_id w2 = c + 1
    /\ ext_log w2
       = Call_ndr_rpc_bind_secure s' d' user (c + 1)
           :: Call_ndr_rpc_bind_secure s d user c :: ext_log w
    /\ netr_global_info w2 = netr_global_info w
    /\ fst (netr_open_secure s d w) = ndr_rpc_bind_secure s d user c.
Proof.
  intros s d s' d' w Hflag H0 H1 user c w1 w2.
  apply Z.eqb_neq in Hflag.
  assert (Hd : dword (c + 1) = c + 1).
  { unfold dword. apply Z.mod_small. unfold c. lia. }
  assert (Hw1 : netr_open_secure s d w
                = (ndr_rpc_bind_secure s d user c,
                   log_call (Call_ndr_rpc_bind_secure s d user c)
                     {| netr_global_info := netr_global_info w;
                        ssp_auth_verify_resp := ssp_auth_verify_resp w;
                        ssp_auth_context_id := c;
                        auth_context_id := c + 1;
                        arc4_draws := arc4_draws w;
                        ext_log := ext_log w |})).
  { unfold netr_open_secure. rewrite Hflag. cbn [negb]. fold c.
    rewrite Hd. reflexivity. }
  subst w2 w1. rewrite Hw1. cbn [fst snd].
  unfold netr_open_secure.
  cbn [netr_global_info log_call auth_context_id].
  rewrite Hflag. cbn. repeat split; reflexivity.
Qed.

(** ** Configuration *)

(** X25: the configuration word is read through its three low bits
    only, and each call overrides what an earlier call had set: the
    switches after [netlogon_init_global] depend on the last word given
    and on nothing else. *)
Theorem netlogon_init_global_low_bits :
  forall (cfg cfg' : Z) (w : world),
    netlogon_init_global cfg w = netlogon_init_global (Z.land cfg 7) w
    /\ netlogon_init_global cfg (snd (netlogon_init_global cfg' w))
       = netlogon_init_global cfg w.
Proof.
  intros cfg cfg' w. split.
  - unfold netlogon_init_global, NETR_CFG_DISABLE_SECURE_RPC,
      NETR_CFG_DISABLE_RESP_VERIF, NETR_CFG_DISABLE_SAMLOGONEX.
    rewrite <- !Z.land_assoc. reflexivity.
  - reflexivity.
Qed.

End MoreSession.

(** ** The further statements on the sample world *)

Lemma sample_trust_password (f : fault) :
  f <> Fault_password ->
  @trust_password_is sample_headers (faulty_extern f)
    (netr_global_info (sample_challenged_world true))
    ([112; 119] ++ repeat 0 30).
Proof.
  intros Hf. destruct f; try contradiction;
    (split; [reflexivity | cbn; lia]).
Qed.

Lemma netr_gen_credentials_zero_timestamp_witness :
  let sk := sample_block16 192 in
  let challenge := [3; 2; 3; 4; 4; 2; 3; 4] in
  credential_le_data challenge 0 = challenge
  /\ @netr_gen_credentials good_server sk challenge 0 (repeat 0 8) false
     = @smb_auth_DES good_server (slice NETR_DESKEY_LEN NETR_DESKEY_LEN sk)
         (firstn 8
            (snd (@smb_auth_DES good_server (slice 0 NETR_DESKEY_LEN sk)
                    challenge))).
Proof.
  cbv zeta.
  destruct (@netr_gen_credentials_zero_timestamp good_server
              (sample_block16 192) [3; 2; 3; 4; 4; 2; 3; 4] (repeat 0 8)
              eq_refl) as [Hz Hrun].
  - repeat constructor; unfold is_byte; lia.
  - split; [exact Hz|]. apply Hrun. reflexivity.
Defined.

Lemma netr_gen_credentials_first_pass_failure_witness :
  @netr_gen_credentials (faulty_extern Fault_cipher) (sample_block16 192)
    [3; 2; 3; 4; 4; 2; 3; 4] 5 [9; 9; 9; 9; 9; 9; 9; 9] true
  = (SMBAUTH_FAILURE, [9; 9; 9; 9; 9; 9; 9; 9]).
Proof.
  apply (@netr_gen_credentials_first_pass_failure
           (faulty_extern Fault_cipher)).
  cbn. discriminate.
Defined.

Lemma netr_gen_credentials_reads_prefixes_witness :
  let sk := sample_block16 192 in
  let sk' := firstn 14 (sample_block16 192) ++ [0; 0] in
  let challenge := [3; 2; 3; 4; 4; 2; 3; 4] in
  sk <> sk'
  /\ @netr_gen_credentials good_server sk challenge 5 (repeat 0 8) true
     = @netr_gen_credentials good_server sk' (challenge ++ [1; 1]) 5
         (repeat 0 8) true.
Proof.
  cbv zeta. split; [discriminate|].
  apply (@netr_gen_credentials_reads_prefixes good_server); reflexivity.
Defined.

Lemma netr_gen_password_halves_witness :
  let sk := sample_block16 192 in
  let old := sample_block16 3 in
  let half1 := @smb_auth_DES good_server (key_bytes 0 sk) (firstn 8 old) in
  let half2 :=
    @smb_auth_DES good_server (key_bytes 7 sk) (firstn 8 (skipn 8 old)) in
  @netr_gen_password good_server sk old (repeat 0 16)
  = (fst half2, snd half1 ++ snd half2).
Proof.
  cbv zeta.
  destruct (@netr_gen_password_halves good_server (sample_block16 192)
              (sample_block16 3) (repeat 0 16) eq_refl
              (sample_des_blocks _ _ _)) as [Hok _].
  apply Hok. reflexivity.
Defined.

Lemma netr_gen_skey_wipes_password_witness :
  let info := netr_global_info (sample_challenged_world true) in
  password (snd (@netr_gen_skey128 sample_headers
                   (faulty_extern Fault_digest_update) info))
  = repeat 0 32
  /\ password (snd (@netr_gen_skey64 sample_headers
                      (faulty_extern Fault_digest_update) info))
     = repeat 0 32.
Proof.
  cbv zeta.
  exact (@netr_gen_skey_wipes_password sample_headers
           (faulty_extern Fault_digest_update) _ _
           (sample_trust_password Fault_digest_update
              ltac:(discriminate))).
Defined.

Lemma netr_gen_skey_ignores_stored_password_witness :
  let info := netr_global_info (sample_challenged_world true) in
  @netr_gen_skey128 sample_headers good_server
    (set_password info (repeat 7 32))
  = @netr_gen_skey128 sample_headers good_server info
  /\ @netr_gen_skey64 sample_headers good_server
       (set_password info (repeat 7 32))
     = @netr_gen_skey64 sample_headers good_server info.
Proof.
  cbv zeta.
  apply (@netr_gen_skey_ignores_stored_password sample_headers good_server).
  reflexivity.
Defined.

Lemma netr_gen_skey_hash_failure_witness :
  let info := netr_global_info (sample_challenged_world true) in
  (fst (@netr_gen_skey128 sample_headers (faulty_extern Fault_hash) info)
   = SMBAUTH_FAILURE
   /\ session_key (snd (@netr_gen_skey128 sample_headers
                          (faulty_extern Fault_hash) info))
      = session_key info)
  /\ (fst (@netr_gen_skey64 sample_headers (faulty_extern Fault_hash) info)
      = SMBAUTH_FAILURE
      /\ session_key (snd (@netr_gen_skey64 sample_headers
                             (faulty_extern Fault_hash) info))
         = session_key info).
Proof.
  cbv zeta.
  apply (@netr_gen_skey_hash_failure sample_headers
           (faulty_extern Fault_hash) _ ([112; 119] ++ repeat 0 30)).
  - apply sample_trust_password. discriminate.
  - cbn. discriminate.
Defined.

Lemma netr_gen_skey128_digest_failure_witness :
  let info := netr_global_info (sample_challenged_world true) in
  @digest_call_fails sample_headers (faulty_extern Fault_digest_update)
  /\ fst (@netr_gen_skey128 sample_headers
            (faulty_extern Fault_digest_update) info) = SMBAUTH_SUCCESS
  /\ session_key (snd (@netr_gen_skey128 sample_headers
                         (faulty_extern Fault_digest_update) info))
     = session_key info.
Proof.
  cbv zeta.
  assert (Hfails : @digest_call_fails sample_headers
                     (faulty_extern Fault_digest_update)).
  { right. right. left. cbn. discriminate. }
  split; [exact Hfails|].
  destruct (@netr_gen_skey128_digest_failure sample_headers
              (faulty_extern Fault_digest_update)
              (netr_global_info (sample_challenged_world true))
              ([112; 119] ++ repeat 0 30)
              (sample_block16 (byte_sum ([112; 119] ++ repeat 0 30)))
              (sample_trust_password Fault_digest_update
                 ltac:(discriminate))
              eq_refl) as [_ Hdig].
  apply Hdig; [reflexivity | exact Hfails].
Defined.

Lemma netr_server_authenticate2_unanswered_witness :
  @auth2_unanswered sample_headers (faulty_extern Fault_auth_call)
    (sample_challenged_world true)
  /\ fst (@netr_server_authenticate2 sample_headers
            (faulty_extern Fault_auth_call) (sample_challenged_world true))
     = -1
  /\ auth2_untouched (netr_global_info (sample_challenged_world true))
       (netr_global_info
          (snd (@netr_server_authenticate2 sample_headers
                  (faulty_extern Fault_auth_call)
                  (sample_challenged_world true)))).
Proof.
  assert (Hun : @auth2_unanswered sample_headers
                  (faulty_extern Fault_auth_call)
                  (sample_challenged_world true)).
  { intros i3 cc sc reply (_ & _ & _ & Hcall & _).
    cbn in Hcall. discriminate Hcall. }
  split; [exact Hun|].
  exact (@netr_server_authenticate2_unanswered sample_headers
           (faulty_extern Fault_auth_call) _ Hun).
Defined.

Lemma netr_server_authenticate2_zero_means_match_witness :
  exists i3 cc sc reply,
    @auth2_answered sample_headers good_server
      (sample_challenged_world true) i3 cc sc reply
    /\ memcmp sc (sa_server_credential reply) NETR_CRED_DATA_SZ = 0
    /\ (length sc = 8%nat -> length (sa_server_credential reply) = 8%nat ->
        sc = sa_server_credential reply).
Proof.
  exact (@netr_server_authenticate2_zero_means_match sample_headers
           good_server (sample_challenged_world true) eq_refl).
Defined.

Lemma netlogon_auth_open_failure_witness :
  @netlogon_auth sample_headers (faulty_extern Fault_bind) 0 "dc1" "DOM" 0
    (sample_world true)
  = Some (0xC0000022,
          log_call Call_syslog
            (log_call (Call_ndr_rpc_bind "dc1" "DOM" "ipcuser")
               (sample_world true))).
Proof.
  apply (@netlogon_auth_open_failure sample_headers
           (faulty_extern Fault_bind) 0 "dc1" "DOM" 0 (sample_world true)).
  cbn. discriminate.
Defined.

Lemma netlogon_auth_name_failure_witness :
  exists w',
    @netlogon_auth sample_headers (faulty_extern Fault_netbios_name) 0
      "dc1" "DOM" 4 (sample_world true)
    = Some (@NT_STATUS_UNSUCCESSFUL sample_headers, w')
    /\ ext_log w'
       = [Call_ndr_rpc_unbind; Call_ndr_rpc_bind "dc1" "DOM" "ipcuser"]
    /\ arc4_draws w' = 0%nat
    /\ session_key (netr_global_info w')
       = {| key := repeat 0 16; len := 0 |}
    /\ flags (netr_global_info w') = 4
    /\ client_challenge (netr_global_info w') = repeat 0 8
    /\ server_challenge (netr_global_info w') = repeat 0 8.
Proof.
  apply (@netlogon_auth_name_failure sample_headers
           (faulty_extern Fault_netbios_name) 0 "dc1" "DOM" 4
           (sample_world true)).
  - reflexivity.
  - left. cbn. discriminate.
Defined.


Lemma netlogon_auth_closes_witness :
  exists st w',
    @netlogon_auth sample_headers (faulty_extern Fault_req_status) 3
      "dc1" "DOM" 0 (sample_world true) = Some (st, w')
    /\ (st = @NT_STATUS_SUCCESS sample_headers
        \/ st = @NT_STATUS_UNSUCCESSFUL sample_headers)
    /\ exists rest, ext_log w' = Call_ndr_rpc_unbind :: rest.
Proof.
  assert (Hex : exists st w',
            @netlogon_auth sample_headers (faulty_extern Fault_req_status)
              3 "dc1" "DOM" 0 (sample_world true) = Some (st, w')).
  { do 2 eexists. lazy; reflexivity. }
  destruct Hex as (st & w' & Hrun).
  exists st, w'. split; [exact Hrun|].
  exact (@netlogon_auth_closes sample_headers
           (faulty_extern Fault_req_status) 3 "dc1" "DOM" 0
           (sample_world true) st w' eq_refl Hrun).
Defined.

Lemma netlogon_auth_success_only_on_match_witness :
  exists w',
    @netlogon_auth sample_headers good_server 3 "dc1" "DOM" 0
      (sample_world true) = Some (@NT_STATUS_SUCCESS sample_headers, w')
    /\ exists w1 w2 w3 i3 cc sc reply,
         @netlogon_auth_prepare sample_headers good_server "dc1" "DOM" 0
           (sample_world true) = inr w1
         /\ @client_challenge_loop good_server 3 w1 = Some w2
         /\ @netr_server_req_challenge good_server w2 = (0, w3)
         /\ @auth2_answered sample_headers good_server w3 i3 cc sc reply
         /\ memcmp sc (sa_server_credential reply) NETR_CRED_DATA_SZ = 0
         /\ (length sc = 8%nat ->
             length (sa_server_credential reply) = 8%nat ->
             sc = sa_server_credential reply).
Proof.
  assert (Hex : exists w',
            @netlogon_auth sample_headers good_server 3 "dc1" "DOM" 0
              (sample_world true)
            = Some (@NT_STATUS_SUCCESS sample_headers, w')).
  { eexists. lazy; reflexivity. }
  destruct Hex as (w' & Hrun).
  exists w'. split; [exact Hrun|].
  apply (@netlogon_auth_success_only_on_match sample_headers good_server
           eq_refl ltac:(discriminate) 3 "dc1" "DOM" 0 (sample_world true)
           w' Hrun).
Defined.

Lemma netlogon_auth_challenge_passes_witness :
  exists w1 st w',
    @netlogon_auth_prepare sample_headers bad_server "dc1" "DOM" 0
      (sample_world true) = inr w1
    /\ @netlogon_auth sample_headers bad_server 3 "dc1" "DOM" 0
         (sample_world true) = Some (st, w')
    /\ passes_dc_mitigation (client_challenge (netr_global_info w')) = true
    /\ exists k,
         client_challenge (netr_global_info w')
         = @challenge_of_draws bad_server (arc4_draws w1 + 2 * k).
Proof.
  assert (Hex : exists w1 st w',
            @netlogon_auth_prepare sample_headers bad_server "dc1" "DOM" 0
              (sample_world true) = inr w1
            /\ @netlogon_auth sample_headers bad_server 3 "dc1" "DOM" 0
                 (sample_world true) = Some (st, w')).
  { do 3 eexists. split; lazy; reflexivity. }
  destruct Hex as (w1 & st & w' & Hprep & Hrun).
  exists w1, st, w'. split; [exact Hprep|]. split; [exact Hrun|].
  exact (@netlogon_auth_challenge_passes sample_headers bad_server 3
           "dc1" "DOM" 0 (sample_world true) w1 st w' Hprep Hrun).
Defined.

Lemma netr_server_password_set_answered_witness :
  let w := sample_challenged_world true in
  let r :=
    @netr_server_password_set sample_headers (faulty_extern Fault_validate)
      (repeat 0 16) w in
  fst r = 0
  /\ password (netr_global_info (snd r)) = password (netr_global_info w)
  /\ ext_log (snd r)
     = Call_ndr_rpc_release :: Call_ndr_rpc_call_PasswordSet :: ext_log w.
Proof.
  cbv zeta.
  assert (Hex : exists i1 auth rc np reply,
            @netr_setup_authenticator (faulty_extern Fault_validate)
              (netr_global_info (sample_challenged_world true))
            = (SMBAUTH_SUCCESS, i1, auth)
            /\ @netr_gen_password (faulty_extern Fault_validate)
                 (key (session_key i1)) (password i1) (repeat 0 16)
               = (rc, np)
            /\ rc <> SMBAUTH_FAILURE
            /\ @ndr_rpc_call_PasswordSet (faulty_extern Fault_validate)
                 (@password_set_arg sample_headers
                    (netr_global_info (sample_challenged_world true))
                    i1 auth np) = (0, reply)
            /\ ps_status reply = 0).
  { do 5 eexists.
    split; [lazy; reflexivity|]. split; [lazy; reflexivity|].
    split; [discriminate|]. split; [lazy; reflexivity | reflexivity]. }
  destruct Hex as (i1 & auth & rc & np & reply & H1 & H2 & H3 & H4 & H5).
  destruct (@netr_server_password_set_answered sample_headers
              (faulty_extern Fault_validate) (repeat 0 16)
              (sample_challenged_world true) i1 auth rc np reply
              H1 H2 H3 H4 H5) as [Hr [_ [_ Hlog]]].
  split; [exact Hr|]. split; [reflexivity | exact Hlog].
Defined.

Lemma netr_open_secure_context_ids_witness :
  let w :=
    put_info (sample_world true)
      (set_nego_flags (sample_info true) 0x400041ff) in
  let w1 := snd (@netr_open_secure sample_headers good_server "dc1" "DOM" w)
  in
  let w2 :=
    snd (@netr_open_secure sample_headers good_server "dc2" "DOM" w1) in
  ssp_auth_context_id w1 = 1
  /\ ssp_auth_context_id w2 = 2
  /\ ext_log w2
     = Call_ndr_rpc_bind_secure "dc2" "DOM" "ipcuser" 2
         :: Call_ndr_rpc_bind_secure "dc1" "DOM" "ipcuser" 1 :: ext_log w
  /\ netr_global_info w2 = netr_global_info w.
Proof.
  cbv zeta.
  destruct (@netr_open_secure_context_ids sample_headers good_server
              "dc1" "DOM" "dc2" "DOM"
              (put_info (sample_world true)
                 (set_nego_flags (sample_info true) 0x400041ff)))
    as (Ha & Hb & Hc & Hd & _).
  - cbn. discriminate.
  - cbn. lia.
  - cbn. lia.
  - repeat split; assumption.
Defined.
